(** * The workflow store of the deep-research client, and its history page

    A shallow embedding of [client/src/stores/workflowStore.ts] (the zustand
    store that folds real-time events into the client snapshot) and of the
    hydration code of [client/src/pages/HistoryPage.tsx].

    Conventions of the embedding
    - a store action [f: (args) => set((state) => partial)] is a function
      [f args state] that returns the state after zustand has merged
      [partial] into it;
    - an optional property ([x?: T], [T | null]) is an [option]; a
      [Partial<T>] argument is a record of options, [None] standing for an
      absent key;
    - integral [number]s (ids, counters) are [Z], fractional ones [Qc];
    - [Record<K, V>] objects are finite maps ([gmap]) of their own
      properties; with string keys this is the plain object of the code
      for the keys that are no member name of [Object.prototype]
      ([plain_key]), and the properties that depend on a lookup of a
      stream buffer are stated for such keys;
    - [new Date().toISOString()] is an explicit argument [now];
    - [new Date(timestamp).getTime()] is a function [getTime] to
      [option Z], [None] standing for NaN;
    - fields of nested records carry a short prefix ([ss_] for
      scrapingStatus, [ras_] for researchAgentStatus, ...), the fields of
      the store itself keep their names.

    The file has three parts: the model (data, store actions, history
    page), the vocabulary the properties are stated in together with sample
    data, and the properties. *)

From stdpp Require Import gmap strings list fin_maps sorting pretty.
From Stdlib Require Import ZArith Qcanon Permutation DecimalString.

Local Close Scope Qc_scope.
Local Open Scope string_scope.
Local Open Scope list_scope.

(** ** Data model *)

(** A JSON value the store only carries around ([any]). *)
Definition Json := string.

Inductive ItemStatus := Pending | InProgress | Completed | Failed.
Inductive LiveStatus := LivePending | Streaming | Ready | LiveError.
Inductive BufferStatus := Active | BufCompleted | BufError.
Inductive Role := User | Assistant | System.
Inductive MessageStatus := Queued | MsgInProgress | MsgCompleted | MsgError.
Inductive ReportStatus := Generating | ReportReady | ReportError.
Inductive InputType := GoalSelection | PlanConfirmation | CustomInput.

#[global] Instance ItemStatus_eq_dec : EqDecision ItemStatus.
Proof. solve_decision. Defined.
#[global] Instance LiveStatus_eq_dec : EqDecision LiveStatus.
Proof. solve_decision. Defined.

Record ScrapingItem := {
  si_link_id : option string;
  si_url : string;
  si_status : ItemStatus;
  si_error : option string;
  si_current_stage : option string;
  si_stage_progress : option Qc;
  si_overall_progress : option Qc;
  si_status_message : option string;
  si_started_at : option string;
  si_completed_at : option string;
  si_source : option string;
  si_word_count : option Z;
  si_bytes_downloaded : option Z;
  si_total_bytes : option Z }.

(** [Partial<ScrapingItem>] *)
Record ScrapingItemPartial := {
  sp_link_id : option string;
  sp_url : option string;
  sp_status : option ItemStatus;
  sp_error : option string;
  sp_current_stage : option string;
  sp_stage_progress : option Qc;
  sp_overall_progress : option Qc;
  sp_status_message : option string;
  sp_started_at : option string;
  sp_completed_at : option string;
  sp_source : option string;
  sp_word_count : option Z;
  sp_bytes_downloaded : option Z;
  sp_total_bytes : option Z }.

Record Findings := {
  f_summary : string;
  f_article : option string;
  f_key_claims : list (string * string);
  f_notable_evidence : list (string * string);
  f_five_whys : list (Z * string * string);
  f_assumptions : list string;
  f_uncertainties : list string }.

Record SessionStep := {
  step_id : Z;
  findings : Findings;
  insights : string;
  confidence : Qc;
  timestamp : string }.

Record StreamState := {
  st_isStreaming : bool;
  st_phase : option string;
  st_metadata : option Json;
  st_startedAt : option string;
  st_lastTokenAt : option string;
  st_endedAt : option string }.

Record StreamBufferState := {
  sb_isStreaming : bool;
  sb_phase : option string;
  sb_metadata : option Json;
  sb_startedAt : option string;
  sb_lastTokenAt : option string;
  sb_endedAt : option string;
  sb_id : string;
  sb_raw : string;
  sb_status : BufferStatus;
  sb_tokenCount : Z;
  sb_error : option string;
  sb_pinned : option bool }.

Record StreamCollectionState := {
  activeStreamId : option string;
  buffers : gmap string StreamBufferState;
  order : list string;
  pinned : list string }.

Record LiveGoal := {
  lg_id : Z;
  lg_goal_text : option string;
  lg_rationale : option string;
  lg_uses : option (list string);
  lg_sources : option (list string);
  lg_status : LiveStatus;
  lg_updatedAt : option string }.

(** [Partial<LiveGoal> & { id: number }] *)
Record LiveGoalUpdate := {
  gu_id : Z;
  gu_goal_text : option string;
  gu_rationale : option string;
  gu_uses : option (list string);
  gu_sources : option (list string);
  gu_status : option LiveStatus;
  gu_updatedAt : option string }.

(** An element of [researchAgentStatus.goals].  Its declared type has [id],
    [goal_text] and [uses] only; [updateLiveGoal] spreads a goal update over
    it, so at run time it can carry the other properties of a goal too. *)
Record GoalEntry := {
  ge_id : Z;
  ge_goal_text : string;
  ge_uses : option (list string);
  ge_sources : option (list string);
  ge_rationale : option string;
  ge_status : option LiveStatus;
  ge_updatedAt : option string }.

Record LivePlanStep := {
  lp_step_id : Z;
  lp_goal : option string;
  lp_required_data : option string;
  lp_chunk_strategy : option string;
  lp_notes : option string;
  lp_status : LiveStatus;
  lp_updatedAt : option string }.

(** An element of [plan].  [status] and [updatedAt] are not in the declared
    type: they are the keys [updateLivePlanStep] spreads into an element
    when the update carries them. *)
Record PlanStep := {
  ps_step_id : Z;
  ps_goal : string;
  ps_required_data : option string;
  ps_chunk_strategy : option string;
  ps_notes : option string;
  ps_status : option LiveStatus;
  ps_updatedAt : option string }.

(** [Partial<LivePlanStep> & { step_id: number }] *)
Record LivePlanStepUpdate := {
  pu_step_id : Z;
  pu_goal : option string;
  pu_required_data : option string;
  pu_chunk_strategy : option string;
  pu_notes : option string;
  pu_status : option LiveStatus;
  pu_updatedAt : option string }.

Record LiveInsight := {
  li_id : string;
  li_title : option string;
  li_summary : option string;
  li_sources : option (list string);
  li_status : LiveStatus;
  li_updatedAt : option string }.

Record LiveAction := {
  la_id : string;
  la_description : option string;
  la_result : option string;
  la_status : LiveStatus;
  la_updatedAt : option string }.

Record LiveReportSection := {
  lr_id : string;
  lr_heading : option string;
  lr_content : option string;
  lr_status : LiveStatus;
  lr_updatedAt : option string }.

Record ConversationMessage := {
  cm_id : string;
  cm_role : Role;
  cm_content : string;
  cm_status : MessageStatus;
  cm_timestamp : string;
  cm_metadata : option Json }.

Record RerunState := {
  rr_inProgress : bool;
  rr_phase : option string;
  rr_phases : list string;
  rr_lastError : option string }.

Record StepRerunState := {
  sr_inProgress : bool;
  sr_stepId : option Z;
  sr_regenerateReport : bool;
  sr_lastError : option string }.

Record ScrapingStatus := {
  ss_total : Z;
  ss_expectedTotal : Z;
  ss_completed : Z;
  ss_failed : Z;
  ss_inProgress : Z;
  ss_items : list ScrapingItem;
  ss_completionRate : Qc;
  ss_is100Percent : bool;
  ss_canProceedToResearch : bool }.

Record CancellationInfo := {
  cancelled_at : option string;
  reason : option string;
  state_at_cancellation : option Json }.

Record UserInputRequired := {
  ui_type : InputType;
  ui_prompt_id : option string;
  ui_prompt : option string;
  ui_data : option Json }.

Record SynthesizedGoal := {
  comprehensive_topic : string;
  component_questions : list string;
  unifying_theme : option string }.

Record SummarizationProgress := {
  currentItem : Z;
  totalItems : Z;
  linkId : string;
  stage : string;
  progress : Qc;
  message : string }.

Record ResearchAgentStatus := {
  ras_streams : StreamCollectionState;
  ras_phase : string;
  ras_currentAction : option string;
  ras_waitingForUser : bool;
  ras_userInputRequired : option UserInputRequired;
  ras_streamBuffer : string;
  ras_streamingState : StreamState;
  ras_liveGoals : gmap Z LiveGoal;
  ras_goalOrder : list Z;
  ras_goals : option (list GoalEntry);
  ras_livePlanSteps : gmap Z LivePlanStep;
  ras_planOrder : list Z;
  ras_plan : option (list PlanStep);
  ras_liveInsights : gmap string LiveInsight;
  ras_liveActions : gmap string LiveAction;
  ras_liveReportSections : gmap string LiveReportSection;
  ras_synthesizedGoal : option SynthesizedGoal;
  ras_summarizationProgress : option SummarizationProgress;
  ras_conversationMessages : list ConversationMessage }.

Record FinalReport := {
  fr_content : string;
  fr_generatedAt : string;
  fr_status : ReportStatus }.

Record ErrorEntry := {
  er_phase : string;
  er_message : string;
  er_timestamp : string }.

(** The data part of [WorkflowState]. [currentPhase] is a string: the history
    page stores whatever the backend sent ([resolvedPhase as any]). *)
Record WorkflowState := {
  currentPhase : string;
  batchId : option string;
  workflowId : option string;
  workflowStarted : bool;
  sessionId : option string;
  reportStale : bool;
  rerunState : RerunState;
  stepRerunState : StepRerunState;
  overallProgress : Qc;
  currentStep : option string;
  stepProgress : Qc;
  scrapingStatus : ScrapingStatus;
  cancelled : bool;
  cancellationInfo : option CancellationInfo;
  researchAgentStatus : ResearchAgentStatus;
  phase3Steps : list SessionStep;
  currentStepId : option Z;
  finalReport : option FinalReport;
  errors : list ErrorEntry }.

Definition initialState : WorkflowState := {|
  currentPhase := "input";
  batchId := None;
  workflowId := None;
  workflowStarted := false;
  sessionId := None;
  reportStale := false;
  rerunState := {|
    rr_inProgress := false;
    rr_phase := None;
    rr_phases := [];
    rr_lastError := None |};
  stepRerunState := {|
    sr_inProgress := false;
    sr_stepId := None;
    sr_regenerateReport := true;
    sr_lastError := None |};
  overallProgress := 0%Qc;
  currentStep := None;
  stepProgress := 0%Qc;
  scrapingStatus := {|
    ss_total := 0;
    ss_expectedTotal := 0;
    ss_completed := 0;
    ss_failed := 0;
    ss_inProgress := 0;
    ss_items := [];
    ss_completionRate := 0%Qc;
    ss_is100Percent := false;
    ss_canProceedToResearch := false |};
  researchAgentStatus := {|
    ras_streams := {|
      activeStreamId := None;
      buffers := ∅;
      order := [];
      pinned := [] |};
    ras_phase := "0.5";
    ras_currentAction := None;
    ras_waitingForUser := false;
    ras_userInputRequired := None;
    ras_streamBuffer := "";
    ras_streamingState := {|
      st_isStreaming := false;
      st_phase := None;
      st_metadata := None;
      st_startedAt := None;
      st_lastTokenAt := None;
      st_endedAt := None |};
    ras_liveGoals := ∅;
    ras_goalOrder := [];
    ras_goals := None;
    ras_livePlanSteps := ∅;
    ras_planOrder := [];
    ras_plan := None;
    ras_liveInsights := ∅;
    ras_liveActions := ∅;
    ras_liveReportSections := ∅;
    ras_synthesizedGoal := None;
    ras_summarizationProgress := None;
    ras_conversationMessages := [] |};
  phase3Steps := [];
  currentStepId := None;
  finalReport := None;
  errors := [];
  cancelled := false;
  cancellationInfo := None |}.

(** ** JavaScript helpers *)

(** Truthiness of a [string | null | undefined]. *)
Definition truthy (o : option string) : bool :=
  match o with
  | Some s => negb (String.eqb s "")
  | None => false
  end.

(** [a || b] on optional strings. *)
Definition or_else (a b : option string) : option string :=
  if truthy a then a else b.

(** The member names of [Object.prototype].  The buffers of the streams
    are kept in a plain object: [buffers[streamId]] finds the own property
    of that name or else an inherited member, and an assignment to
    [__proto__] stores no own property.  The finite map of the model holds
    the own properties; for a stream id outside this list the lookup and
    the assignment of the code are those of the map. *)
Definition object_prototype_keys : list string :=
  ["constructor"; "__defineGetter__"; "__defineSetter__"; "hasOwnProperty";
   "__lookupGetter__"; "__lookupSetter__"; "isPrototypeOf";
   "propertyIsEnumerable"; "toString"; "valueOf"; "__proto__";
   "toLocaleString"].

(** A key for which a plain object behaves as a finite map. *)
Definition plain_key (key : string) : Prop := key ∉ object_prototype_keys.

#[global] Instance plain_key_dec (key : string) : Decision (plain_key key).
Proof. unfold plain_key. apply _. Defined.

(** [Array.prototype.sort] with the comparator [(a, b) => key(a) - key(b)].
    The sort is stable (ECMAScript 2019), and the outcome of a stable sort is
    determined by its input, so insertion from the right denotes it: an
    element is put in front of the later elements whose key is not smaller. *)
Section Sort.
Context {A : Type} (key : A → Z).

Fixpoint insert_by (x : A) (l : list A) : list A :=
  match l with
  | [] => [x]
  | y :: l' => if (key x <=? key y)%Z then x :: l else y :: insert_by x l'
  end.

Definition sort_by (l : list A) : list A := foldr insert_by [] l.

(** The order the comparator induces. *)
Definition key_le (a b : A) : Prop := (key a ≤ key b)%Z.
End Sort.

(** [Array.prototype.sort] with a comparator whose result may be NaN
    ([None]); a NaN result counts as +0 (SortCompare).  For a consistent
    comparator the outcome of the stable sort is determined and insertion
    from the right denotes it, as above.  A comparator that returns NaN for
    some pairs only is not consistent, and the language then leaves the
    order to the implementation; it still is a permutation of the array.
    What is proved of the order is proved for consistent comparators; the
    one concrete log with a timestamp that does not parse is a run in
    which every comparison made returns NaN, so that no element moves. *)
Section SortWith.
Context {A : Type} (compare : A → A → option Z).

Fixpoint insert_with (x : A) (l : list A) : list A :=
  match l with
  | [] => [x]
  | y :: l' =>
      if (default 0 (compare x y) <=? 0)%Z then x :: l
      else y :: insert_with x l'
  end.

Definition sort_with (l : list A) : list A := foldr insert_with [] l.
End SortWith.

(** A JavaScript [Map]: entries in insertion order; [set] on a key that is
    present replaces the value where it stands. *)
Fixpoint map_set {V : Type} (k : Z) (v : V) (m : list (Z * V)) : list (Z * V) :=
  match m with
  | [] => [(k, v)]
  | (k', v') :: m' =>
      if decide (k = k') then (k, v) :: m' else (k', v') :: map_set k v m'
  end.

Definition map_values {V : Type} (m : list (Z * V)) : list V := m.*2.

(** ** zustand's [set]: the partial state an action returns is merged into
    the state.  One function per set of keys the actions return. *)

Definition set_batchId_workflowStarted (b : option string) (w : bool)
    (state : WorkflowState) : WorkflowState := {|
  currentPhase := currentPhase state;
  batchId := b;
  workflowId := workflowId state;
  workflowStarted := w;
  sessionId := sessionId state;
  reportStale := reportStale state;
  rerunState := rerunState state;
  stepRerunState := stepRerunState state;
  overallProgress := overallProgress state;
  currentStep := currentStep state;
  stepProgress := stepProgress state;
  scrapingStatus := scrapingStatus state;
  cancelled := cancelled state;
  cancellationInfo := cancellationInfo state;
  researchAgentStatus := researchAgentStatus state;
  phase3Steps := phase3Steps state;
  currentStepId := currentStepId state;
  finalReport := finalReport state;
  errors := errors state |}.

Definition set_currentPhase (p : string) (state : WorkflowState)
    : WorkflowState := {|
  currentPhase := p;
  batchId := batchId state;
  workflowId := workflowId state;
  workflowStarted := workflowStarted state;
  sessionId := sessionId state;
  reportStale := reportStale state;
  rerunState := rerunState state;
  stepRerunState := stepRerunState state;
  overallProgress := overallProgress state;
  currentStep := currentStep state;
  stepProgress := stepProgress state;
  scrapingStatus := scrapingStatus state;
  cancelled := cancelled state;
  cancellationInfo := cancellationInfo state;
  researchAgentStatus := researchAgentStatus state;
  phase3Steps := phase3Steps state;
  currentStepId := currentStepId state;
  finalReport := finalReport state;
  errors := errors state |}.

Definition set_sessionId (i : option string) (state : WorkflowState)
    : WorkflowState := {|
  currentPhase := currentPhase state;
  batchId := batchId state;
  workflowId := workflowId state;
  workflowStarted := workflowStarted state;
  sessionId := i;
  reportStale := reportStale state;
  rerunState := rerunState state;
  stepRerunState := stepRerunState state;
  overallProgress := overallProgress state;
  currentStep := currentStep state;
  stepProgress := stepProgress state;
  scrapingStatus := scrapingStatus state;
  cancelled := cancelled state;
  cancellationInfo := cancellationInfo state;
  researchAgentStatus := researchAgentStatus state;
  phase3Steps := phase3Steps state;
  currentStepId := currentStepId state;
  finalReport := finalReport state;
  errors := errors state |}.

Definition set_scrapingStatus (v : ScrapingStatus) (state : WorkflowState)
    : WorkflowState := {|
  currentPhase := currentPhase state;
  batchId := batchId state;
  workflowId := workflowId state;
  workflowStarted := workflowStarted state;
  sessionId := sessionId state;
  reportStale := reportStale state;
  rerunState := rerunState state;
  stepRerunState := stepRerunState state;
  overallProgress := overallProgress state;
  currentStep := currentStep state;
  stepProgress := stepProgress state;
  scrapingStatus := v;
  cancelled := cancelled state;
  cancellationInfo := cancellationInfo state;
  researchAgentStatus := researchAgentStatus state;
  phase3Steps := phase3Steps state;
  currentStepId := currentStepId state;
  finalReport := finalReport state;
  errors := errors state |}.

Definition set_researchAgentStatus (v : ResearchAgentStatus)
    (state : WorkflowState) : WorkflowState := {|
  currentPhase := currentPhase state;
  batchId := batchId state;
  workflowId := workflowId state;
  workflowStarted := workflowStarted state;
  sessionId := sessionId state;
  reportStale := reportStale state;
  rerunState := rerunState state;
  stepRerunState := stepRerunState state;
  overallProgress := overallProgress state;
  currentStep := currentStep state;
  stepProgress := stepProgress state;
  scrapingStatus := scrapingStatus state;
  cancelled := cancelled state;
  cancellationInfo := cancellationInfo state;
  researchAgentStatus := v;
  phase3Steps := phase3Steps state;
  currentStepId := currentStepId state;
  finalReport := finalReport state;
  errors := errors state |}.

Definition set_phase3Steps_currentStepId (steps : list SessionStep)
    (cur : option Z) (state : WorkflowState) : WorkflowState := {|
  currentPhase := currentPhase state;
  batchId := batchId state;
  workflowId := workflowId state;
  workflowStarted := workflowStarted state;
  sessionId := sessionId state;
  reportStale := reportStale state;
  rerunState := rerunState state;
  stepRerunState := stepRerunState state;
  overallProgress := overallProgress state;
  currentStep := currentStep state;
  stepProgress := stepProgress state;
  scrapingStatus := scrapingStatus state;
  cancelled := cancelled state;
  cancellationInfo := cancellationInfo state;
  researchAgentStatus := researchAgentStatus state;
  phase3Steps := steps;
  currentStepId := cur;
  finalReport := finalReport state;
  errors := errors state |}.

(** ** The store actions *)

Definition setBatchId (batchId' : string) (state : WorkflowState)
    : WorkflowState :=
  if decide (batchId state = Some batchId') then
    set_batchId_workflowStarted (Some batchId') (workflowStarted state) state
  else {|
    batchId := Some batchId';
    workflowId := None;
    workflowStarted := false;
    currentPhase := "input";
    sessionId := None;
    reportStale := false;
    rerunState := {|
      rr_inProgress := false;
      rr_phase := None;
      rr_phases := [];
      rr_lastError := None |};
    stepRerunState := {|
      sr_inProgress := false;
      sr_stepId := None;
      sr_regenerateReport := true;
      sr_lastError := None |};
    overallProgress := 0%Qc;
    currentStep := None;
    stepProgress := 0%Qc;
    scrapingStatus := {|
      ss_total := 0;
      ss_expectedTotal := 0;
      ss_completed := 0;
      ss_failed := 0;
      ss_inProgress := 0;
      ss_items := [];
      ss_completionRate := 0%Qc;
      ss_is100Percent := false;
      ss_canProceedToResearch := false |};
    cancelled := false;
    cancellationInfo := None;
    researchAgentStatus := {|
      ras_streams := {|
        activeStreamId := None;
        buffers := ∅;
        order := [];
        pinned := [] |};
      ras_phase := "0.5";
      ras_currentAction := None;
      ras_waitingForUser := false;
      ras_userInputRequired := None;
      ras_streamBuffer := "";
      ras_streamingState := {|
        st_isStreaming := false;
        st_phase := None;
        st_metadata := None;
        st_startedAt := None;
        st_lastTokenAt := None;
        st_endedAt := None |};
      ras_liveGoals := ∅;
      ras_goalOrder := [];
      ras_goals := None;
      ras_livePlanSteps := ∅;
      ras_planOrder := [];
      ras_plan := None;
      ras_liveInsights := ∅;
      ras_liveActions := ∅;
      ras_liveReportSections := ∅;
      ras_synthesizedGoal := None;
      ras_summarizationProgress := None;
      ras_conversationMessages := [] |};
    phase3Steps := [];
    currentStepId := None;
    finalReport := None;
    errors := [] |}.

Definition setWorkflowStarted (started : bool) (state : WorkflowState)
    : WorkflowState :=
  set_batchId_workflowStarted (batchId state) started state.

Definition setCurrentPhase (phase : string) (state : WorkflowState)
    : WorkflowState :=
  set_currentPhase phase state.

Definition setSessionId (sessionId' : option string) (state : WorkflowState)
    : WorkflowState :=
  set_sessionId sessionId' state.

(** The [expectedTotal] key of an update: absent, [null], or a number. *)
Inductive ExpectedTotalArg :=
  | EtAbsent
  | EtNull
  | EtNumber (n : Z).

(** [Partial<WorkflowState['scrapingStatus']>] *)
Record ScrapingStatusPartial := {
  up_total : option Z;
  up_expectedTotal : ExpectedTotalArg;
  up_completed : option Z;
  up_failed : option Z;
  up_inProgress : option Z;
  up_items : option (list ScrapingItem);
  up_completionRate : option Qc;
  up_is100Percent : option bool;
  up_canProceedToResearch : option bool }.

Definition updateScrapingStatus (status : ScrapingStatusPartial)
    (state : WorkflowState) : WorkflowState :=
  let cur := scrapingStatus state in
  (* the expectedTotal key of updatedStatus after the guarded deletes *)
  let updated_expectedTotal : option Z :=
    match up_expectedTotal status with
    | EtAbsent => None
    | EtNull =>
        if (0 <? ss_expectedTotal cur)%Z then None else None
    | EtNumber n =>
        if (n =? 0)%Z then
          if (0 <? ss_expectedTotal cur)%Z then None else None
        else Some n
    end in
  set_scrapingStatus {|
    ss_total := default (ss_total cur) (up_total status);
    ss_expectedTotal := default (ss_expectedTotal cur) updated_expectedTotal;
    ss_completed := default (ss_completed cur) (up_completed status);
    ss_failed := default (ss_failed cur) (up_failed status);
    ss_inProgress := default (ss_inProgress cur) (up_inProgress status);
    ss_items := default (ss_items cur) (up_items status);
    ss_completionRate :=
      default (ss_completionRate cur) (up_completionRate status);
    ss_is100Percent := default (ss_is100Percent cur) (up_is100Percent status);
    ss_canProceedToResearch :=
      default (ss_canProceedToResearch cur) (up_canProceedToResearch status)
  |} state.

(** [{ ...item, status, error }] *)
Definition item_with_status (item : ScrapingItem) (status : ItemStatus)
    (error : option string) : ScrapingItem := {|
  si_link_id := si_link_id item;
  si_url := si_url item;
  si_status := status;
  si_error := error;
  si_current_stage := si_current_stage item;
  si_stage_progress := si_stage_progress item;
  si_overall_progress := si_overall_progress item;
  si_status_message := si_status_message item;
  si_started_at := si_started_at item;
  si_completed_at := si_completed_at item;
  si_source := si_source item;
  si_word_count := si_word_count item;
  si_bytes_downloaded := si_bytes_downloaded item;
  si_total_bytes := si_total_bytes item |}.

(** [{ ...state.scrapingStatus, items, completed, failed, inProgress }] *)
Definition with_items (cur : ScrapingStatus) (items : list ScrapingItem)
    (completed failed inProgress : Z) : ScrapingStatus := {|
  ss_total := ss_total cur;
  ss_expectedTotal := ss_expectedTotal cur;
  ss_completed := completed;
  ss_failed := failed;
  ss_inProgress := inProgress;
  ss_items := items;
  ss_completionRate := ss_completionRate cur;
  ss_is100Percent := ss_is100Percent cur;
  ss_canProceedToResearch := ss_canProceedToResearch cur |}.

Definition updateScrapingItem (url : string) (status : ItemStatus)
    (error : option string) (state : WorkflowState) : WorkflowState :=
  let items :=
    (λ item, if decide (si_url item = url)
             then item_with_status item status error else item)
    <$> ss_items (scrapingStatus state) in
  let completed :=
    Z.of_nat (length (filter (λ i, si_status i = Completed) items)) in
  let failed :=
    Z.of_nat (length (filter (λ i, si_status i = Failed) items)) in
  let inProgress :=
    Z.of_nat (length (filter (λ i, si_status i = InProgress) items)) in
  set_scrapingStatus
    (with_items (scrapingStatus state) items completed failed inProgress)
    state.

(** [{ ...item, ...progress, status: progress.status || item.status ||
    'in-progress' }]: every status is a non-empty string, so the first
    disjunct that is present wins. *)
Definition item_merge (item : ScrapingItem) (progress : ScrapingItemPartial)
    : ScrapingItem := {|
  si_link_id := sp_link_id progress ∪ si_link_id item;
  si_url := default (si_url item) (sp_url progress);
  si_status := default (si_status item) (sp_status progress);
  si_error := sp_error progress ∪ si_error item;
  si_current_stage := sp_current_stage progress ∪ si_current_stage item;
  si_stage_progress := sp_stage_progress progress ∪ si_stage_progress item;
  si_overall_progress :=
    sp_overall_progress progress ∪ si_overall_progress item;
  si_status_message := sp_status_message progress ∪ si_status_message item;
  si_started_at := sp_started_at progress ∪ si_started_at item;
  si_completed_at := sp_completed_at progress ∪ si_completed_at item;
  si_source := sp_source progress ∪ si_source item;
  si_word_count := sp_word_count progress ∪ si_word_count item;
  si_bytes_downloaded :=
    sp_bytes_downloaded progress ∪ si_bytes_downloaded item;
  si_total_bytes := sp_total_bytes progress ∪ si_total_bytes item |}.

(** [{ link_id, url, status: progress.status || 'in-progress',
    ...progress }] *)
Definition item_new (link_id : option string) (url : string)
    (progress : ScrapingItemPartial) : ScrapingItem := {|
  si_link_id := sp_link_id progress ∪ link_id;
  si_url := default url (sp_url progress);
  si_status := default InProgress (sp_status progress);
  si_error := sp_error progress;
  si_current_stage := sp_current_stage progress;
  si_stage_progress := sp_stage_progress progress;
  si_overall_progress := sp_overall_progress progress;
  si_status_message := sp_status_message progress;
  si_started_at := sp_started_at progress;
  si_completed_at := sp_completed_at progress;
  si_source := sp_source progress;
  si_word_count := sp_word_count progress;
  si_bytes_downloaded := sp_bytes_downloaded progress;
  si_total_bytes := sp_total_bytes progress |}.

(** [link_id ? item.link_id === link_id : item.url === url]; the test of
    [exists] in the source, [(link_id && item.link_id === link_id) ||
    (!link_id && item.url === url)], is the same condition. *)
Definition item_matches (link_id : option string) (url : string)
    (item : ScrapingItem) : bool :=
  if truthy link_id then bool_decide (si_link_id item = link_id)
  else bool_decide (si_url item = url).

Definition updateScrapingItemProgress (link_id : option string) (url : string)
    (progress : ScrapingItemPartial) (state : WorkflowState) : WorkflowState :=
  let items :=
    (λ item, if item_matches link_id url item
             then item_merge item progress else item)
    <$> ss_items (scrapingStatus state) in
  let exists_ := existsb (item_matches link_id url) items in
  let items := if exists_ then items else items ++ [item_new link_id url progress] in
  let completed :=
    Z.of_nat (length (filter (λ i, si_status i = Completed) items)) in
  let failed :=
    Z.of_nat (length (filter (λ i, si_status i = Failed) items)) in
  let inProgress :=
    Z.of_nat (length (filter
      (λ i, si_status i = InProgress ∨ si_status i = Pending) items)) in
  set_scrapingStatus
    (with_items (scrapingStatus state) items completed failed inProgress)
    state.

(** [Partial<WorkflowState['researchAgentStatus']>]; a nullable field that
    is present holds its new (possibly null) value. *)
Record ResearchAgentStatusPartial := {
  rp_streams : option StreamCollectionState;
  rp_phase : option string;
  rp_currentAction : option (option string);
  rp_waitingForUser : option bool;
  rp_userInputRequired : option (option UserInputRequired);
  rp_streamBuffer : option string;
  rp_streamingState : option StreamState;
  rp_liveGoals : option (gmap Z LiveGoal);
  rp_goalOrder : option (list Z);
  rp_goals : option (option (list GoalEntry));
  rp_livePlanSteps : option (gmap Z LivePlanStep);
  rp_planOrder : option (list Z);
  rp_plan : option (option (list PlanStep));
  rp_liveInsights : option (gmap string LiveInsight);
  rp_liveActions : option (gmap string LiveAction);
  rp_liveReportSections : option (gmap string LiveReportSection);
  rp_synthesizedGoal : option (option SynthesizedGoal);
  rp_summarizationProgress : option (option SummarizationProgress);
  rp_conversationMessages : option (list ConversationMessage) }.

Definition updateResearchAgentStatus (status : ResearchAgentStatusPartial)
    (state : WorkflowState) : WorkflowState :=
  let cur := researchAgentStatus state in
  set_researchAgentStatus {|
    ras_streams := default (ras_streams cur) (rp_streams status);
    ras_phase := default (ras_phase cur) (rp_phase status);
    ras_currentAction :=
      default (ras_currentAction cur) (rp_currentAction status);
    ras_waitingForUser :=
      default (ras_waitingForUser cur) (rp_waitingForUser status);
    ras_userInputRequired :=
      default (ras_userInputRequired cur) (rp_userInputRequired status);
    ras_streamBuffer := default (ras_streamBuffer cur) (rp_streamBuffer status);
    ras_streamingState :=
      default (ras_streamingState cur) (rp_streamingState status);
    ras_liveGoals := default (ras_liveGoals cur) (rp_liveGoals status);
    ras_goalOrder := default (ras_goalOrder cur) (rp_goalOrder status);
    ras_goals := default (ras_goals cur) (rp_goals status);
    ras_livePlanSteps :=
      default (ras_livePlanSteps cur) (rp_livePlanSteps status);
    ras_planOrder := default (ras_planOrder cur) (rp_planOrder status);
    ras_plan := default (ras_plan cur) (rp_plan status);
    ras_liveInsights := default (ras_liveInsights cur) (rp_liveInsights status);
    ras_liveActions := default (ras_liveActions cur) (rp_liveActions status);
    ras_liveReportSections :=
      default (ras_liveReportSections cur) (rp_liveReportSections status);
    ras_synthesizedGoal :=
      default (ras_synthesizedGoal cur) (rp_synthesizedGoal status);
    ras_summarizationProgress :=
      default (ras_summarizationProgress cur)
        (rp_summarizationProgress status);
    ras_conversationMessages :=
      default (ras_conversationMessages cur) (rp_conversationMessages status)
  |} state.

(** [{ ...state.researchAgentStatus, goals, liveGoals, goalOrder }] *)
Definition ras_with_goals (cur : ResearchAgentStatus)
    (goals : option (list GoalEntry)) (liveGoals : gmap Z LiveGoal)
    (goalOrder : list Z) : ResearchAgentStatus := {|
  ras_streams := ras_streams cur;
  ras_phase := ras_phase cur;
  ras_currentAction := ras_currentAction cur;
  ras_waitingForUser := ras_waitingForUser cur;
  ras_userInputRequired := ras_userInputRequired cur;
  ras_streamBuffer := ras_streamBuffer cur;
  ras_streamingState := ras_streamingState cur;
  ras_liveGoals := liveGoals;
  ras_goalOrder := goalOrder;
  ras_goals := goals;
  ras_livePlanSteps := ras_livePlanSteps cur;
  ras_planOrder := ras_planOrder cur;
  ras_plan := ras_plan cur;
  ras_liveInsights := ras_liveInsights cur;
  ras_liveActions := ras_liveActions cur;
  ras_liveReportSections := ras_liveReportSections cur;
  ras_synthesizedGoal := ras_synthesizedGoal cur;
  ras_summarizationProgress := ras_summarizationProgress cur;
  ras_conversationMessages := ras_conversationMessages cur |}.

(** [{ ...state.researchAgentStatus, plan, livePlanSteps, planOrder }] *)
Definition ras_with_plan (cur : ResearchAgentStatus)
    (plan : option (list PlanStep)) (livePlanSteps : gmap Z LivePlanStep)
    (planOrder : list Z) : ResearchAgentStatus := {|
  ras_streams := ras_streams cur;
  ras_phase := ras_phase cur;
  ras_currentAction := ras_currentAction cur;
  ras_waitingForUser := ras_waitingForUser cur;
  ras_userInputRequired := ras_userInputRequired cur;
  ras_streamBuffer := ras_streamBuffer cur;
  ras_streamingState := ras_streamingState cur;
  ras_liveGoals := ras_liveGoals cur;
  ras_goalOrder := ras_goalOrder cur;
  ras_goals := ras_goals cur;
  ras_livePlanSteps := livePlanSteps;
  ras_planOrder := planOrder;
  ras_plan := plan;
  ras_liveInsights := ras_liveInsights cur;
  ras_liveActions := ras_liveActions cur;
  ras_liveReportSections := ras_liveReportSections cur;
  ras_synthesizedGoal := ras_synthesizedGoal cur;
  ras_summarizationProgress := ras_summarizationProgress cur;
  ras_conversationMessages := ras_conversationMessages cur |}.

(** [{ ...state.researchAgentStatus, streams, streamBuffer,
    streamingState }] *)
Definition ras_with_streams (cur : ResearchAgentStatus)
    (streams : StreamCollectionState) (streamBuffer : string)
    (streamingState : StreamState) : ResearchAgentStatus := {|
  ras_streams := streams;
  ras_phase := ras_phase cur;
  ras_currentAction := ras_currentAction cur;
  ras_waitingForUser := ras_waitingForUser cur;
  ras_userInputRequired := ras_userInputRequired cur;
  ras_streamBuffer := streamBuffer;
  ras_streamingState := streamingState;
  ras_liveGoals := ras_liveGoals cur;
  ras_goalOrder := ras_goalOrder cur;
  ras_goals := ras_goals cur;
  ras_livePlanSteps := ras_livePlanSteps cur;
  ras_planOrder := ras_planOrder cur;
  ras_plan := ras_plan cur;
  ras_liveInsights := ras_liveInsights cur;
  ras_liveActions := ras_liveActions cur;
  ras_liveReportSections := ras_liveReportSections cur;
  ras_synthesizedGoal := ras_synthesizedGoal cur;
  ras_summarizationProgress := ras_summarizationProgress cur;
  ras_conversationMessages := ras_conversationMessages cur |}.

(** [{ ...state.researchAgentStatus, synthesizedGoal }] *)
Definition ras_with_synthesizedGoal (cur : ResearchAgentStatus)
    (synthesizedGoal : option SynthesizedGoal) : ResearchAgentStatus := {|
  ras_streams := ras_streams cur;
  ras_phase := ras_phase cur;
  ras_currentAction := ras_currentAction cur;
  ras_waitingForUser := ras_waitingForUser cur;
  ras_userInputRequired := ras_userInputRequired cur;
  ras_streamBuffer := ras_streamBuffer cur;
  ras_streamingState := ras_streamingState cur;
  ras_liveGoals := ras_liveGoals cur;
  ras_goalOrder := ras_goalOrder cur;
  ras_goals := ras_goals cur;
  ras_livePlanSteps := ras_livePlanSteps cur;
  ras_planOrder := ras_planOrder cur;
  ras_plan := ras_plan cur;
  ras_liveInsights := ras_liveInsights cur;
  ras_liveActions := ras_liveActions cur;
  ras_liveReportSections := ras_liveReportSections cur;
  ras_synthesizedGoal := synthesizedGoal;
  ras_summarizationProgress := ras_summarizationProgress cur;
  ras_conversationMessages := ras_conversationMessages cur |}.

(** [{ ...state.researchAgentStatus, conversationMessages }] *)
Definition ras_with_conversationMessages (cur : ResearchAgentStatus)
    (conversationMessages : list ConversationMessage)
    : ResearchAgentStatus := {|
  ras_streams := ras_streams cur;
  ras_phase := ras_phase cur;
  ras_currentAction := ras_currentAction cur;
  ras_waitingForUser := ras_waitingForUser cur;
  ras_userInputRequired := ras_userInputRequired cur;
  ras_streamBuffer := ras_streamBuffer cur;
  ras_streamingState := ras_streamingState cur;
  ras_liveGoals := ras_liveGoals cur;
  ras_goalOrder := ras_goalOrder cur;
  ras_goals := ras_goals cur;
  ras_livePlanSteps := ras_livePlanSteps cur;
  ras_planOrder := ras_planOrder cur;
  ras_plan := ras_plan cur;
  ras_liveInsights := ras_liveInsights cur;
  ras_liveActions := ras_liveActions cur;
  ras_liveReportSections := ras_liveReportSections cur;
  ras_synthesizedGoal := ras_synthesizedGoal cur;
  ras_summarizationProgress := ras_summarizationProgress cur;
  ras_conversationMessages := conversationMessages |}.

(** [setGoals]; [timestamp] is the instant the action reads from the clock.
    [goal.id] is a number in every caller, so the fallback of
    [goal.id ?? goalOrder.length + 1] is never taken. *)
Definition setGoals (timestamp : string) (goals : option (list GoalEntry))
    (state : WorkflowState) : WorkflowState :=
  let cur := researchAgentStatus state in
  let each (acc : gmap Z LiveGoal * list Z) (goal : GoalEntry) :=
    let '(liveGoals, goalOrder) := acc in
    let id := ge_id goal in
    let existing := default {|
      lg_id := id; lg_goal_text := None; lg_rationale := None;
      lg_uses := None; lg_sources := None; lg_status := Ready;
      lg_updatedAt := None |} (liveGoals !! id) in
    (<[id := {|
       lg_id := id;
       lg_goal_text := Some (ge_goal_text goal);
       lg_rationale := ge_rationale goal ∪ lg_rationale existing;
       lg_uses := ge_uses goal ∪ lg_uses existing;
       lg_sources := ge_sources goal ∪ lg_sources existing;
       lg_status := Ready;
       lg_updatedAt := Some timestamp |}]> liveGoals,
     goalOrder ++ [id]) in
  let '(liveGoals, goalOrder) :=
    match goals with
    | Some gs => foldl each (ras_liveGoals cur, []) gs
    | None => (ras_liveGoals cur, [])
    end in
  set_researchAgentStatus
    (ras_with_goals cur goals liveGoals
       (if bool_decide (goalOrder ≠ []) then goalOrder
        else ras_goalOrder cur))
    state.

Definition setPlan (timestamp : string) (plan : option (list PlanStep))
    (state : WorkflowState) : WorkflowState :=
  let cur := researchAgentStatus state in
  let each (acc : gmap Z LivePlanStep * list Z) (step : PlanStep) :=
    let '(livePlanSteps, planOrder) := acc in
    let id := ps_step_id step in
    let existing := default {|
      lp_step_id := id; lp_goal := None; lp_required_data := None;
      lp_chunk_strategy := None; lp_notes := None; lp_status := Ready;
      lp_updatedAt := None |} (livePlanSteps !! id) in
    (<[id := {|
       lp_step_id := id;
       lp_goal := Some (ps_goal step);
       lp_required_data := ps_required_data step ∪ lp_required_data existing;
       lp_chunk_strategy :=
         ps_chunk_strategy step ∪ lp_chunk_strategy existing;
       lp_notes := ps_notes step ∪ lp_notes existing;
       lp_status := Ready;
       lp_updatedAt := Some timestamp |}]> livePlanSteps,
     planOrder ++ [id]) in
  let '(livePlanSteps, planOrder) :=
    match plan with
    | Some ps => foldl each (ras_livePlanSteps cur, []) ps
    | None => (ras_livePlanSteps cur, [])
    end in
  set_researchAgentStatus
    (ras_with_plan cur plan livePlanSteps
       (if bool_decide (planOrder ≠ []) then planOrder
        else ras_planOrder cur))
    state.

Definition setSynthesizedGoal (synthesizedGoal : option SynthesizedGoal)
    (state : WorkflowState) : WorkflowState :=
  set_researchAgentStatus
    (ras_with_synthesizedGoal (researchAgentStatus state) synthesizedGoal)
    state.

(** [appendStreamToken]; [now] is the instant read from the clock (the
    source reads it twice in a row, for [startedAt] of a fresh buffer and
    for [lastTokenAt]).  [buffers[streamId] || {...}] is the lookup of the
    map for a [plain_key]; for a member name of [Object.prototype] without
    an own property the code goes on with the inherited member instead of
    a fresh buffer, which no [StreamBufferState] describes: what is proved
    of the text and the count of a stream is proved for plain keys. *)
Definition appendStreamToken (now : string) (streamId token : string)
    (state : WorkflowState) : WorkflowState :=
  let cur := researchAgentStatus state in
  let buffers := buffers (ras_streams cur) in
  let buffer := default {|
    sb_id := streamId;
    sb_raw := "";
    sb_status := Active;
    sb_tokenCount := 0;
    sb_isStreaming := true;
    sb_phase := None;
    sb_metadata := None;
    sb_startedAt := Some now;
    sb_lastTokenAt := None;
    sb_endedAt := None;
    sb_error := None;
    sb_pinned := None |} (buffers !! streamId) in
  let lastTokenAt := now in
  let updatedBuffer := {|
    sb_id := sb_id buffer;
    sb_raw := sb_raw buffer +:+ token;
    sb_status := Active;
    sb_tokenCount := (sb_tokenCount buffer + 1)%Z;
    sb_isStreaming := true;
    sb_phase := sb_phase buffer;
    sb_metadata := sb_metadata buffer;
    sb_startedAt := sb_startedAt buffer;
    sb_lastTokenAt := Some lastTokenAt;
    sb_endedAt := sb_endedAt buffer;
    sb_error := sb_error buffer;
    sb_pinned := sb_pinned buffer |} in
  let buffers := <[streamId := updatedBuffer]> buffers in
  let isActive := bool_decide (activeStreamId (ras_streams cur) = Some streamId) in
  let streamBufferValue :=
    if isActive then sb_raw updatedBuffer else ras_streamBuffer cur in
  let streamingState :=
    if isActive then {|
      st_isStreaming := true;
      st_phase := sb_phase updatedBuffer ∪ st_phase (ras_streamingState cur);
      st_metadata :=
        sb_metadata updatedBuffer ∪ st_metadata (ras_streamingState cur);
      st_startedAt :=
        sb_startedAt updatedBuffer ∪ st_startedAt (ras_streamingState cur);
      st_lastTokenAt := Some lastTokenAt;
      st_endedAt := None |}
    else ras_streamingState cur in
  set_researchAgentStatus
    (ras_with_streams cur
       {| activeStreamId := activeStreamId (ras_streams cur);
          buffers := buffers;
          order := order (ras_streams cur);
          pinned := pinned (ras_streams cur) |}
       streamBufferValue streamingState)
    state.

(** [{ ...g, ...goal }] on an element of [goals] *)
Definition goal_entry_merge (g : GoalEntry) (goal : LiveGoalUpdate)
    : GoalEntry := {|
  ge_id := gu_id goal;
  ge_goal_text := default (ge_goal_text g) (gu_goal_text goal);
  ge_uses := gu_uses goal ∪ ge_uses g;
  ge_sources := gu_sources goal ∪ ge_sources g;
  ge_rationale := gu_rationale goal ∪ ge_rationale g;
  ge_status := gu_status goal ∪ ge_status g;
  ge_updatedAt := gu_updatedAt goal ∪ ge_updatedAt g |}.

(** [updateLiveGoal]; [now] is the instant read from the clock.  The object
    literal lists the previous values first and spreads [goal] last, so a key
    of [goal] that is present wins; a status is a non-empty string, so
    [goal.status || previous?.status || 'streaming'] takes the first one that
    is there. *)
Definition updateLiveGoal (now : string) (goal : LiveGoalUpdate)
    (state : WorkflowState) : WorkflowState :=
  let cur := researchAgentStatus state in
  let id := gu_id goal in
  let previous := ras_liveGoals cur !! id in
  let merged := {|
    lg_id := id;
    lg_goal_text := gu_goal_text goal ∪ (previous ≫= lg_goal_text);
    lg_rationale := gu_rationale goal ∪ (previous ≫= lg_rationale);
    lg_uses := gu_uses goal ∪ (previous ≫= lg_uses);
    lg_sources := gu_sources goal ∪ (previous ≫= lg_sources);
    lg_status :=
      default (default Streaming (lg_status <$> previous)) (gu_status goal);
    lg_updatedAt := gu_updatedAt goal ∪ Some now |} in
  let liveGoals := <[id := merged]> (ras_liveGoals cur) in
  let existingGoals := default [] (ras_goals cur) in
  let goals :=
    if bool_decide (existingGoals ≠ [])
    then Some ((λ g, if decide (ge_id g = id) then goal_entry_merge g goal
                     else g) <$> existingGoals)
    else None in
  let goalOrder :=
    if bool_decide (id ∈ ras_goalOrder cur) then ras_goalOrder cur
    else ras_goalOrder cur ++ [id] in
  set_researchAgentStatus (ras_with_goals cur goals liveGoals goalOrder) state.

(** [{ ...p, ...step }] on an element of [plan] *)
Definition plan_entry_merge (p : PlanStep) (step : LivePlanStepUpdate)
    : PlanStep := {|
  ps_step_id := pu_step_id step;
  ps_goal := default (ps_goal p) (pu_goal step);
  ps_required_data := pu_required_data step ∪ ps_required_data p;
  ps_chunk_strategy := pu_chunk_strategy step ∪ ps_chunk_strategy p;
  ps_notes := pu_notes step ∪ ps_notes p;
  ps_status := pu_status step ∪ ps_status p;
  ps_updatedAt := pu_updatedAt step ∪ ps_updatedAt p |}.

(** [updateLivePlanStep], written like [updateLiveGoal]. *)
Definition updateLivePlanStep (now : string) (step : LivePlanStepUpdate)
    (state : WorkflowState) : WorkflowState :=
  let cur := researchAgentStatus state in
  let id := pu_step_id step in
  let previous := ras_livePlanSteps cur !! id in
  let merged := {|
    lp_step_id := id;
    lp_goal := pu_goal step ∪ (previous ≫= lp_goal);
    lp_required_data := pu_required_data step ∪ (previous ≫= lp_required_data);
    lp_chunk_strategy :=
      pu_chunk_strategy step ∪ (previous ≫= lp_chunk_strategy);
    lp_notes := pu_notes step ∪ (previous ≫= lp_notes);
    lp_status :=
      default (default Streaming (lp_status <$> previous)) (pu_status step);
    lp_updatedAt := pu_updatedAt step ∪ Some now |} in
  let livePlanSteps := <[id := merged]> (ras_livePlanSteps cur) in
  let existingPlan := default [] (ras_plan cur) in
  let plan :=
    if bool_decide (existingPlan ≠ [])
    then Some ((λ p, if decide (ps_step_id p = id) then plan_entry_merge p step
                     else p) <$> existingPlan)
    else None in
  let planOrder :=
    if bool_decide (id ∈ ras_planOrder cur) then ras_planOrder cur
    else ras_planOrder cur ++ [id] in
  set_researchAgentStatus (ras_with_plan cur plan livePlanSteps planOrder) state.

(** [setCancelled]: [set({ cancelled, cancellationInfo: cancellationInfo ||
    null })] *)
Definition setCancelled (cancelled' : bool)
    (cancellationInfo' : option CancellationInfo) (state : WorkflowState)
    : WorkflowState := {|
  currentPhase := currentPhase state;
  batchId := batchId state;
  workflowId := workflowId state;
  workflowStarted := workflowStarted state;
  sessionId := sessionId state;
  reportStale := reportStale state;
  rerunState := rerunState state;
  stepRerunState := stepRerunState state;
  overallProgress := overallProgress state;
  currentStep := currentStep state;
  stepProgress := stepProgress state;
  scrapingStatus := scrapingStatus state;
  cancelled := cancelled';
  cancellationInfo := cancellationInfo';
  researchAgentStatus := researchAgentStatus state;
  phase3Steps := phase3Steps state;
  currentStepId := currentStepId state;
  finalReport := finalReport state;
  errors := errors state |}.

Section Conversation.
(** [new Date(timestamp).getTime()]: the milliseconds of the instant, or
    [None] for the NaN of a timestamp that does not parse. *)
Variable getTime : string → option Z.

(** The comparator [(a, b) => aTime - bTime]: NaN as soon as one of the two
    times is. *)
Definition time_difference (a b : ConversationMessage) : option Z :=
  match getTime (cm_timestamp a), getTime (cm_timestamp b) with
  | Some aTime, Some bTime => Some (aTime - bTime)%Z
  | _, _ => None
  end.

Definition upsertConversationMessage (message : ConversationMessage)
    (state : WorkflowState) : WorkflowState :=
  let cur := researchAgentStatus state in
  let existing :=
    filter (λ item, cm_id item ≠ cm_id message)
      (ras_conversationMessages cur) in
  let merged := sort_with time_difference (existing ++ [message]) in
  let limited :=
    if bool_decide (200 < length merged)
    then drop (length merged - 200) merged else merged in
  set_researchAgentStatus (ras_with_conversationMessages cur limited) state.
End Conversation.

Definition addPhase3Step (step : SessionStep) (state : WorkflowState)
    : WorkflowState :=
  let stepIds := step_id <$> phase3Steps state in
  let updatedSteps :=
    if bool_decide (step_id step ∈ stepIds) then
      let stepsMap :=
        foldl (λ m s, if bool_decide (step_id s ≠ step_id step)
                      then map_set (step_id s) s m else m)
          [] (phase3Steps state) in
      let stepsMap := map_set (step_id step) step stepsMap in
      map_values stepsMap
    else phase3Steps state ++ [step] in
  set_phase3Steps_currentStepId (sort_by step_id updatedSteps)
    (Some (step_id step)) state.

Definition setPhase3Steps (steps : list SessionStep) (nextStepId : option Z)
    (state : WorkflowState) : WorkflowState :=
  let sorted := sort_by step_id steps in
  let lastCompleted := step_id <$> last sorted in
  let currentStepId :=
    match nextStepId with
    | Some n => Some n
    | None => lastCompleted
    end in
  set_phase3Steps_currentStepId sorted currentStepId state.

Definition setFinalReport (report : option FinalReport)
    (state : WorkflowState) : WorkflowState := {|
  currentPhase := currentPhase state;
  batchId := batchId state;
  workflowId := workflowId state;
  workflowStarted := workflowStarted state;
  sessionId := sessionId state;
  reportStale := reportStale state;
  rerunState := rerunState state;
  stepRerunState := stepRerunState state;
  overallProgress := overallProgress state;
  currentStep := currentStep state;
  stepProgress := stepProgress state;
  scrapingStatus := scrapingStatus state;
  cancelled := cancelled state;
  cancellationInfo := cancellationInfo state;
  researchAgentStatus := researchAgentStatus state;
  phase3Steps := phase3Steps state;
  currentStepId := currentStepId state;
  finalReport := report;
  errors := errors state |}.

Record Validation := {
  isValid : bool;
  val_errors : list string }.

(** [if (c) { errors.push(msg) }] *)
Definition push_if (c : bool) (msg : string) (errors : list string)
    : list string :=
  if c then errors ++ [msg] else errors.

Definition validateState (state : WorkflowState) : Validation :=
  let push := push_if in
  let errors : list string := [] in
  let errors :=
    if truthy (batchId state) then
      let errors :=
        push (bool_decide (0 < length (ss_items (scrapingStatus state)))
              && negb (truthy (batchId state)))
          "Scraping items exist but no batchId set" errors in
      let errors :=
        push (bool_decide (ras_goals (researchAgentStatus state) ≠ None)
              && bool_decide (ss_completed (scrapingStatus state) = 0%Z))
          "Research goals exist but scraping not completed" errors in
      let errors :=
        push (bool_decide (0 < length (phase3Steps state))
              && bool_decide (ras_plan (researchAgentStatus state) = None))
          "Phase3 steps exist but no research plan found" errors in
      let errors :=
        match finalReport state, ras_plan (researchAgentStatus state) with
        | Some _, Some plan =>
            let expectedSteps := length plan in
            push (bool_decide (length (phase3Steps state) < expectedSteps))
              ("Final report exists but phase3 incomplete ("
                 +:+ pretty (length (phase3Steps state)) +:+ "/"
                 +:+ pretty expectedSteps +:+ " steps)")
              errors
        | _, _ => errors
        end in
      push (negb (workflowStarted state)
            && (bool_decide (0 < ss_total (scrapingStatus state))%Z
                || bool_decide (ras_goals (researchAgentStatus state) ≠ None)
                || bool_decide (0 < length (phase3Steps state))))
        "Workflow has progress but workflowStarted is false" errors
    else
      push (bool_decide (0 < ss_total (scrapingStatus state))%Z
            || bool_decide (ras_goals (researchAgentStatus state) ≠ None)
            || bool_decide (0 < length (phase3Steps state))
            || bool_decide (finalReport state ≠ None))
        "No batchId but workflow state exists (state should be reset)" errors
  in
  {| isValid := bool_decide (length errors = 0); val_errors := errors |}.

(** ** The history page: hydrating the store from a persisted session *)

Inductive SessionStatus :=
  SessCompleted | SessInProgress | SessFailed | SessCancelled.

#[global] Instance SessionStatus_eq_dec : EqDecision SessionStatus.
Proof. solve_decision. Defined.

Record ScrapingStatusSnapshot := {
  snap_total : option Z;
  snap_expected_total : option Z;
  snap_completed : option Z;
  snap_failed : option Z;
  snap_inProgress : option Z;
  snap_items : option (list ScrapingItem);
  snap_completionRate : option Qc;
  snap_is100Percent : option bool;
  snap_canProceedToResearch : option bool }.

Record Phase3State := {
  p3_plan : option (list PlanStep);
  p3_steps : option (list SessionStep);
  p3_completed_step_ids : option (list Z);
  p3_total_steps : option Z;
  p3_next_step_id : option Z;
  p3_synthesized_goal : option SynthesizedGoal }.

(** A goal as persisted by the backend ([any] in the source): the keys the
    page reads. *)
Record PersistedGoal := {
  pg_id : option Z;
  pg_goal_id : option Z;
  pg_goal_text : option string;
  pg_goal : option string;
  pg_uses : option (list string);
  pg_sources : option (list string) }.

(** The keys of [metadata] the page reads; when present they are arrays
    (objects for the synthesized goal), as the backend writes them. *)
Record Metadata := {
  phase1_confirmed_goals : option (list PersistedGoal);
  research_plan : option (list PlanStep);
  md_synthesized_goal : option SynthesizedGoal }.

Record HistorySessionDetail := {
  batch_id : string;
  session_id : option string;
  created_at : string;
  status : SessionStatus;
  topic : option string;
  url_count : option Z;
  current_phase : option string;
  metadata : option Metadata;
  scraping_status : option ScrapingStatusSnapshot;
  phase3 : option Phase3State;
  resume_required : option bool;
  data_loaded : option bool }.

(** [a || b || 0] on optional numbers: zero is falsy. *)
Definition first_nonzero (a b : option Z) : Z :=
  match a with
  | Some x => if (x =? 0)%Z then
                match b with
                | Some y => if (y =? 0)%Z then 0%Z else y
                | None => 0%Z
                end
              else x
  | None => match b with
            | Some y => if (y =? 0)%Z then 0%Z else y
            | None => 0%Z
            end
  end.

(** [metadata.phase1_confirmed_goals || []] *)
Definition persisted_goals (sessionData : HistorySessionDetail)
    : list PersistedGoal :=
  default [] (metadata sessionData ≫= phase1_confirmed_goals).

(** [metadata.research_plan || sessionData.phase3?.plan || []]; an array,
    even an empty one, is truthy. *)
Definition persisted_plan (sessionData : HistorySessionDetail)
    : list PlanStep :=
  default []
    ((metadata sessionData ≫= research_plan)
       ∪ (phase3 sessionData ≫= p3_plan)).

(** [metadata.synthesized_goal || sessionData.phase3?.synthesized_goal ||
    null] *)
Definition persisted_synthesized_goal (sessionData : HistorySessionDetail)
    : option SynthesizedGoal :=
  (metadata sessionData ≫= md_synthesized_goal)
    ∪ (phase3 sessionData ≫= p3_synthesized_goal).

Definition when (c : bool) (f : WorkflowState → WorkflowState)
    : WorkflowState → WorkflowState :=
  if c then f else id.

(** [hydrateWorkflowState]; [tGoals] and [tPlan] are the instants [setGoals]
    and [setPlan] read from the clock ([setPlan] runs at most once). *)
Definition hydrateWorkflowState (tGoals tPlan : string)
    (sessionData : HistorySessionDetail) (state : WorkflowState)
    : WorkflowState :=
  let state :=
    match scraping_status sessionData with
    | Some snapshot =>
        updateScrapingStatus {|
          up_total :=
            Some (default 0%Z (snap_total snapshot ∪ snap_expected_total snapshot));
          up_expectedTotal :=
            EtNumber
              (default 0%Z (snap_expected_total snapshot ∪ snap_total snapshot));
          up_completed := Some (default 0%Z (snap_completed snapshot));
          up_failed := Some (default 0%Z (snap_failed snapshot));
          up_inProgress := Some (default 0%Z (snap_inProgress snapshot));
          up_items := Some (default [] (snap_items snapshot));
          up_completionRate :=
            Some (default 0%Qc (snap_completionRate snapshot));
          up_is100Percent := Some (default false (snap_is100Percent snapshot));
          up_canProceedToResearch :=
            Some (default false (snap_canProceedToResearch snapshot)) |} state
    | None => state
    end in
  let goals := persisted_goals sessionData in
  let plan := persisted_plan sessionData in
  let synthesizedGoal := persisted_synthesized_goal sessionData in
  let researchPhase :=
    if bool_decide (0 < length plan) then "2"
    else if bool_decide (0 < length goals) then "1"
    else "0.5" in
  let mappedGoals :=
    (λ g, {|
       ge_id := first_nonzero (pg_id g) (pg_goal_id g);
       ge_goal_text :=
         default "" (or_else (pg_goal_text g) (pg_goal g));
       ge_uses := Some (default [] (pg_uses g));
       ge_sources := Some (default [] (pg_sources g));
       ge_rationale := None;
       ge_status := None;
       ge_updatedAt := None |}) <$> goals in
  let state :=
    updateResearchAgentStatus {|
      rp_phase := Some researchPhase;
      rp_currentAction := Some None;
      rp_waitingForUser := Some false;
      rp_userInputRequired := Some None;
      rp_streams := None; rp_streamBuffer := None; rp_streamingState := None;
      rp_liveGoals := None; rp_goalOrder := None; rp_goals := None;
      rp_livePlanSteps := None; rp_planOrder := None; rp_plan := None;
      rp_liveInsights := None; rp_liveActions := None;
      rp_liveReportSections := None; rp_synthesizedGoal := None;
      rp_summarizationProgress := None; rp_conversationMessages := None |}
      state in
  let state :=
    when (bool_decide (0 < length mappedGoals))
      (setGoals tGoals (Some mappedGoals)) state in
  let state :=
    when (bool_decide (0 < length plan)) (setPlan tPlan (Some plan)) state in
  let state :=
    match synthesizedGoal with
    | Some g => setSynthesizedGoal (Some g) state
    | None => state
    end in
  match phase3 sessionData with
  | Some p3 =>
      let phase3Plan := default plan (p3_plan p3) in
      let phase3Steps := default [] (p3_steps p3) in
      let state :=
        when (bool_decide (0 < length phase3Plan)
              && bool_decide (length plan = 0))
          (setPlan tPlan (Some phase3Plan)) state in
      let state :=
        match p3_synthesized_goal p3, synthesizedGoal with
        | Some g, None => setSynthesizedGoal (Some g) state
        | _, _ => state
        end in
      when (bool_decide (0 < length phase3Steps))
        (setPhase3Steps phase3Steps (p3_next_step_id p3)) state
  | None => state
  end.

(** What a handler does besides updating the store. *)
Inductive Effect :=
  | ResumeSession (batchId : string)
  | Notify (text kind : string)
  | Navigate (route : string).

Definition phaseRoutes (phase : string) : option string :=
  if String.eqb phase "scraping" then Some "/scraping"
  else if String.eqb phase "research" then Some "/research"
  else if String.eqb phase "phase3" then Some "/phase3"
  else if String.eqb phase "complete" then Some "/report"
  else None.

(** The local constants of [handleResume]. *)
Definition resume_resolvedPhase (sessionData : HistorySessionDetail)
    : string :=
  if truthy (current_phase sessionData)
  then default "" (current_phase sessionData)
  else if decide (status sessionData = SessCompleted) then "complete"
  else if default false (data_loaded sessionData) then "research"
  else "scraping".

Definition shouldResume (sessionData : HistorySessionDetail) : bool :=
  let resolvedPhase := resume_resolvedPhase sessionData in
  let isIncomplete :=
    bool_decide (status sessionData ≠ SessCompleted)
    && negb (String.eqb resolvedPhase "complete") in
  isIncomplete || bool_decide (resume_required sessionData = Some true).

(** The local constant of [handleView]. *)
Definition view_resolvedPhase (sessionData : HistorySessionDetail) : string :=
  if truthy (current_phase sessionData)
  then default "" (current_phase sessionData)
  else if decide (status sessionData = SessCompleted) then "complete"
  else "research".

(** [handleResume]; [response] is what [getHistorySession] resolved to
    ([None]: it rejected) and [resumeOk] whether [resumeSession] resolves.
    A rejection is caught by the handler, which then only notifies. *)
Definition handleResume (tGoals tPlan : string) (batchId : string)
    (response : option HistorySessionDetail) (resumeOk : bool)
    (state : WorkflowState) : WorkflowState * list Effect :=
  match response with
  | None => (state, [Notify "无法恢复会话，请重试" "error"])
  | Some sessionData =>
      let state := setBatchId batchId state in
      let state := setSessionId (or_else (session_id sessionData) None) state in
      let state := setWorkflowStarted false state in
      let state := hydrateWorkflowState tGoals tPlan sessionData state in
      let resolvedPhase := resume_resolvedPhase sessionData in
      if shouldResume sessionData && negb resumeOk then
        (state, [ResumeSession batchId; Notify "无法恢复会话，请重试" "error"])
      else
        let effects :=
          if shouldResume sessionData
          then [ResumeSession batchId; Notify "已恢复会话" "success"]
          else [Notify "已加载会话状态" "success"] in
        let state := setCurrentPhase resolvedPhase state in
        let route := default "/scraping" (phaseRoutes resolvedPhase) in
        (state, effects ++ [Navigate route])
  end.

Definition handleView (tGoals tPlan : string) (batchId : string)
    (response : option HistorySessionDetail) (state : WorkflowState)
    : WorkflowState * list Effect :=
  match response with
  | None => (state, [Notify "无法查看会话详情，请重试" "error"])
  | Some sessionData =>
      let state := setBatchId batchId state in
      let state := setSessionId (or_else (session_id sessionData) None) state in
      let state := setWorkflowStarted false state in
      let state := hydrateWorkflowState tGoals tPlan sessionData state in
      let resolvedPhase := view_resolvedPhase sessionData in
      let state := setCurrentPhase resolvedPhase state in
      (state, [Navigate "/report"])
  end.

(** ** The store: stream buffers, the other live entities, reset *)

(** [startStream]; [options.startedAt || new Date().toISOString()] is the
    argument [now] when the option is absent or empty. *)
Definition startStream (now : string) (streamId : string)
    (opt_phase : option string) (opt_metadata : option Json)
    (opt_startedAt : option string) (state : WorkflowState) : WorkflowState :=
  let cur := researchAgentStatus state in
  let now := default now (or_else opt_startedAt None) in
  let buffers :=
    <[streamId := {|
       sb_id := streamId;
       sb_raw := "";
       sb_status := Active;
       sb_tokenCount := 0;
       sb_isStreaming := true;
       sb_phase := opt_phase;
       sb_metadata := opt_metadata;
       sb_startedAt := Some now;
       sb_lastTokenAt := None;
       sb_endedAt := None;
       sb_error := None;
       sb_pinned := None |}]> (buffers (ras_streams cur)) in
  let order :=
    streamId :: filter (λ id, id ≠ streamId) (order (ras_streams cur)) in
  set_researchAgentStatus
    (ras_with_streams cur
       {| activeStreamId := Some streamId;
          buffers := buffers;
          order := order;
          pinned := pinned (ras_streams cur) |}
       ""
       {| st_isStreaming := true;
          st_phase := opt_phase;
          st_metadata := opt_metadata;
          st_startedAt := Some now;
          st_lastTokenAt := None;
          st_endedAt := None |})
    state.

(** The keys of its [metadata] argument that [completeStream] reads. *)
Record StreamCompletion := {
  sc_endedAt : option string;
  sc_status : option BufferStatus;
  sc_metadata : option Json;
  sc_lastTokenAt : option string }.

(** [completeStream]; [now] is the clock reading used when the metadata
    carries no [endedAt].  An unknown stream is left alone ([return {}]):
    [!buffer] holds when the map has no entry, for a [plain_key]; for a
    member name of [Object.prototype] the inherited member is truthy and
    the code goes on, so what is proved of an unknown stream is proved for
    plain keys. *)
Definition completeStream (now : string) (streamId : string)
    (metadata : option StreamCompletion) (state : WorkflowState)
    : WorkflowState :=
  let cur := researchAgentStatus state in
  match buffers (ras_streams cur) !! streamId with
  | None => state
  | Some buffer =>
      let endedAt := default now (metadata ≫= sc_endedAt) in
      let completed := {|
        sb_id := sb_id buffer;
        sb_raw := sb_raw buffer;
        sb_status := default BufCompleted (metadata ≫= sc_status);
        sb_tokenCount := sb_tokenCount buffer;
        sb_isStreaming := false;
        sb_phase := sb_phase buffer;
        sb_metadata := (metadata ≫= sc_metadata) ∪ sb_metadata buffer;
        sb_startedAt := sb_startedAt buffer;
        sb_lastTokenAt := (metadata ≫= sc_lastTokenAt) ∪ sb_lastTokenAt buffer;
        sb_endedAt := Some endedAt;
        sb_error := sb_error buffer;
        sb_pinned := sb_pinned buffer |} in
      let buffers := <[streamId := completed]> (buffers (ras_streams cur)) in
      let isActive :=
        bool_decide (activeStreamId (ras_streams cur) = Some streamId) in
      let streamingState :=
        if isActive then {|
          st_isStreaming := false;
          st_phase := sb_phase completed ∪ st_phase (ras_streamingState cur);
          st_metadata :=
            sb_metadata completed ∪ st_metadata (ras_streamingState cur);
          st_startedAt :=
            sb_startedAt completed ∪ st_startedAt (ras_streamingState cur);
          st_lastTokenAt :=
            sb_lastTokenAt completed
              ∪ st_lastTokenAt (ras_streamingState cur);
          st_endedAt := Some endedAt |}
        else ras_streamingState cur in
      set_researchAgentStatus
        (ras_with_streams cur
           {| activeStreamId := activeStreamId (ras_streams cur);
              buffers := buffers;
              order := order (ras_streams cur);
              pinned := pinned (ras_streams cur) |}
           (ras_streamBuffer cur) streamingState)
        state
  end.

(** [setStreamError]; the lookup is the one of [completeStream], with the
    same proviso for the member names of [Object.prototype]. *)
Definition setStreamError (now : string) (streamId error : string)
    (state : WorkflowState) : WorkflowState :=
  let cur := researchAgentStatus state in
  match buffers (ras_streams cur) !! streamId with
  | None => state
  | Some buffer =>
      let failed := {|
        sb_id := sb_id buffer;
        sb_raw := sb_raw buffer;
        sb_status := BufError;
        sb_tokenCount := sb_tokenCount buffer;
        sb_isStreaming := false;
        sb_phase := sb_phase buffer;
        sb_metadata := sb_metadata buffer;
        sb_startedAt := sb_startedAt buffer;
        sb_lastTokenAt := sb_lastTokenAt buffer;
        sb_endedAt := Some now;
        sb_error := Some error;
        sb_pinned := sb_pinned buffer |} in
      let buffers := <[streamId := failed]> (buffers (ras_streams cur)) in
      let isActive :=
        bool_decide (activeStreamId (ras_streams cur) = Some streamId) in
      let streamingState :=
        if isActive then {|
          st_isStreaming := false;
          st_phase := sb_phase buffer;
          st_metadata := sb_metadata buffer;
          st_startedAt := sb_startedAt buffer;
          st_lastTokenAt := sb_lastTokenAt buffer;
          st_endedAt := sb_endedAt failed |}
        else ras_streamingState cur in
      set_researchAgentStatus
        (ras_with_streams cur
           {| activeStreamId := activeStreamId (ras_streams cur);
              buffers := buffers;
              order := order (ras_streams cur);
              pinned := pinned (ras_streams cur) |}
           (ras_streamBuffer cur) streamingState)
        state
  end.

(** [setActiveStream]; the buffer is looked up only for a truthy id
    ([streamId ? buffers[streamId] : undefined]). *)
Definition setActiveStream (streamId : option string)
    (state : WorkflowState) : WorkflowState :=
  let cur := researchAgentStatus state in
  if decide (streamId = activeStreamId (ras_streams cur)) then state
  else
    let buffer :=
      if truthy streamId
      then streamId ≫= λ id, buffers (ras_streams cur) !! id
      else None in
    let streamBufferValue := default "" (sb_raw <$> buffer) in
    let streamingState :=
      match buffer with
      | Some buffer => {|
          st_isStreaming := sb_isStreaming buffer;
          st_phase := sb_phase buffer;
          st_metadata := sb_metadata buffer;
          st_startedAt := sb_startedAt buffer;
          st_lastTokenAt := sb_lastTokenAt buffer;
          st_endedAt := sb_endedAt buffer |}
      | None => {|
          st_isStreaming := false;
          st_phase := None;
          st_metadata := None;
          st_startedAt := None;
          st_lastTokenAt := None;
          st_endedAt := None |}
      end in
    set_researchAgentStatus
      (ras_with_streams cur
         {| activeStreamId := streamId;
            buffers := buffers (ras_streams cur);
            order := order (ras_streams cur);
            pinned := pinned (ras_streams cur) |}
         streamBufferValue streamingState)
      state.

(** A JavaScript [Set] of strings, as the list of its elements in insertion
    order: [add] appends an element that is not there yet, and
    [new Set(array)] adds the elements of the array one by one. *)
Definition set_add (x : string) (s : list string) : list string :=
  if bool_decide (x ∈ s) then s else s ++ [x].

Definition set_of_array (l : list string) : list string :=
  foldl (λ s x, set_add x s) [] l.

Definition pinStream (streamId : string) (state : WorkflowState)
    : WorkflowState :=
  let cur := researchAgentStatus state in
  let pinned := set_add streamId (set_of_array (pinned (ras_streams cur))) in
  set_researchAgentStatus
    (ras_with_streams cur
       {| activeStreamId := activeStreamId (ras_streams cur);
          buffers := buffers (ras_streams cur);
          order := order (ras_streams cur);
          pinned := pinned |}
       (ras_streamBuffer cur) (ras_streamingState cur))
    state.

Definition unpinStream (streamId : string) (state : WorkflowState)
    : WorkflowState :=
  let cur := researchAgentStatus state in
  let pinned := filter (λ id, id ≠ streamId) (pinned (ras_streams cur)) in
  set_researchAgentStatus
    (ras_with_streams cur
       {| activeStreamId := activeStreamId (ras_streams cur);
          buffers := buffers (ras_streams cur);
          order := order (ras_streams cur);
          pinned := pinned |}
       (ras_streamBuffer cur) (ras_streamingState cur))
    state.

(** [clearStreamBuffer]: with a truthy id the buffer of that id is emptied,
    otherwise the whole stream collection is reset. *)
Definition clearStreamBuffer (streamId : option string)
    (state : WorkflowState) : WorkflowState :=
  let cur := researchAgentStatus state in
  if truthy streamId then
    let id := default "" streamId in
    let buffers :=
      match buffers (ras_streams cur) !! id with
      | Some buffer =>
          <[id := {|
             sb_id := sb_id buffer;
             sb_raw := "";
             sb_status := sb_status buffer;
             sb_tokenCount := 0;
             sb_isStreaming := sb_isStreaming buffer;
             sb_phase := sb_phase buffer;
             sb_metadata := sb_metadata buffer;
             sb_startedAt := sb_startedAt buffer;
             sb_lastTokenAt := sb_lastTokenAt buffer;
             sb_endedAt := sb_endedAt buffer;
             sb_error := sb_error buffer;
             sb_pinned := sb_pinned buffer |}]> (buffers (ras_streams cur))
      | None => buffers (ras_streams cur)
      end in
    let isActive := bool_decide (activeStreamId (ras_streams cur) = Some id) in
    set_researchAgentStatus
      (ras_with_streams cur
         {| activeStreamId := activeStreamId (ras_streams cur);
            buffers := buffers;
            order := order (ras_streams cur);
            pinned := pinned (ras_streams cur) |}
         (if isActive then "" else ras_streamBuffer cur)
         (ras_streamingState cur))
      state
  else
    set_researchAgentStatus
      (ras_with_streams cur
         {| activeStreamId := None;
            buffers := ∅;
            order := [];
            pinned := [] |}
         ""
         {| st_isStreaming := false;
            st_phase := None;
            st_metadata := None;
            st_startedAt := None;
            st_lastTokenAt := None;
            st_endedAt := None |})
      state.

(** [Partial<LiveInsight> & { id: string }] *)
Record LiveInsightUpdate := {
  iu_id : string;
  iu_title : option string;
  iu_summary : option string;
  iu_sources : option (list string);
  iu_status : option LiveStatus;
  iu_updatedAt : option string }.

(** [{ ...state.researchAgentStatus, liveInsights }] *)
Definition ras_with_liveInsights (cur : ResearchAgentStatus)
    (liveInsights : gmap string LiveInsight) : ResearchAgentStatus := {|
  ras_streams := ras_streams cur;
  ras_phase := ras_phase cur;
  ras_currentAction := ras_currentAction cur;
  ras_waitingForUser := ras_waitingForUser cur;
  ras_userInputRequired := ras_userInputRequired cur;
  ras_streamBuffer := ras_streamBuffer cur;
  ras_streamingState := ras_streamingState cur;
  ras_liveGoals := ras_liveGoals cur;
  ras_goalOrder := ras_goalOrder cur;
  ras_goals := ras_goals cur;
  ras_livePlanSteps := ras_livePlanSteps cur;
  ras_planOrder := ras_planOrder cur;
  ras_plan := ras_plan cur;
  ras_liveInsights := liveInsights;
  ras_liveActions := ras_liveActions cur;
  ras_liveReportSections := ras_liveReportSections cur;
  ras_synthesizedGoal := ras_synthesizedGoal cur;
  ras_summarizationProgress := ras_summarizationProgress cur;
  ras_conversationMessages := ras_conversationMessages cur |}.

Definition updateLiveInsight (now : string) (insight : LiveInsightUpdate)
    (state : WorkflowState) : WorkflowState :=
  let cur := researchAgentStatus state in
  let id := iu_id insight in
  let previous := ras_liveInsights cur !! id in
  let merged := {|
    li_id := id;
    li_title := iu_title insight ∪ (previous ≫= li_title);
    li_summary := iu_summary insight ∪ (previous ≫= li_summary);
    li_sources := iu_sources insight ∪ (previous ≫= li_sources);
    li_status :=
      default (default Streaming (li_status <$> previous)) (iu_status insight);
    li_updatedAt := iu_updatedAt insight ∪ Some now |} in
  set_researchAgentStatus
    (ras_with_liveInsights cur (<[id := merged]> (ras_liveInsights cur)))
    state.

(** [Partial<LiveAction> & { id: string }] *)
Record LiveActionUpdate := {
  au_id : string;
  au_description : option string;
  au_result : option string;
  au_status : option LiveStatus;
  au_updatedAt : option string }.

(** [{ ...state.researchAgentStatus, liveActions }] *)
Definition ras_with_liveActions (cur : ResearchAgentStatus)
    (liveActions : gmap string LiveAction) : ResearchAgentStatus := {|
  ras_streams := ras_streams cur;
  ras_phase := ras_phase cur;
  ras_currentAction := ras_currentAction cur;
  ras_waitingForUser := ras_waitingForUser cur;
  ras_userInputRequired := ras_userInputRequired cur;
  ras_streamBuffer := ras_streamBuffer cur;
  ras_streamingState := ras_streamingState cur;
  ras_liveGoals := ras_liveGoals cur;
  ras_goalOrder := ras_goalOrder cur;
  ras_goals := ras_goals cur;
  ras_livePlanSteps := ras_livePlanSteps cur;
  ras_planOrder := ras_planOrder cur;
  ras_plan := ras_plan cur;
  ras_liveInsights := ras_liveInsights cur;
  ras_liveActions := liveActions;
  ras_liveReportSections := ras_liveReportSections cur;
  ras_synthesizedGoal := ras_synthesizedGoal cur;
  ras_summarizationProgress := ras_summarizationProgress cur;
  ras_conversationMessages := ras_conversationMessages cur |}.

Definition updateLiveAction (now : string) (action : LiveActionUpdate)
    (state : WorkflowState) : WorkflowState :=
  let cur := researchAgentStatus state in
  let id := au_id action in
  let previous := ras_liveActions cur !! id in
  let merged := {|
    la_id := id;
    la_description := au_description action ∪ (previous ≫= la_description);
    la_result := au_result action ∪ (previous ≫= la_result);
    la_status :=
      default (default Streaming (la_status <$> previous)) (au_status action);
    la_updatedAt := au_updatedAt action ∪ Some now |} in
  set_researchAgentStatus
    (ras_with_liveActions cur (<[id := merged]> (ras_liveActions cur)))
    state.

(** [Partial<LiveReportSection> & { id: string }] *)
Record LiveReportSectionUpdate := {
  ru_id : string;
  ru_heading : option string;
  ru_content : option string;
  ru_status : option LiveStatus;
  ru_updatedAt : option string }.

(** [{ ...state.researchAgentStatus, liveReportSections }] *)
Definition ras_with_liveReportSections (cur : ResearchAgentStatus)
    (liveReportSections : gmap string LiveReportSection)
    : ResearchAgentStatus := {|
  ras_streams := ras_streams cur;
  ras_phase := ras_phase cur;
  ras_currentAction := ras_currentAction cur;
  ras_waitingForUser := ras_waitingForUser cur;
  ras_userInputRequired := ras_userInputRequired cur;
  ras_streamBuffer := ras_streamBuffer cur;
  ras_streamingState := ras_streamingState cur;
  ras_liveGoals := ras_liveGoals cur;
  ras_goalOrder := ras_goalOrder cur;
  ras_goals := ras_goals cur;
  ras_livePlanSteps := ras_livePlanSteps cur;
  ras_planOrder := ras_planOrder cur;
  ras_plan := ras_plan cur;
  ras_liveInsights := ras_liveInsights cur;
  ras_liveActions := ras_liveActions cur;
  ras_liveReportSections := liveReportSections;
  ras_synthesizedGoal := ras_synthesizedGoal cur;
  ras_summarizationProgress := ras_summarizationProgress cur;
  ras_conversationMessages := ras_conversationMessages cur |}.

Definition updateLiveReportSection (now : string)
    (section : LiveReportSectionUpdate) (state : WorkflowState)
    : WorkflowState :=
  let cur := researchAgentStatus state in
  let id := ru_id section in
  let previous := ras_liveReportSections cur !! id in
  let merged := {|
    lr_id := id;
    lr_heading := ru_heading section ∪ (previous ≫= lr_heading);
    lr_content := ru_content section ∪ (previous ≫= lr_content);
    lr_status :=
      default (default Streaming (lr_status <$> previous)) (ru_status section);
    lr_updatedAt := ru_updatedAt section ∪ Some now |} in
  set_researchAgentStatus
    (ras_with_liveReportSections cur
       (<[id := merged]> (ras_liveReportSections cur)))
    state.

(** [reset]: [set({ ...initialState, workflowStarted: false })] writes every
    data field of the store. *)
Definition reset (state : WorkflowState) : WorkflowState := {|
  currentPhase := currentPhase initialState;
  batchId := batchId initialState;
  workflowId := workflowId initialState;
  workflowStarted := false;
  sessionId := sessionId initialState;
  reportStale := reportStale initialState;
  rerunState := rerunState initialState;
  stepRerunState := stepRerunState initialState;
  overallProgress := overallProgress initialState;
  currentStep := currentStep initialState;
  stepProgress := stepProgress initialState;
  scrapingStatus := scrapingStatus initialState;
  cancelled := cancelled initialState;
  cancellationInfo := cancellationInfo initialState;
  researchAgentStatus := researchAgentStatus initialState;
  phase3Steps := phase3Steps initialState;
  currentStepId := currentStepId initialState;
  finalReport := finalReport initialState;
  errors := errors initialState |}.

(** ** The research page: what it shows of the store *)

(** [goalItems] of [ResearchAgentPage]: the live goals along [goalOrder]
    (ids without a live goal are skipped), or, when that gives nothing, the
    confirmed goals shown as ready.  A confirmed goal has a numeric id by
    its type, so the default of [goal.id ?? index + 1] is never taken. *)
Definition goalItems (cur : ResearchAgentStatus) : list LiveGoal :=
  let orderedIds := ras_goalOrder cur in
  let liveGoals := omap (λ id, ras_liveGoals cur !! id) orderedIds in
  if bool_decide (0 < length orderedIds) && bool_decide (0 < length liveGoals)
  then liveGoals
  else
    match ras_goals cur with
    | Some (g :: gs) =>
        (λ goal, {|
           lg_id := ge_id goal;
           lg_goal_text := Some (ge_goal_text goal);
           lg_rationale := None;
           lg_uses := ge_uses goal;
           lg_sources := None;
           lg_status := Ready;
           lg_updatedAt := None |}) <$> (g :: gs)
    | _ => []
    end.

(** The index of the plan step on display ([currentPlanIndex]) and the
    handlers that move it; [n] is [planEntries.length].  The keyboard
    shortcuts run the updates of [goToNextPlan] and [goToPreviousPlan].
    [goToPlan] is called with the value of an option of the step selector,
    which is an index, hence an integer. *)
Definition goToNextPlan (n : nat) (prev : Z) : Z :=
  if bool_decide (0 < n)
  then (if (prev <? Z.of_nat n - 1)%Z then (prev + 1)%Z else prev)
  else prev.

Definition goToPreviousPlan (prev : Z) : Z :=
  if (0 <? prev)%Z then (prev - 1)%Z else 0%Z.

Definition goToPlan (n : nat) (index : Z) (prev : Z) : Z :=
  if (0 <=? index)%Z && (index <? Z.of_nat n)%Z then index else prev.

(** The effect that runs when [planEntries.length] changes. *)
Definition planLengthChanged (n : nat) (prev : Z) : Z :=
  if bool_decide (0 < n)
  then (if (Z.of_nat n <=? prev)%Z then 0%Z else prev)
  else 0%Z.

(** * Vocabulary of the properties, and sample data *)

(** No step id occurs twice in the list. *)
Definition distinct_ids (l : list SessionStep) : Prop :=
  NoDup (step_id <$> l).

(** The two actions that write [phase3Steps], as events. *)
Inductive Phase3Event :=
  | AddPhase3Step (step : SessionStep)
  | SetPhase3Steps (steps : list SessionStep) (nextStepId : option Z).

Definition applyPhase3Event (e : Phase3Event) (state : WorkflowState)
    : WorkflowState :=
  match e with
  | AddPhase3Step step => addPhase3Step step state
  | SetPhase3Steps steps nextStepId => setPhase3Steps steps nextStepId state
  end.

Definition runPhase3Events (evs : list Phase3Event) (state : WorkflowState)
    : WorkflowState :=
  foldl (λ st e, applyPhase3Event e st) state evs.

(** A [setPhase3Steps] whose argument has no repeated step id. *)
Definition well_keyed (e : Phase3Event) : Prop :=
  match e with
  | AddPhase3Step _ => True
  | SetPhase3Steps steps _ => distinct_ids steps
  end.

(** Sample data for the concrete checks. *)
Definition no_findings : Findings := {|
  f_summary := ""; f_article := None; f_key_claims := [];
  f_notable_evidence := []; f_five_whys := []; f_assumptions := [];
  f_uncertainties := [] |}.

Definition sample_step (id : Z) (text : string) : SessionStep := {|
  step_id := id; findings := no_findings; insights := text;
  confidence := 0%Qc; timestamp := "" |}.

(** [batch:initialized] announced 5 links; a later status message carries
    [expectedTotal: 0] and [total: 7]. *)
Definition state_expecting_5 : WorkflowState :=
  updateScrapingStatus {|
    up_total := None; up_expectedTotal := EtNumber 5; up_completed := None;
    up_failed := None; up_inProgress := None; up_items := None;
    up_completionRate := None; up_is100Percent := None;
    up_canProceedToResearch := None |} initialState.

Definition update_total_7_expected_0 : ScrapingStatusPartial := {|
  up_total := Some 7%Z; up_expectedTotal := EtNumber 0; up_completed := None;
  up_failed := None; up_inProgress := None; up_items := None;
  up_completionRate := None; up_is100Percent := None;
  up_canProceedToResearch := None |}.

(** The initial state with the batch id filled in. *)
Definition fresh_batch (b : string) : WorkflowState :=
  set_batchId_workflowStarted (Some b) (workflowStarted initialState)
    initialState.

Definition incomplete_message (have expected : nat) : string :=
  "Final report exists but phase3 incomplete ("
    +:+ pretty have +:+ "/" +:+ pretty expected +:+ " steps)".

(** The validator reports a final-report-completeness violation. *)
Definition reports_incomplete (state : WorkflowState) : Prop :=
  ∃ have expected,
    incomplete_message have expected ∈ val_errors (validateState state).

Definition report_of (text : string) : FinalReport := {|
  fr_content := text; fr_generatedAt := ""; fr_status := ReportReady |}.

Definition sample_plan_step (id : Z) : PlanStep := {|
  ps_step_id := id; ps_goal := ""; ps_required_data := None;
  ps_chunk_strategy := None; ps_notes := None; ps_status := None;
  ps_updatedAt := None |}.

(** A started batch with a final report, a plan of [plan] and the steps
    [steps]; the plan and report are put in place with the generic
    setter of the research-agent status and the report field. *)
Definition reported_state (plan : list PlanStep) (steps : list SessionStep)
    : WorkflowState :=
  let state := setWorkflowStarted true (setBatchId "batch-1" initialState) in
  let state := setPlan "t" (Some plan) state in
  let state := setPhase3Steps steps None state in
  setFinalReport (Some (report_of "report")) state.

(** The number of items of a given status. *)
Definition count_status (s : ItemStatus) (items : list ScrapingItem) : Z :=
  Z.of_nat (length (filter (λ i, si_status i = s) items)).

Definition no_progress : ScrapingItemPartial := {|
  sp_link_id := None; sp_url := None; sp_status := None; sp_error := None;
  sp_current_stage := None; sp_stage_progress := None;
  sp_overall_progress := None; sp_status_message := None;
  sp_started_at := None; sp_completed_at := None; sp_source := None;
  sp_word_count := None; sp_bytes_downloaded := None;
  sp_total_bytes := None |}.

Definition pending_progress : ScrapingItemPartial := {|
  sp_link_id := None; sp_url := None; sp_status := Some Pending;
  sp_error := None; sp_current_stage := None; sp_stage_progress := None;
  sp_overall_progress := None; sp_status_message := None;
  sp_started_at := None; sp_completed_at := None; sp_source := None;
  sp_word_count := None; sp_bytes_downloaded := None;
  sp_total_bytes := None |}.

(** One item, still pending. *)
Definition state_one_pending : WorkflowState :=
  updateScrapingItemProgress None "https://a" pending_progress initialState.

(** The goal stored under an id. *)
Definition stored_goal (state : WorkflowState) (id : Z) : option LiveGoal :=
  ras_liveGoals (researchAgentStatus state) !! id.

Definition goal_status_streaming (id : Z) : LiveGoalUpdate := {|
  gu_id := id; gu_goal_text := None; gu_rationale := None; gu_uses := None;
  gu_sources := None; gu_status := Some Streaming; gu_updatedAt := None |}.

Definition goal_text_only (id : Z) (text : string) : LiveGoalUpdate := {|
  gu_id := id; gu_goal_text := Some text; gu_rationale := None;
  gu_uses := None; gu_sources := None; gu_status := None;
  gu_updatedAt := None |}.

(** A goal that is ready, then an update that carries only a text. *)
Definition state_goal_1_ready : WorkflowState :=
  updateLiveGoal "t0" {|
    gu_id := 1; gu_goal_text := Some "old"; gu_rationale := Some "why";
    gu_uses := None; gu_sources := None; gu_status := Some Ready;
    gu_updatedAt := None |} initialState.

(** The conversation log of a state. *)
Definition conversation (state : WorkflowState) : list ConversationMessage :=
  ras_conversationMessages (researchAgentStatus state).

Section ConversationLog.
Variable getTime : string → option Z.

(** A message whose timestamp parses. *)
Definition parses (m : ConversationMessage) : Prop :=
is_Some (getTime (cm_timestamp m)).

(** The time of a message whose timestamp parses. *)
Definition message_time (m : ConversationMessage) : Z :=
default 0%Z (getTime (cm_timestamp m)).

(** [a] is not later than [b]: both timestamps parse, in this order. *)
Definition not_later (a b : ConversationMessage) : Prop :=
match getTime (cm_timestamp a), getTime (cm_timestamp b) with
| Some aTime, Some bTime => (aTime ≤ bTime)%Z
| _, _ => False
end.

(** The entries that compete for the 200 places of the log: the stored
  messages of the other ids, and the new message. *)
Definition candidates (message : ConversationMessage)
  (state : WorkflowState) : list ConversationMessage :=
filter (λ item, cm_id item ≠ cm_id message) (conversation state)
  ++ [message].

Definition run_upserts (messages : list ConversationMessage)
  (state : WorkflowState) : WorkflowState :=
foldl (λ st m, upsertConversationMessage getTime m st) state messages.
End ConversationLog.

(** A clock for the concrete checks.  It reads the timestamps of the first
    minute of 2024 (UTC), written [2024-01-01T00:00:SS.mmmZ], as [Date]
    does; the concrete checks use such timestamps and, for one that does
    not parse, the text 'not a date'. *)
Definition digit_of (c : Ascii.ascii) : option Z :=
  let n := Z.of_nat (Ascii.nat_of_ascii c) in
  if (48 <=? n)%Z && (n <=? 57)%Z then Some (n - 48)%Z else None.

Definition sample_getTime (s : string) : option Z :=
  if String.eqb (String.substring 0 17 s) "2024-01-01T00:00:"
     && Nat.eqb (String.length s) 24
     && bool_decide (String.get 19 s = Some (Ascii.ascii_of_nat 46))
     && bool_decide (String.get 23 s = Some (Ascii.ascii_of_nat 90))
  then
    s1 ← String.get 17 s ≫= digit_of;
    s2 ← String.get 18 s ≫= digit_of;
    m1 ← String.get 20 s ≫= digit_of;
    m2 ← String.get 21 s ≫= digit_of;
    m3 ← String.get 22 s ≫= digit_of;
    if (10 * s1 + s2 <? 60)%Z
    then Some (1704067200000 + 1000 * (10 * s1 + s2)
               + 100 * m1 + 10 * m2 + m3)%Z
    else None
  else None.

(** The timestamp of the instant [n] milliseconds into 2024, [n < 1000]. *)
Definition stamp (n : nat) : string :=
  "2024-01-01T00:00:00."
    +:+ (if (n <? 10)%nat then "00" else if (n <? 100)%nat then "0" else "")
    +:+ pretty n +:+ "Z".

Definition sample_message (id time : string) : ConversationMessage := {|
  cm_id := id; cm_role := Assistant; cm_content := ""; cm_status := Queued;
  cm_timestamp := time; cm_metadata := None |}.

Definition research_phase (state : WorkflowState) : string :=
  ras_phase (researchAgentStatus state).

(** An action that does not write the research phase. *)
Definition keeps_research_phase (f : WorkflowState → WorkflowState) : Prop :=
  ∀ state, research_phase (f state) = research_phase state.

Definition no_session_data (st : SessionStatus) : HistorySessionDetail := {|
  batch_id := "batch-1"; session_id := Some "session-1"; created_at := "";
  status := st; topic := None; url_count := None; current_phase := None;
  metadata := None; scraping_status := None; phase3 := None;
  resume_required := None; data_loaded := None |}.

(** A completed session with a persisted plan and goals. *)
Definition completed_session : HistorySessionDetail := {|
  batch_id := "batch-1"; session_id := Some "session-1"; created_at := "";
  status := SessCompleted; topic := None; url_count := None;
  current_phase := None;
  metadata := Some {|
    phase1_confirmed_goals := Some [{|
      pg_id := Some 1%Z; pg_goal_id := None; pg_goal_text := Some "goal";
      pg_goal := None; pg_uses := None; pg_sources := None |}];
    research_plan := Some [sample_plan_step 1; sample_plan_step 2];
    md_synthesized_goal := None |};
  scraping_status := None;
  phase3 := Some {|
    p3_plan := None;
    p3_steps := Some [sample_step 2 "b"; sample_step 1 "a"];
    p3_completed_step_ids := None; p3_total_steps := None;
    p3_next_step_id := None; p3_synthesized_goal := None |};
  resume_required := None; data_loaded := None |}.

(** The store actions that apply an incoming event: the events of the
    projector ([stream.start], [stream.token], [stream.complete],
    [stream.error], [goal.update], [plan_step.update], [phase3_step.add],
    [scraping_item.progress], [batch.initialized] as a scraping-status
    update, [cancellation.recorded]) and the other actions that merge a
    payload into the store. *)
Inductive Event :=
  | EvStartStream (streamId : string) (phase : option string)
      (metadata : option Json) (startedAt : option string)
  | EvAppendStreamToken (streamId token : string)
  | EvCompleteStream (streamId : string) (metadata : option StreamCompletion)
  | EvSetStreamError (streamId error : string)
  | EvUpdateLiveGoal (goal : LiveGoalUpdate)
  | EvUpdateLivePlanStep (step : LivePlanStepUpdate)
  | EvAddPhase3Step (step : SessionStep)
  | EvSetPhase3Steps (steps : list SessionStep) (nextStepId : option Z)
  | EvUpdateScrapingItemProgress (link_id : option string) (url : string)
      (progress : ScrapingItemPartial)
  | EvUpdateScrapingStatus (status : ScrapingStatusPartial)
  | EvUpdateScrapingItem (url : string) (status : ItemStatus)
      (error : option string)
  | EvSetCancelled (cancelled : bool) (info : option CancellationInfo)
  | EvUpdateLiveInsight (insight : LiveInsightUpdate)
  | EvUpdateLiveAction (action : LiveActionUpdate)
  | EvUpdateLiveReportSection (section : LiveReportSectionUpdate).

(** Applying an event when the clock reads [now]. *)
Definition apply (now : string) (e : Event) (state : WorkflowState)
    : WorkflowState :=
  match e with
  | EvStartStream streamId phase metadata startedAt =>
      startStream now streamId phase metadata startedAt state
  | EvAppendStreamToken streamId token =>
      appendStreamToken now streamId token state
  | EvCompleteStream streamId metadata =>
      completeStream now streamId metadata state
  | EvSetStreamError streamId error => setStreamError now streamId error state
  | EvUpdateLiveGoal goal => updateLiveGoal now goal state
  | EvUpdateLivePlanStep step => updateLivePlanStep now step state
  | EvAddPhase3Step step => addPhase3Step step state
  | EvSetPhase3Steps steps nextStepId => setPhase3Steps steps nextStepId state
  | EvUpdateScrapingItemProgress link_id url progress =>
      updateScrapingItemProgress link_id url progress state
  | EvUpdateScrapingStatus status => updateScrapingStatus status state
  | EvUpdateScrapingItem url status error =>
      updateScrapingItem url status error state
  | EvSetCancelled cancelled info => setCancelled cancelled info state
  | EvUpdateLiveInsight insight => updateLiveInsight now insight state
  | EvUpdateLiveAction action => updateLiveAction now action state
  | EvUpdateLiveReportSection section =>
      updateLiveReportSection now section state
  end.


(** A progress event whose payload does not rename the key it is applied
    under: [progress.link_id] (when matching by link id) or [progress.url]
    (when matching by url) is absent or equal to the argument. *)
Definition keeps_key (link_id : option string) (url : string)
    (progress : ScrapingItemPartial) : Prop :=
  if truthy link_id
  then sp_link_id progress = None ∨ sp_link_id progress = link_id
  else sp_url progress = None ∨ sp_url progress = Some url.

(** The events for which a second application changes nothing: all but a
    stream token, a step with a new id added to a collection that holds a
    step id more than once, and a progress event that renames its own key.
    The stream ids are plain keys. *)
Definition repeatable (e : Event) (state : WorkflowState) : Prop :=
  match e with
  | EvAppendStreamToken _ _ => False
  | EvStartStream streamId _ _ _ | EvCompleteStream streamId _
  | EvSetStreamError streamId _ => plain_key streamId
  | EvAddPhase3Step step =>
      distinct_ids (phase3Steps state)
      ∨ step_id step ∈ step_id <$> phase3Steps state
  | EvUpdateScrapingItemProgress link_id url progress =>
      keeps_key link_id url progress
  | _ => True
  end.

(** The families of events: the events of a family read and write the
    same part of the store, and no two families share a part. *)
Inductive Family :=
  | FStream | FGoal | FPlan | FStep | FScraping | FCancel
  | FInsight | FAction | FSection.

#[global] Instance Family_eq_dec : EqDecision Family.
Proof. solve_decision. Defined.
















(** The text accumulated for a stream. *)
Definition stream_raw (state : WorkflowState) (streamId : string) : string :=
  default ""
    (sb_raw <$> buffers (ras_streams (researchAgentStatus state)) !! streamId).

Definition stream_tokenCount (state : WorkflowState) (streamId : string) : Z :=
  default 0%Z
    (sb_tokenCount <$>
       buffers (ras_streams (researchAgentStatus state)) !! streamId).

(** The actions on the stream collection, as events. *)
Inductive StreamEvent :=
  | StartStream (streamId : string) (phase : option string)
      (metadata : option Json) (startedAt : option string)
  | AppendStreamToken (streamId token : string)
  | CompleteStream (streamId : string) (metadata : option StreamCompletion)
  | SetStreamError (streamId error : string)
  | SetActiveStream (streamId : option string)
  | PinStream (streamId : string)
  | UnpinStream (streamId : string)
  | ClearStreamBuffer (streamId : option string).

Definition applyStreamEvent (now : string) (e : StreamEvent)
    (state : WorkflowState) : WorkflowState :=
  match e with
  | StartStream streamId phase metadata startedAt =>
      startStream now streamId phase metadata startedAt state
  | AppendStreamToken streamId token =>
      appendStreamToken now streamId token state
  | CompleteStream streamId metadata =>
      completeStream now streamId metadata state
  | SetStreamError streamId error => setStreamError now streamId error state
  | SetActiveStream streamId => setActiveStream streamId state
  | PinStream streamId => pinStream streamId state
  | UnpinStream streamId => unpinStream streamId state
  | ClearStreamBuffer streamId => clearStreamBuffer streamId state
  end.

(** Folding stream events, each with the clock reading at its application. *)
Definition runStreamEvents (events : list (string * StreamEvent))
    (state : WorkflowState) : WorkflowState :=
  foldl (λ st te, applyStreamEvent te.1 te.2 st) state events.

Definition streams_of (state : WorkflowState) : StreamCollectionState :=
  ras_streams (researchAgentStatus state).

(** The stream id an event names. *)
Definition named_stream (e : StreamEvent) : option string :=
  match e with
  | StartStream streamId _ _ _ | AppendStreamToken streamId _
  | CompleteStream streamId _ | SetStreamError streamId _
  | PinStream streamId | UnpinStream streamId => Some streamId
  | SetActiveStream streamId | ClearStreamBuffer streamId => streamId
  end.

(** An event whose stream id, if any, is a [plain_key]. *)
Definition plain_stream_event (e : StreamEvent) : Prop :=
  match named_stream e with
  | Some streamId => plain_key streamId
  | None => True
  end.


(** The text of the foreground stream: the text of the buffer of the active
    id, empty when no stream is active or the active id has no buffer. *)
Definition foreground_raw (state : WorkflowState) : string :=
  default ""
    (sb_raw <$>
       (activeStreamId (streams_of state)
          ≫= λ id, buffers (streams_of state) !! id)).


(** An event that neither restarts a stream nor clears text. *)
Definition keeps_text (e : StreamEvent) : Prop :=
  match e with
  | StartStream _ _ _ _ | ClearStreamBuffer _ => False
  | _ => True
  end.

(** The tokens an event list carries for a stream, in order of arrival. *)
Definition tokens_for (streamId : string)
    (events : list (string * StreamEvent)) : list string :=
  omap (λ te, match te.2 with
              | AppendStreamToken id token =>
                  if decide (id = streamId) then Some token else None
              | _ => None
              end) events.

Definition concat_tokens (tokens : list string) : string :=
  foldr String.append "" tokens.

Definition stream_buffer (state : WorkflowState) (streamId : string)
    : option StreamBufferState :=
  buffers (streams_of state) !! streamId.

(** Folding goal updates, each with the clock reading at its application. *)
Definition run_goal_updates (updates : list (string * LiveGoalUpdate))
    (state : WorkflowState) : WorkflowState :=
  foldl (λ st tu, updateLiveGoal tu.1 tu.2 st) state updates.

(** The ids of a list without repetition, in the order of their first
    occurrence. *)
Definition first_seen (ids : list Z) : list Z :=
  reverse (remove_dups (reverse ids)).

Definition goal_order (state : WorkflowState) : list Z :=
  ras_goalOrder (researchAgentStatus state).

Definition updated_ids (updates : list (string * LiveGoalUpdate)) : list Z :=
  (λ tu, gu_id tu.2) <$> updates.

(** The step of the loop of [setGoals] over the goals it is given. *)
Definition setGoals_each (timestamp : string)
    (acc : gmap Z LiveGoal * list Z) (goal : GoalEntry)
    : gmap Z LiveGoal * list Z :=
  let '(liveGoals, goalOrder) := acc in
  let id := ge_id goal in
  let existing := default {|
    lg_id := id; lg_goal_text := None; lg_rationale := None;
    lg_uses := None; lg_sources := None; lg_status := Ready;
    lg_updatedAt := None |} (liveGoals !! id) in
  (<[id := {|
     lg_id := id;
     lg_goal_text := Some (ge_goal_text goal);
     lg_rationale := ge_rationale goal ∪ lg_rationale existing;
     lg_uses := ge_uses goal ∪ lg_uses existing;
     lg_sources := ge_sources goal ∪ lg_sources existing;
     lg_status := Ready;
     lg_updatedAt := Some timestamp |}]> liveGoals,
   goalOrder ++ [id]).

Definition scraping_items (state : WorkflowState) : list ScrapingItem :=
  ss_items (scrapingStatus state).

(** The fields hydration writes, taken from [hydrated]; every other field
    from [state]. *)
Definition with_hydrated_fields (hydrated state : WorkflowState)
    : WorkflowState := {|
  currentPhase := currentPhase state;
  batchId := batchId state;
  workflowId := workflowId state;
  workflowStarted := workflowStarted state;
  sessionId := sessionId state;
  reportStale := reportStale state;
  rerunState := rerunState state;
  stepRerunState := stepRerunState state;
  overallProgress := overallProgress state;
  currentStep := currentStep state;
  stepProgress := stepProgress state;
  scrapingStatus := scrapingStatus hydrated;
  cancelled := cancelled state;
  cancellationInfo := cancellationInfo state;
  researchAgentStatus := researchAgentStatus hydrated;
  phase3Steps := phase3Steps hydrated;
  currentStepId := currentStepId hydrated;
  finalReport := finalReport state;
  errors := errors state |}.

(** What hydration leaves alone: the state with the fields hydration writes
    blanked out. *)
Definition hydration_frame (state : WorkflowState) : WorkflowState :=
  with_hydrated_fields initialState state.

(** An action that writes none but the fields hydration writes. *)
Definition keeps_hydration_frame (f : WorkflowState → WorkflowState) : Prop :=
  ∀ state, hydration_frame (f state) = hydration_frame state.

(** What the store knows of the goals: the confirmed goals, the live goals
    and their order. *)
Definition goal_fields (state : WorkflowState)
    : option (list GoalEntry) * gmap Z LiveGoal * list Z :=
  (ras_goals (researchAgentStatus state),
   ras_liveGoals (researchAgentStatus state),
   ras_goalOrder (researchAgentStatus state)).

(** An action that leaves the goals as they are. *)
Definition keeps_goals (f : WorkflowState → WorkflowState) : Prop :=
  ∀ state, goal_fields (f state) = goal_fields state.

(** The moves of the plan carousel of the research page: the handlers, and
    the plan getting a new length (after which the length effect runs). *)
Inductive PlanNav :=
  | NavNext
  | NavPrevious
  | NavGoTo (index : Z)
  | NavLength (n : nat).

(** The carousel: the number of plan entries and the index on display. *)
Definition applyPlanNav (e : PlanNav) (s : nat * Z) : nat * Z :=
  match e with
  | NavNext => (s.1, goToNextPlan s.1 s.2)
  | NavPrevious => (s.1, goToPreviousPlan s.2)
  | NavGoTo index => (s.1, goToPlan s.1 index s.2)
  | NavLength n => (n, planLengthChanged n s.2)
  end.

Definition runPlanNav (events : list PlanNav) (s : nat * Z) : nat * Z :=
  foldl (λ s e, applyPlanNav e s) s events.

(** The index on display points at a plan entry, or is 0 when there is
    none. *)
Definition plan_index_in_range (s : nat * Z) : Prop :=
  (0 ≤ s.2)%Z ∧ (s.2 < Z.max 1 (Z.of_nat s.1))%Z.

(** The goals hydration hands to [setGoals]. *)
Definition hydrated_goals (sessionData : HistorySessionDetail)
    : list GoalEntry :=
  (λ g, {|
     ge_id := first_nonzero (pg_id g) (pg_goal_id g);
     ge_goal_text := default "" (or_else (pg_goal_text g) (pg_goal g));
     ge_uses := Some (default [] (pg_uses g));
     ge_sources := Some (default [] (pg_sources g));
     ge_rationale := None;
     ge_status := None;
     ge_updatedAt := None |}) <$> persisted_goals sessionData.

(** Two updates of one live entity put together: a key of the later one
    wins, the earlier one fills in what the later one omits. *)
Definition insight_update_merge (later earlier : LiveInsightUpdate)
    : LiveInsightUpdate := {|
  iu_id := iu_id later;
  iu_title := iu_title later ∪ iu_title earlier;
  iu_summary := iu_summary later ∪ iu_summary earlier;
  iu_sources := iu_sources later ∪ iu_sources earlier;
  iu_status := iu_status later ∪ iu_status earlier;
  iu_updatedAt := iu_updatedAt later |}.

Definition action_update_merge (later earlier : LiveActionUpdate)
    : LiveActionUpdate := {|
  au_id := au_id later;
  au_description := au_description later ∪ au_description earlier;
  au_result := au_result later ∪ au_result earlier;
  au_status := au_status later ∪ au_status earlier;
  au_updatedAt := au_updatedAt later |}.

Definition section_update_merge (later earlier : LiveReportSectionUpdate)
    : LiveReportSectionUpdate := {|
  ru_id := ru_id later;
  ru_heading := ru_heading later ∪ ru_heading earlier;
  ru_content := ru_content later ∪ ru_content earlier;
  ru_status := ru_status later ∪ ru_status earlier;
  ru_updatedAt := ru_updatedAt later |}.

Definition stored_insight (state : WorkflowState) (id : string)
    : option LiveInsight :=
  ras_liveInsights (researchAgentStatus state) !! id.

Definition stored_action (state : WorkflowState) (id : string)
    : option LiveAction :=
  ras_liveActions (researchAgentStatus state) !! id.

Definition stored_section (state : WorkflowState) (id : string)
    : option LiveReportSection :=
  ras_liveReportSections (researchAgentStatus state) !! id.

(** A session whose two confirmed goals were persisted without an id. *)
Definition session_without_goal_ids : HistorySessionDetail := {|
  batch_id := "batch-1"; session_id := Some "session-1"; created_at := "";
  status := SessInProgress; topic := None; url_count := None;
  current_phase := None;
  metadata := Some {|
    phase1_confirmed_goals := Some [
      {| pg_id := None; pg_goal_id := None; pg_goal_text := Some "first";
         pg_goal := None; pg_uses := None; pg_sources := None |};
      {| pg_id := None; pg_goal_id := None; pg_goal_text := Some "second";
         pg_goal := None; pg_uses := None; pg_sources := None |}];
    research_plan := None;
    md_synthesized_goal := None |};
  scraping_status := None; phase3 := None;
  resume_required := None; data_loaded := None |}.

(** The step of the loop of [setPlan] over the steps it is given. *)
Definition setPlan_each (timestamp : string)
    (acc : gmap Z LivePlanStep * list Z) (step : PlanStep)
    : gmap Z LivePlanStep * list Z :=
  let '(livePlanSteps, planOrder) := acc in
  let id := ps_step_id step in
  let existing := default {|
    lp_step_id := id; lp_goal := None; lp_required_data := None;
    lp_chunk_strategy := None; lp_notes := None; lp_status := Ready;
    lp_updatedAt := None |} (livePlanSteps !! id) in
  (<[id := {|
     lp_step_id := id;
     lp_goal := Some (ps_goal step);
     lp_required_data := ps_required_data step ∪ lp_required_data existing;
     lp_chunk_strategy :=
       ps_chunk_strategy step ∪ lp_chunk_strategy existing;
     lp_notes := ps_notes step ∪ lp_notes existing;
     lp_status := Ready;
     lp_updatedAt := Some timestamp |}]> livePlanSteps,
   planOrder ++ [id]).

Definition plan_order (state : WorkflowState) : list Z :=
  ras_planOrder (researchAgentStatus state).

Definition stored_plan_step (state : WorkflowState) (id : Z)
    : option LivePlanStep :=
  ras_livePlanSteps (researchAgentStatus state) !! id.

(** * Properties *)

(** ** The stable sort *)

Section SortFacts.
Context {A : Type} (key : A → Z).

Lemma insert_by_Permutation x l : insert_by key x l ≡ₚ x :: l.
Proof.
  induction l as [|y l IH]; simpl; [done|].
  destruct (key x <=? key y)%Z; [done|].
  rewrite IH. apply Permutation_swap.
Qed.

Lemma sort_by_Permutation l : sort_by key l ≡ₚ l.
Proof.
  induction l as [|x l IH]; simpl; [done|].
  by rewrite insert_by_Permutation, IH.
Qed.

Lemma sort_by_length l : length (sort_by key l) = length l.
Proof. by rewrite sort_by_Permutation. Qed.

Lemma sort_by_elem_of x l : x ∈ sort_by key l ↔ x ∈ l.
Proof. by rewrite sort_by_Permutation. Qed.

Lemma insert_by_sorted x l :
  StronglySorted (key_le key) l → StronglySorted (key_le key) (insert_by key x l).
Proof.
  induction 1 as [|y l Hl IH Hy]; simpl.
  { repeat constructor. }
  destruct (Z.leb_spec (key x) (key y)) as [Hxy|Hxy].
  - constructor; [by constructor|].
    constructor; [done|].
    eapply Forall_impl; [exact Hy|]. unfold key_le. intros z ?. lia.
  - constructor; [done|].
    rewrite insert_by_Permutation. constructor; [|done].
    unfold key_le. lia.
Qed.

Lemma sort_by_sorted l : StronglySorted (key_le key) (sort_by key l).
Proof.
  induction l as [|x l IH]; simpl; [constructor|].
  by apply insert_by_sorted.
Qed.

(** Inserting in front of a list of larger-or-equal keys is a cons, so a
    sorted list is a fixed point of the sort. *)
Lemma insert_by_le_all x l :
  Forall ((key_le key) x) l → insert_by key x l = x :: l.
Proof.
  destruct 1 as [|y l Hy _]; simpl; [done|].
  unfold key_le in Hy. by rewrite (proj2 (Z.leb_le _ _) Hy).
Qed.

Lemma sort_by_fixed l : StronglySorted (key_le key) l → sort_by key l = l.
Proof.
  induction 1 as [|x l Hl IH Hx]; simpl; [done|].
  rewrite IH. by apply insert_by_le_all.
Qed.

Lemma key_inj_on_NoDup l x y :
  NoDup (key <$> l) → x ∈ l → y ∈ l → key x = key y → x = y.
Proof.
  induction l as [|z l IH]; simpl; intros Hnd Hx Hy Hxy.
  { by apply elem_of_nil in Hx. }
  apply NoDup_cons in Hnd as [Hz Hnd].
  apply elem_of_cons in Hx as [->|Hx], Hy as [->|Hy]; [done| | |by eauto].
  - exfalso. apply Hz. rewrite Hxy. by apply list_elem_of_fmap_2.
  - exfalso. apply Hz. rewrite <- Hxy. by apply list_elem_of_fmap_2.
Qed.

(** With pairwise distinct keys the sorted arrangement is unique. *)
Lemma sorted_by_unique l1 l2 :
  NoDup (key <$> l1) → l1 ≡ₚ l2 →
  StronglySorted (key_le key) l1 → StronglySorted (key_le key) l2 → l1 = l2.
Proof.
  intros Hnd Hp H1 H2.
  apply (StronglySorted_unique_strong (key_le key)); [|done..].
  intros x1 x2 Hx1 Hx2 Hle1 Hle2. unfold key_le in *.
  apply (key_inj_on_NoDup l1); [done|done| |lia].
  by rewrite Hp.
Qed.

Lemma sort_by_Permutation_eq l1 l2 :
  NoDup (key <$> l1) → l1 ≡ₚ l2 → sort_by key l1 = sort_by key l2.
Proof.
  intros Hnd Hp. apply sorted_by_unique.
  - by rewrite sort_by_Permutation.
  - by rewrite !sort_by_Permutation.
  - apply sort_by_sorted.
  - apply sort_by_sorted.
Qed.

Lemma sort_by_NoDup l :
  NoDup (key <$> l) → NoDup (key <$> sort_by key l).
Proof. by rewrite sort_by_Permutation. Qed.
End SortFacts.

(** ** Phase 3 steps: the [Map] of [addPhase3Step] *)

Lemma map_set_fresh {V} k (v : V) m :
  k ∉ m.*1 → map_set k v m = m ++ [(k, v)].
Proof.
  induction m as [|[k' v'] m IH]; simpl; intros Hk; [done|].
  apply not_elem_of_cons in Hk as [Hne Hk].
  destruct (decide (k = k')); [done|]. by rewrite IH.
Qed.

(** On a list without repeated ids the loop over the existing steps keeps,
    in order, the steps whose id differs from [k]. *)
Lemma steps_map_distinct k steps m0 :
  NoDup (m0.*1 ++ (step_id <$> steps)) →
  foldl (λ m s, if bool_decide (step_id s ≠ k)
                then map_set (step_id s) s m else m) m0 steps
  = m0 ++ ((λ s, (step_id s, s)) <$> filter (λ s, step_id s ≠ k) steps).
Proof.
  revert m0. induction steps as [|s steps IH]; intros m0 Hnd; simpl.
  { by rewrite app_nil_r. }
  rewrite filter_cons. destruct (decide (step_id s ≠ k)) as [Hs|Hs].
  - rewrite bool_decide_eq_true_2 by done.
    assert (step_id s ∉ m0.*1) as Hfresh.
    { apply NoDup_app in Hnd as (_ & Hdisj & _).
      intros Hin. apply (Hdisj _ Hin). simpl. left. }
    rewrite map_set_fresh by done. rewrite IH.
    + by rewrite <- app_assoc.
    + rewrite fmap_app. simpl. rewrite <- app_assoc. simpl. done.
  - rewrite bool_decide_eq_false_2 by done. apply IH.
    simpl in Hnd. apply NoDup_app in Hnd as (Hm & Hdisj & Hl).
    apply NoDup_cons in Hl as [_ Hl].
    apply NoDup_app. split_and!; [done| |done].
    intros x Hx Hx'. apply (Hdisj x Hx). by right.
Qed.

Lemma filter_ne_ids k (steps : list SessionStep) :
  k ∉ (step_id <$> filter (λ s, step_id s ≠ k) steps).
Proof.
  intros Hin. apply list_elem_of_fmap in Hin as (s & -> & Hs).
  apply list_elem_of_filter in Hs as [Hne _]. done.
Qed.

Lemma filter_ne_absent k (steps : list SessionStep) :
  k ∉ (step_id <$> steps) → filter (λ s, step_id s ≠ k) steps = steps.
Proof.
  induction steps as [|s steps IH]; simpl; intros Hk; [done|].
  apply not_elem_of_cons in Hk as [Hne Hk].
  rewrite filter_cons, decide_True by done. by rewrite IH.
Qed.

Lemma distinct_ids_filter P `{∀ s, Decision (P s)} (steps : list SessionStep) :
  distinct_ids steps → distinct_ids (filter P steps).
Proof.
  unfold distinct_ids. induction steps as [|s steps IH]; simpl; [done|].
  intros [Hs Hnd]%NoDup_cons. rewrite filter_cons.
  destruct (decide (P s)); [|by auto].
  simpl. apply NoDup_cons. split; [|by auto].
  intros Hin. apply Hs.
  apply list_elem_of_fmap in Hin as (x & -> & Hx).
  apply list_elem_of_filter in Hx as [_ Hx]. by apply list_elem_of_fmap_2.
Qed.

(** On a state without repeated ids both branches of [addPhase3Step] come
    to: drop the step of that id, append the new one, sort. *)
Lemma addPhase3Step_steps step state :
  distinct_ids (phase3Steps state) →
  phase3Steps (addPhase3Step step state)
  = sort_by step_id
      (filter (λ s, step_id s ≠ step_id step) (phase3Steps state) ++ [step]).
Proof.
  intros Hnd. unfold addPhase3Step. simpl.
  case_bool_decide as Hin.
  - rewrite (steps_map_distinct _ _ []) by done. simpl.
    rewrite map_set_fresh.
    + unfold map_values. rewrite fmap_app, <- list_fmap_compose. simpl.
      by rewrite list_fmap_id.
    + rewrite <- list_fmap_compose. apply filter_ne_ids.
  - by rewrite filter_ne_absent.
Qed.

Lemma addPhase3Step_distinct step state :
  distinct_ids (phase3Steps state) →
  distinct_ids (phase3Steps (addPhase3Step step state)).
Proof.
  intros Hnd. rewrite addPhase3Step_steps by done.
  unfold distinct_ids. apply sort_by_NoDup.
  rewrite fmap_app. simpl. apply NoDup_app. split_and!.
  - by apply distinct_ids_filter.
  - intros k Hk ->%list_elem_of_singleton. by apply filter_ne_ids in Hk.
  - apply NoDup_singleton.
Qed.

Lemma applyPhase3Event_sorted e state :
  StronglySorted (key_le step_id) (phase3Steps (applyPhase3Event e state)).
Proof. destruct e; simpl; apply sort_by_sorted. Qed.

Lemma applyPhase3Event_distinct e state :
  well_keyed e → distinct_ids (phase3Steps state) →
  distinct_ids (phase3Steps (applyPhase3Event e state)).
Proof.
  destruct e as [step|steps next]; simpl; intros He Hst.
  - by apply addPhase3Step_distinct.
  - by apply sort_by_NoDup.
Qed.

Lemma runPhase3Events_snoc evs e state :
  runPhase3Events (evs ++ [e]) state
  = applyPhase3Event e (runPhase3Events evs state).
Proof. unfold runPhase3Events. by rewrite foldl_app. Qed.

Lemma runPhase3Events_sorted evs state :
  StronglySorted (key_le step_id) (phase3Steps state) →
  StronglySorted (key_le step_id) (phase3Steps (runPhase3Events evs state)).
Proof.
  intros Hst. induction evs as [|e evs IH] using rev_ind; [done|].
  rewrite runPhase3Events_snoc. apply applyPhase3Event_sorted.
Qed.

Lemma runPhase3Events_distinct evs state :
  Forall well_keyed evs → distinct_ids (phase3Steps state) →
  distinct_ids (phase3Steps (runPhase3Events evs state)).
Proof.
  intros Hevs Hst. induction evs as [|e evs IH] using rev_ind; [done|].
  apply Forall_app in Hevs as [Hevs [He _]%Forall_cons].
  rewrite runPhase3Events_snoc. apply applyPhase3Event_distinct; auto.
Qed.

Lemma addPhase3Step_last_wins step state :
  distinct_ids (phase3Steps state) →
  step ∈ phase3Steps (addPhase3Step step state)
  ∧ ∀ x, x ∈ phase3Steps (addPhase3Step step state) →
         step_id x = step_id step → x = step.
Proof.
  intros Hnd. rewrite addPhase3Step_steps by done. split.
  - apply sort_by_elem_of, elem_of_app. right. by left.
  - intros x Hx Hid. apply sort_by_elem_of, elem_of_app in Hx as [Hx|Hx].
    + apply list_elem_of_filter in Hx as [Hne _]. done.
    + by apply list_elem_of_singleton in Hx.
Qed.

(** Spec scenario: the plan has steps 1, 2, 3 and the additions arrive for
    step 3, then 1, then 2. *)
Example phase3_arrival_3_1_2 :
  step_id <$> phase3Steps (runPhase3Events
    [AddPhase3Step (sample_step 3 "c"); AddPhase3Step (sample_step 1 "a");
     AddPhase3Step (sample_step 2 "b")] initialState)
  = [1; 2; 3]%Z.
Proof. reflexivity. Qed.

(** Spec scenario: two additions with the same step id leave one entry. *)
Example phase3_same_id_twice :
  phase3Steps (runPhase3Events
    [AddPhase3Step (sample_step 2 "old"); AddPhase3Step (sample_step 1 "a");
     AddPhase3Step (sample_step 2 "new")] initialState)
  = [sample_step 1 "a"; sample_step 2 "new"].
Proof. reflexivity. Qed.

(** C5, as stated, fails: [setPhase3Steps] sorts the list it is given and
    keeps every element, so a list with a repeated step id is stored with the
    repetition. *)
Lemma C5_setPhase3Steps_keeps_duplicates :
  phase3Steps (runPhase3Events
    [SetPhase3Steps [sample_step 1 "a"; sample_step 1 "b"] None] initialState)
  = [sample_step 1 "a"; sample_step 1 "b"]
  ∧ ¬ distinct_ids (phase3Steps (runPhase3Events
        [SetPhase3Steps [sample_step 1 "a"; sample_step 1 "b"] None]
        initialState)).
Proof.
  split; [reflexivity|].
  unfold distinct_ids. simpl. intros [Hin _]%NoDup_cons.
  apply Hin. left.
Qed.

(** C5 (amended): after every sequence of [addPhase3Step] and
    [setPhase3Steps] applications, starting from the initial state, the
    phase3Steps collection is sorted in ascending step_id order, whatever the
    order of arrival; and when no [setPhase3Steps] was given a list with a
    repeated step_id, the collection has at most one entry per step_id and a
    further [addPhase3Step] leaves its own payload as the single entry of its
    step_id (last event wins). *)
Theorem C5_phase3Steps_sorted_and_keyed (evs : list Phase3Event) :
  let state := runPhase3Events evs initialState in
  StronglySorted (key_le step_id) (phase3Steps state)
  ∧ (Forall well_keyed evs →
     distinct_ids (phase3Steps state)
     ∧ ∀ step,
         step ∈ phase3Steps (addPhase3Step step state)
         ∧ ∀ x, x ∈ phase3Steps (addPhase3Step step state) →
                step_id x = step_id step → x = step).
Proof.
  simpl. split.
  - apply runPhase3Events_sorted. constructor.
  - intros Hevs.
    assert (distinct_ids (phase3Steps (runPhase3Events evs initialState)))
      as Hnd.
    { apply runPhase3Events_distinct; [done|]. apply NoDup_nil_2. }
    split; [done|]. intros step. by apply addPhase3Step_last_wins.
Qed.

Lemma C5_phase3Steps_witness :
  distinct_ids (phase3Steps (runPhase3Events
    [SetPhase3Steps [sample_step 2 "b"; sample_step 1 "a"] None;
     AddPhase3Step (sample_step 2 "b'")] initialState)).
Proof.
  apply (C5_phase3Steps_sorted_and_keyed
    [SetPhase3Steps [sample_step 2 "b"; sample_step 1 "a"] None;
     AddPhase3Step (sample_step 2 "b'")]).
  apply Forall_cons_2; [|apply Forall_cons_2; [exact I|apply Forall_nil_2]].
  unfold well_keyed, distinct_ids. simpl.
  apply NoDup_cons_2; [|apply NoDup_singleton].
  rewrite list_elem_of_singleton. discriminate.
Defined.

(** ** Scraping status *)

(** C4: an update whose expectedTotal is 0 or null leaves the stored
    expectedTotal as it is, in particular when the stored value is positive,
    and when it is 0 the update does not set it; the other fields of the
    update are merged as usual. *)
Theorem C4_expectedTotal_not_overwritten (status : ScrapingStatusPartial)
    (state : WorkflowState) :
  up_expectedTotal status = EtNull ∨ up_expectedTotal status = EtNumber 0 →
  let cur := scrapingStatus state in
  let new := scrapingStatus (updateScrapingStatus status state) in
  ss_expectedTotal new = ss_expectedTotal cur
  ∧ ((0 < ss_expectedTotal cur)%Z → (0 < ss_expectedTotal new)%Z)
  ∧ (ss_expectedTotal cur = 0%Z → ss_expectedTotal new = 0%Z)
  ∧ ss_total new = default (ss_total cur) (up_total status)
  ∧ ss_completed new = default (ss_completed cur) (up_completed status)
  ∧ ss_failed new = default (ss_failed cur) (up_failed status)
  ∧ ss_inProgress new = default (ss_inProgress cur) (up_inProgress status)
  ∧ ss_items new = default (ss_items cur) (up_items status)
  ∧ ss_completionRate new
    = default (ss_completionRate cur) (up_completionRate status)
  ∧ ss_is100Percent new
    = default (ss_is100Percent cur) (up_is100Percent status)
  ∧ ss_canProceedToResearch new
    = default (ss_canProceedToResearch cur) (up_canProceedToResearch status).
Proof.
  intros Het. simpl.
  assert (match up_expectedTotal status with
          | EtAbsent => None
          | EtNull =>
              if (0 <? ss_expectedTotal (scrapingStatus state))%Z
              then None else None
          | EtNumber n =>
              if (n =? 0)%Z then
                if (0 <? ss_expectedTotal (scrapingStatus state))%Z
                then None else None
              else Some n
          end = @None Z) as ->.
  { destruct Het as [->| ->]; simpl;
      by destruct (0 <? ss_expectedTotal (scrapingStatus state))%Z. }
  simpl. split_and!; done.
Qed.

Lemma C4_expectedTotal_witness :
  ss_expectedTotal (scrapingStatus
    (updateScrapingStatus update_total_7_expected_0 state_expecting_5)) = 5%Z
  ∧ ss_total (scrapingStatus
    (updateScrapingStatus update_total_7_expected_0 state_expecting_5)) = 7%Z.
Proof.
  destruct (C4_expectedTotal_not_overwritten
              update_total_7_expected_0 state_expecting_5)
    as (Het & _ & _ & Htotal & _).
  - right. reflexivity.
  - split; [exact Het|exact Htotal].
Defined.

(** A positive expectedTotal does overwrite the stored one. *)
Example expectedTotal_positive_overwrites :
  ss_expectedTotal (scrapingStatus (updateScrapingStatus {|
    up_total := None; up_expectedTotal := EtNumber 9; up_completed := None;
    up_failed := None; up_inProgress := None; up_items := None;
    up_completionRate := None; up_is100Percent := None;
    up_canProceedToResearch := None |} state_expecting_5)) = 9%Z.
Proof. reflexivity. Qed.

(** ** Starting a batch *)

(** C10: [setBatchId] with the stored batch id changes nothing (batchId and
    workflowStarted are written back with the values they had); with another
    batch id every field is back at its initial value, batchId holding the
    new id. *)
Theorem C10_setBatchId (b : string) (state : WorkflowState) :
  (batchId state = Some b → setBatchId b state = state)
  ∧ (batchId state ≠ Some b → setBatchId b state = fresh_batch b).
Proof.
  unfold setBatchId. split; intros Hb.
  - rewrite decide_True by done. destruct state; simpl in *. by subst.
  - rewrite decide_False by done. reflexivity.
Qed.

Lemma C10_setBatchId_witness :
  setBatchId "batch-1" (setBatchId "batch-1" state_expecting_5)
  = setBatchId "batch-1" state_expecting_5
  ∧ setBatchId "batch-2" (setBatchId "batch-1" state_expecting_5)
    = fresh_batch "batch-2".
Proof.
  split.
  - apply (proj1 (C10_setBatchId "batch-1"
                    (setBatchId "batch-1" state_expecting_5))).
    reflexivity.
  - apply (proj2 (C10_setBatchId "batch-2"
                    (setBatchId "batch-1" state_expecting_5))).
    vm_compute. discriminate.
Defined.

(** ** The consistency validator *)

Lemma elem_of_push_if x c msg errors :
  x ∈ push_if c msg errors ↔ x ∈ errors ∨ (c = true ∧ x = msg).
Proof.
  unfold push_if. destruct c.
  - rewrite elem_of_app, list_elem_of_singleton. intuition.
  - intuition discriminate.
Qed.

Lemma incomplete_message_head have expected :
  ∃ rest, incomplete_message have expected = String (Ascii.ascii_of_nat 70) rest.
Proof. eexists. reflexivity. Qed.

(** C8, as stated, fails: with a report, a plan of one step and two phase-3
    steps the counts differ, and the validator reports nothing. *)
Lemma C8_more_steps_than_plan_not_reported :
  let state :=
    reported_state [sample_plan_step 1]
      [sample_step 1 "a"; sample_step 2 "b"] in
  finalReport state ≠ None
  ∧ ras_plan (researchAgentStatus state) = Some [sample_plan_step 1]
  ∧ length (phase3Steps state) ≠ length [sample_plan_step 1]
  ∧ val_errors (validateState state) = []
  ∧ ¬ reports_incomplete state.
Proof.
  simpl. split_and!; [done|reflexivity|simpl; lia|reflexivity|].
  intros (have & expected & Hin).
  change (val_errors _) with (@nil string) in Hin.
  by apply elem_of_nil in Hin.
Qed.

(** C8 (amended): the validator reports a final-report-completeness
    violation exactly when a batch id is set, a final report exists, a plan
    exists and the number of phase-3 steps is smaller than the plan length;
    so whenever the count equals the plan length no such violation is
    reported. *)
Theorem C8_incomplete_reported_iff (state : WorkflowState) :
  (reports_incomplete state ↔
     truthy (batchId state) = true
     ∧ finalReport state ≠ None
     ∧ ∃ plan, ras_plan (researchAgentStatus state) = Some plan
               ∧ length (phase3Steps state) < length plan)
  ∧ (∀ plan, ras_plan (researchAgentStatus state) = Some plan →
       length (phase3Steps state) = length plan →
       ¬ reports_incomplete state).
Proof.
  assert (reports_incomplete state ↔
     truthy (batchId state) = true
     ∧ finalReport state ≠ None
     ∧ ∃ plan, ras_plan (researchAgentStatus state) = Some plan
               ∧ length (phase3Steps state) < length plan) as Hiff.
  { unfold reports_incomplete, validateState. simpl.
    destruct (truthy (batchId state)) eqn:Hb; simpl.
    - split.
      + intros (have & expected & Hin).
        destruct (incomplete_message_head have expected) as [rest Hhead].
        rewrite Hhead in Hin.
        apply elem_of_push_if in Hin as [Hin|[_ Hin]]; [|discriminate].
        destruct (finalReport state) as [report|] eqn:Hreport;
          destruct (ras_plan (researchAgentStatus state)) as [plan|] eqn:Hplan.
        * apply elem_of_push_if in Hin as [Hin|[Hlt Hin]].
          -- repeat (apply elem_of_push_if in Hin as [Hin|[_ Hin]];
                     [|discriminate]).
             by apply elem_of_nil in Hin.
          -- apply bool_decide_eq_true in Hlt. split_and!; [done|done|].
             by exists plan.
        * repeat (apply elem_of_push_if in Hin as [Hin|[_ Hin]];
                  [|discriminate]).
          by apply elem_of_nil in Hin.
        * repeat (apply elem_of_push_if in Hin as [Hin|[_ Hin]];
                  [|discriminate]).
          by apply elem_of_nil in Hin.
        * repeat (apply elem_of_push_if in Hin as [Hin|[_ Hin]];
                  [|discriminate]).
          by apply elem_of_nil in Hin.
      + intros (_ & Hreport & plan & Hplan & Hlt).
        exists (length (phase3Steps state)), (length plan).
        destruct (finalReport state) as [report|]; [|done].
        rewrite Hplan.
        apply elem_of_push_if. left. apply elem_of_push_if. right.
        split; [by apply bool_decide_eq_true|reflexivity].
    - split.
      + intros (have & expected & Hin).
        destruct (incomplete_message_head have expected) as [rest Hhead].
        rewrite Hhead in Hin.
        apply elem_of_push_if in Hin as [Hin|[_ Hin]]; [|discriminate].
        by apply elem_of_nil in Hin.
      + intros (Hfalse & _). discriminate. }
  split; [exact Hiff|].
  intros plan Hplan Hlen Hrep. apply Hiff in Hrep as (_ & _ & plan' & Hplan' & Hlt).
  rewrite Hplan in Hplan'. injection Hplan' as <-. lia.
Qed.

Lemma C8_incomplete_witness :
  ¬ reports_incomplete
      (reported_state [sample_plan_step 1] [sample_step 1 "a"]).
Proof.
  apply (proj2 (C8_incomplete_reported_iff
                  (reported_state [sample_plan_step 1] [sample_step 1 "a"]))
           [sample_plan_step 1]); reflexivity.
Defined.

(** A report with fewer steps than planned is flagged. *)
Example incomplete_is_reported :
  val_errors (validateState
    (reported_state [sample_plan_step 1; sample_plan_step 2]
       [sample_step 1 "a"]))
  = ["Final report exists but phase3 incomplete (1/2 steps)"].
Proof. reflexivity. Qed.

(** ** Scraping items and their counters *)

Lemma filter_or_length (s1 s2 : ItemStatus) (items : list ScrapingItem) :
  s1 ≠ s2 →
  length (filter (λ i, si_status i = s1 ∨ si_status i = s2) items)
  = length (filter (λ i, si_status i = s1) items)
    + length (filter (λ i, si_status i = s2) items).
Proof.
  intros Hne. induction items as [|i items IH]; [done|].
  rewrite !filter_cons.
  destruct (decide (si_status i = s1)) as [H1|H1],
           (decide (si_status i = s2)) as [H2|H2]; simpl.
  - congruence.
  - rewrite decide_True by (by left). simpl. lia.
  - rewrite decide_True by (by right). simpl. lia.
  - rewrite decide_False by (by intros [?|?]). lia.
Qed.

(** Both mutations recompute the three counters from the new item list;
    the previous counter values are not read. *)
Lemma updateScrapingItem_counters url status error state :
  let new := scrapingStatus (updateScrapingItem url status error state) in
  ss_completed new = count_status Completed (ss_items new)
  ∧ ss_failed new = count_status Failed (ss_items new)
  ∧ ss_inProgress new = count_status InProgress (ss_items new).
Proof. done. Qed.

Lemma updateScrapingItemProgress_counters link_id url progress state :
  let new :=
    scrapingStatus (updateScrapingItemProgress link_id url progress state) in
  ss_completed new = count_status Completed (ss_items new)
  ∧ ss_failed new = count_status Failed (ss_items new)
  ∧ ss_inProgress new
    = (count_status InProgress (ss_items new)
       + count_status Pending (ss_items new))%Z.
Proof.
  simpl. split_and!; [done|done|].
  unfold count_status. by rewrite filter_or_length, Nat2Z.inj_add.
Qed.

(** C6: the code at the failing input.  Both mutations leave the item list
    as it is (one pending item), yet [updateScrapingItem] stores 0 items in
    progress and [updateScrapingItemProgress] stores 1: the in-progress
    counter is not one function of the item list. *)
Theorem C6_inProgress_not_one_function :
  let by_item :=
    scrapingStatus
      (updateScrapingItem "https://other" Completed None state_one_pending) in
  let by_progress :=
    scrapingStatus
      (updateScrapingItemProgress None "https://a" no_progress
         state_one_pending) in
  ss_items by_item = ss_items (scrapingStatus state_one_pending)
  ∧ ss_items by_progress = ss_items (scrapingStatus state_one_pending)
  ∧ ss_inProgress by_item = 0%Z
  ∧ ss_inProgress by_progress = 1%Z.
Proof. simpl. split_and!; reflexivity. Qed.

(** Hence no counting function serves both mutations. *)
Lemma inProgress_no_common_function :
  ¬ ∃ f : list ScrapingItem → Z,
      (∀ url status error state,
         let new := scrapingStatus (updateScrapingItem url status error state)
         in ss_inProgress new = f (ss_items new))
      ∧ (∀ link_id url progress state,
           let new :=
             scrapingStatus
               (updateScrapingItemProgress link_id url progress state)
           in ss_inProgress new = f (ss_items new)).
Proof.
  intros (f & Hitem & Hprogress).
  specialize (Hitem "https://other" Completed None state_one_pending).
  specialize (Hprogress None "https://a" no_progress state_one_pending).
  change (0%Z = f (ss_items (scrapingStatus state_one_pending))) in Hitem.
  change (1%Z = f (ss_items (scrapingStatus state_one_pending)))
    in Hprogress.
  rewrite <- Hitem in Hprogress. discriminate.
Qed.

(** Spec scenario: three items, two completed and one failed. *)
Example counters_2_completed_1_failed :
  let progress s := {|
    sp_link_id := None; sp_url := None; sp_status := Some s;
    sp_error := None; sp_current_stage := None; sp_stage_progress := None;
    sp_overall_progress := None; sp_status_message := None;
    sp_started_at := None; sp_completed_at := None; sp_source := None;
    sp_word_count := None; sp_bytes_downloaded := None;
    sp_total_bytes := None |} in
  let state :=
    updateScrapingItemProgress None "https://c" (progress Failed)
      (updateScrapingItemProgress None "https://b" (progress Completed)
         (updateScrapingItemProgress None "https://a" (progress Completed)
            initialState)) in
  (ss_completed (scrapingStatus state), ss_failed (scrapingStatus state),
   ss_inProgress (scrapingStatus state)) = (2, 0 + 1, 0)%Z.
Proof. reflexivity. Qed.

(** ** Live goals *)

Lemma stored_goal_updateLiveGoal now goal state :
  stored_goal (updateLiveGoal now goal state) (gu_id goal) = Some {|
    lg_id := gu_id goal;
    lg_goal_text :=
      gu_goal_text goal ∪ (stored_goal state (gu_id goal) ≫= lg_goal_text);
    lg_rationale :=
      gu_rationale goal ∪ (stored_goal state (gu_id goal) ≫= lg_rationale);
    lg_uses := gu_uses goal ∪ (stored_goal state (gu_id goal) ≫= lg_uses);
    lg_sources :=
      gu_sources goal ∪ (stored_goal state (gu_id goal) ≫= lg_sources);
    lg_status :=
      default (default Streaming (lg_status <$> stored_goal state (gu_id goal)))
        (gu_status goal);
    lg_updatedAt := gu_updatedAt goal ∪ Some now |}.
Proof. unfold stored_goal, updateLiveGoal. simpl. apply lookup_insert_eq. Qed.

Lemma stored_goal_updateLiveGoal_ne now goal state id :
  id ≠ gu_id goal →
  stored_goal (updateLiveGoal now goal state) id = stored_goal state id.
Proof.
  intros Hne. unfold stored_goal, updateLiveGoal. simpl.
  by apply lookup_insert_ne.
Qed.

(** C3, as stated, fails for one field: an update that omits updatedAt does
    not leave the stored updatedAt as it was, the merge stamps the goal with
    the time of application. *)
Lemma C3_omitted_updatedAt_is_refreshed :
  let after := updateLiveGoal "t1" (goal_text_only 1 "X") state_goal_1_ready in
  gu_updatedAt (goal_text_only 1 "X") = None
  ∧ stored_goal state_goal_1_ready 1%Z ≫= lg_updatedAt = Some "t0"
  ∧ stored_goal after 1%Z ≫= lg_updatedAt = Some "t1"
  ∧ stored_goal after 1%Z ≫= lg_updatedAt
    ≠ stored_goal state_goal_1_ready 1%Z ≫= lg_updatedAt.
Proof. vm_compute. split_and!; [reflexivity..|discriminate]. Qed.

(** C3 (amended): for every goal update and every prior state, a field among
    goal_text, rationale, uses and sources that the update omits keeps the
    value stored for that goal, and an update that omits status keeps the
    stored status (a goal seen for the first time starts as 'streaming');
    updatedAt is not retained: it is the one the update carries, else the
    time of application; the goals stored under other ids are untouched.  In
    particular [{id: 1, status: 'streaming'}] followed by
    [{id: 1, goal_text: 'X'}] leaves goal 1 with status 'streaming' and
    goal_text 'X'. *)
Theorem C3_updateLiveGoal_keeps_omitted_fields (now : string)
    (goal : LiveGoalUpdate) (state : WorkflowState) :
  let id := gu_id goal in
  let before := stored_goal state id in
  let after := stored_goal (updateLiveGoal now goal state) id in
  (gu_goal_text goal = None →
     after ≫= lg_goal_text = before ≫= lg_goal_text)
  ∧ (gu_rationale goal = None →
     after ≫= lg_rationale = before ≫= lg_rationale)
  ∧ (gu_uses goal = None → after ≫= lg_uses = before ≫= lg_uses)
  ∧ (gu_sources goal = None → after ≫= lg_sources = before ≫= lg_sources)
  ∧ (gu_status goal = None →
     ∀ previous, before = Some previous →
       lg_status <$> after = Some (lg_status previous))
  ∧ (gu_status goal = None → before = None →
     lg_status <$> after = Some Streaming)
  ∧ after ≫= lg_updatedAt = gu_updatedAt goal ∪ Some now
  ∧ (∀ other, other ≠ id →
       stored_goal (updateLiveGoal now goal state) other
       = stored_goal state other)
  ∧ (∀ now', let final :=
         stored_goal
           (updateLiveGoal now' (goal_text_only 1 "X")
              (updateLiveGoal now (goal_status_streaming 1) state)) 1%Z in
       lg_status <$> final = Some Streaming
       ∧ final ≫= lg_goal_text = Some "X").
Proof.
  simpl. rewrite stored_goal_updateLiveGoal. simpl.
  split_and!.
  - intros ->. apply (left_id_L None _).
  - intros ->. apply (left_id_L None _).
  - intros ->. apply (left_id_L None _).
  - intros ->. apply (left_id_L None _).
  - intros -> previous ->. done.
  - intros -> ->. done.
  - done.
  - intros other Hne. by apply stored_goal_updateLiveGoal_ne.
  - intros now'.
    rewrite (stored_goal_updateLiveGoal now' (goal_text_only 1 "X")).
    change (gu_id (goal_text_only 1 "X")) with (gu_id (goal_status_streaming 1)).
    rewrite (stored_goal_updateLiveGoal now (goal_status_streaming 1)).
    simpl. split; [done|].
    by destruct (stored_goal state 1 ≫= lg_goal_text).
Qed.

Lemma C3_updateLiveGoal_witness :
  let after :=
    stored_goal
      (updateLiveGoal "t1" (goal_text_only 1 "X") state_goal_1_ready) 1%Z in
  after ≫= lg_rationale = Some "why"
  ∧ lg_status <$> after = Some Ready.
Proof.
  destruct (C3_updateLiveGoal_keeps_omitted_fields
              "t1" (goal_text_only 1 "X") state_goal_1_ready)
    as (_ & Hrationale & _ & _ & Hstatus & _ & _ & _).
  split.
  - etrans; [exact (Hrationale eq_refl)|reflexivity].
  - etrans; [exact (Hstatus eq_refl _ eq_refl)|reflexivity].
Defined.

(** ** The conversation log *)

Section SortWithFacts.
Context {A : Type} (compare : A → A → option Z).

Lemma insert_with_Permutation x l : insert_with compare x l ≡ₚ x :: l.
Proof.
  induction l as [|y l IH]; simpl; [done|].
  destruct (default 0 (compare x y) <=? 0)%Z; [done|].
  rewrite IH. apply Permutation_swap.
Qed.

Lemma sort_with_Permutation l : sort_with compare l ≡ₚ l.
Proof.
  induction l as [|x l IH]; simpl; [done|].
  by rewrite insert_with_Permutation, IH.
Qed.

Lemma sort_with_length l : length (sort_with compare l) = length l.
Proof. by rewrite sort_with_Permutation. Qed.
End SortWithFacts.

Lemma StronglySorted_impl_on {A : Type} (R R' : A → A → Prop)
    (P : A → Prop) (l : list A) :
  (∀ a b, P a → P b → R a b → R' a b) →
  Forall P l → StronglySorted R l → StronglySorted R' l.
Proof.
  intros Himpl HP Hsorted. induction Hsorted as [|x l Hl IH Hx].
  - constructor.
  - apply Forall_cons in HP as [Hpx HP]. constructor; [by apply IH|].
    rewrite Forall_forall in Hx, HP. apply Forall_forall.
    intros y Hy. apply Himpl; auto.
Qed.

Section ConversationFacts.
Variable getTime : string → option Z.

Lemma insert_with_parsed x l :
  parses getTime x → Forall (parses getTime) l →
  insert_with (time_difference getTime) x l
  = insert_by (message_time getTime) x l.
Proof.
  intros [tx Hx] Hl. induction Hl as [|y l [ty Hy] Hl IH]; simpl; [done|].
  rewrite IH.
  unfold time_difference, message_time. rewrite Hx, Hy. simpl.
  replace ((tx - ty <=? 0)%Z) with ((tx <=? ty)%Z); [done|].
  destruct (Z.leb_spec tx ty), (Z.leb_spec (tx - ty) 0); done || lia.
Qed.

Lemma sort_with_parsed l :
  Forall (parses getTime) l →
  sort_with (time_difference getTime) l = sort_by (message_time getTime) l.
Proof.
  induction 1 as [|x l Hx Hl IH]; simpl; [done|].
  rewrite IH. apply insert_with_parsed; [done|].
  apply Forall_forall. intros y Hy%sort_by_elem_of.
  rewrite Forall_forall in Hl. by apply Hl.
Qed.

Lemma conversation_upsert message state :
  conversation (upsertConversationMessage getTime message state)
  = drop (length (candidates message state) - 200)
      (sort_with (time_difference getTime) (candidates message state)).
Proof.
  unfold conversation, upsertConversationMessage, candidates. simpl.
  fold (conversation state). rewrite sort_with_length.
  case_bool_decide as Hlen; [done|].
  replace (_ - 200) with 0 by lia. done.
Qed.

Lemma filter_eq_ne_nil (k : string) (l : list ConversationMessage) :
  filter (λ item, cm_id item = k) (filter (λ item, cm_id item ≠ k) l) = [].
Proof.
  induction l as [|x l IH]; [done|].
  rewrite filter_cons. destruct (decide (cm_id x ≠ k)) as [Hne|_]; [|done].
  by rewrite filter_cons, decide_False.
Qed.

Lemma candidates_distinct message state :
  NoDup (cm_id <$> conversation state) →
  NoDup (cm_id <$> candidates message state).
Proof.
  intros Hnd. unfold candidates.
  rewrite fmap_app. simpl. apply NoDup_app. split_and!.
  - eapply sublist_NoDup; [exact Hnd|].
    apply fmap_sublist, sublist_filter.
  - intros k Hk ->%list_elem_of_singleton.
    apply list_elem_of_fmap in Hk as (x & Hid & Hx).
    apply list_elem_of_filter in Hx as [Hne _]. done.
  - apply NoDup_singleton.
Qed.

Lemma upsert_distinct message state :
  NoDup (cm_id <$> conversation state) →
  NoDup (cm_id <$>
           conversation (upsertConversationMessage getTime message state)).
Proof.
  intros Hnd. rewrite conversation_upsert.
  eapply sublist_NoDup; [|apply fmap_sublist, sublist_drop].
  rewrite sort_with_Permutation. by apply candidates_distinct.
Qed.

Lemma run_upserts_distinct messages :
  NoDup (cm_id <$> conversation (run_upserts getTime messages initialState)).
Proof.
  induction messages as [|m messages IH] using rev_ind.
  - apply NoDup_nil_2.
  - unfold run_upserts. rewrite foldl_app. simpl.
    by apply upsert_distinct.
Qed.

Lemma key_le_not_later a b :
  parses getTime a → parses getTime b →
  key_le (message_time getTime) a b → not_later getTime a b.
Proof.
  unfold key_le, message_time, not_later. intros [ta ->] [tb ->]. done.
Qed.

(** C9 (amended): after an [upsertConversationMessage] the log has at most
    200 entries and at most one entry for the id of the message; it has
    at most one entry per id whenever the log before had (as every log
    built by upserts from the empty one has); it holds the stored messages
    of the other ids and the new message, but for the entries the cap
    removes, which are as many as exceed 200.  When the timestamps of all
    these messages parse, the log is in ascending order of time whatever
    order it was in before, and no evicted entry is later than a kept
    one. *)
Theorem C9_conversation_capped_sorted_unique
    (message : ConversationMessage) (state : WorkflowState) :
  let after :=
    conversation (upsertConversationMessage getTime message state) in
  let competing := candidates message state in
  (length after ≤ 200)%nat
  ∧ (length (filter (λ item, cm_id item = cm_id message) after) ≤ 1)%nat
  ∧ (NoDup (cm_id <$> conversation state) → NoDup (cm_id <$> after))
  ∧ (∀ messages,
       NoDup (cm_id <$>
                conversation (run_upserts getTime messages initialState)))
  ∧ (∃ evicted,
       evicted ++ after ≡ₚ competing
       ∧ length evicted = length competing - 200)
  ∧ (Forall (parses getTime) competing →
     StronglySorted (not_later getTime) after
     ∧ ∃ evicted,
         evicted ++ after ≡ₚ competing
         ∧ length evicted = length competing - 200
         ∧ ∀ old kept, old ∈ evicted → kept ∈ after →
             not_later getTime old kept).
Proof.
  simpl. rewrite conversation_upsert.
  set (competing := candidates message state).
  set (sorted := sort_with (time_difference getTime) competing).
  set (k := length competing - 200).
  assert (sorted ≡ₚ competing) as Hperm by apply sort_with_Permutation.
  assert (length (take k sorted) = k) as Hk.
  { rewrite length_take, Hperm. unfold k. lia. }
  split_and!.
  - rewrite length_drop, Hperm. unfold k. lia.
  - assert (length (filter (λ item, cm_id item = cm_id message) sorted)
            ≤ 1)%nat as Hone.
    { rewrite Hperm. unfold competing, candidates.
      rewrite filter_app, length_app, filter_eq_ne_nil.
      rewrite filter_cons, decide_True by done. simpl. lia. }
    rewrite <- (take_drop k sorted), filter_app, length_app in Hone. lia.
  - intros Hnd.
    eapply sublist_NoDup; [|apply fmap_sublist, sublist_drop].
    rewrite Hperm. by apply candidates_distinct.
  - apply run_upserts_distinct.
  - exists (take k sorted). by rewrite take_drop.
  - intros Hparse.
    assert (Forall (parses getTime) sorted) as Hparsed.
    { by rewrite Hperm. }
    assert (StronglySorted (not_later getTime)
              (take k sorted ++ drop k sorted)) as Hsorted.
    { rewrite take_drop.
      apply (StronglySorted_impl_on (key_le (message_time getTime)) _
               (parses getTime)); [apply key_le_not_later|done|].
      unfold sorted. rewrite sort_with_parsed by done.
      apply sort_by_sorted. }
    split.
    + by apply StronglySorted_app_1_r in Hsorted.
    + exists (take k sorted). split_and!; [by rewrite take_drop|done|].
      intros old kept Hold Hkept.
      by apply (StronglySorted_app_1_elem_of _ _ _ _ _ Hsorted).
Qed.
End ConversationFacts.

(** C9, as stated, fails: a timestamp that does not parse makes the
    comparator return NaN for every pair it is part of, and the sort then
    leaves a later message in front of an earlier one.  The log holds b
    (10 s) and n (no date); a (5 s) arrives and stays behind both. *)
Lemma C9_unparsed_timestamp_leaves_disorder :
  let b := sample_message "b" "2024-01-01T00:00:10.000Z" in
  let n := sample_message "n" "not a date" in
  let a := sample_message "a" "2024-01-01T00:00:05.000Z" in
  let log := run_upserts sample_getTime [b; n] initialState in
  let after := conversation (upsertConversationMessage sample_getTime a log) in
  conversation log = [b; n]
  ∧ after = [b; n; a]
  ∧ sample_getTime (cm_timestamp b) = Some 1704067210000%Z
  ∧ sample_getTime (cm_timestamp n) = None
  ∧ sample_getTime (cm_timestamp a) = Some 1704067205000%Z
  ∧ ¬ StronglySorted (not_later sample_getTime) after.
Proof.
  cbv zeta. split_and!; [vm_compute; reflexivity..|].
  assert (conversation
            (upsertConversationMessage sample_getTime
               (sample_message "a" "2024-01-01T00:00:05.000Z")
               (run_upserts sample_getTime
                  [sample_message "b" "2024-01-01T00:00:10.000Z";
                   sample_message "n" "not a date"] initialState))
          = [sample_message "b" "2024-01-01T00:00:10.000Z";
             sample_message "n" "not a date";
             sample_message "a" "2024-01-01T00:00:05.000Z"]) as ->.
  { vm_compute. reflexivity. }
  intros Hsorted.
  apply StronglySorted_inv in Hsorted as [_ Hb].
  apply Forall_cons in Hb as [Hbn _]. vm_compute in Hbn. exact Hbn.
Qed.

(** Arrival in the order 30 ms, 10 ms, 20 ms; and message a sent again
    with another time. *)
Example conversation_sorted_by_time :
  cm_id <$> conversation (run_upserts sample_getTime
    [sample_message "a" (stamp 30); sample_message "b" (stamp 10);
     sample_message "c" (stamp 20)] initialState) = ["b"; "c"; "a"]
  ∧ conversation (run_upserts sample_getTime
      [sample_message "a" (stamp 30); sample_message "b" (stamp 10);
       sample_message "a" (stamp 5)] initialState)
    = [sample_message "a" (stamp 5); sample_message "b" (stamp 10)].
Proof. vm_compute. split; reflexivity. Qed.

(** With 200 entries of times 1..200 ms in the log, a message of time 0 is
    the oldest of the 201 and is the one the cap removes. *)
Example conversation_cap_evicts_oldest :
  let full :=
    run_upserts sample_getTime
      ((λ n, sample_message (pretty n) (stamp n)) <$> seq 1 200)
      initialState in
  length (conversation full) = 200
  ∧ conversation
      (upsertConversationMessage sample_getTime
         (sample_message "new" (stamp 0)) full)
    = conversation full
  ∧ (cm_id <$> conversation
       (upsertConversationMessage sample_getTime
          (sample_message "new" (stamp 201)) full))
    = (pretty <$> seq 2 199) ++ ["new"].
Proof. vm_compute. split_and!; reflexivity. Qed.

Lemma C9_conversation_witness :
  StronglySorted (not_later sample_getTime)
    (conversation
       (upsertConversationMessage sample_getTime
          (sample_message "b" "2024-01-01T00:00:10.000Z")
          (upsertConversationMessage sample_getTime
             (sample_message "a" "2024-01-01T00:00:30.000Z")
             initialState))).
Proof.
  destruct (C9_conversation_capped_sorted_unique sample_getTime
              (sample_message "b" "2024-01-01T00:00:10.000Z")
              (upsertConversationMessage sample_getTime
                 (sample_message "a" "2024-01-01T00:00:30.000Z")
                 initialState))
    as (_ & _ & _ & _ & _ & Hsorted).
  apply Hsorted.
  repeat (apply Forall_cons; split; [by eexists|]). apply Forall_nil_2.
Defined.

(** ** Hydration from a persisted session *)



Lemma setSynthesizedGoal_keeps_phase g :
  keeps_research_phase (setSynthesizedGoal g).
Proof. done. Qed.




(** Outside the claim: the history page offers 'view' for completed
    sessions only.  Were [handleView] run on a session in progress that has
    neither an explicit phase nor loaded data, it would store the phase
    'research' where [handleResume] stores 'scraping'. *)
Example view_of_a_session_in_progress :
  let sessionData := no_session_data SessInProgress in
  let resumed :=
    handleResume "t" "t" "batch-1" (Some sessionData) true initialState in
  let viewed := handleView "t" "t" "batch-1" (Some sessionData) initialState in
  currentPhase resumed.1 = "scraping"
  ∧ currentPhase viewed.1 = "research".
Proof. simpl. split; reflexivity. Qed.



Example completed_session_hydrated :
  let viewed :=
    (handleView "t1" "t2" "batch-1" (Some completed_session) initialState).1 in
  research_phase viewed = "2"
  ∧ currentPhase viewed = "complete"
  ∧ step_id <$> phase3Steps viewed = [1; 2]%Z
  ∧ ras_planOrder (researchAgentStatus viewed) = [1; 2]%Z.
Proof. vm_compute. split_and!; reflexivity. Qed.

(** The plan is resolved before the phase is inferred: an empty
    [metadata.research_plan] hides a plan that [phase3.plan] carries, the
    phase stays below '2', and the plan is stored all the same. *)
Example empty_metadata_plan_hides_phase3_plan :
  let sessionData := {|
    batch_id := "batch-1"; session_id := None; created_at := "";
    status := SessCompleted; topic := None; url_count := None;
    current_phase := None;
    metadata := Some {|
      phase1_confirmed_goals := None; research_plan := Some [];
      md_synthesized_goal := None |};
    scraping_status := None;
    phase3 := Some {|
      p3_plan := Some [sample_plan_step 1]; p3_steps := None;
      p3_completed_step_ids := None; p3_total_steps := None;
      p3_next_step_id := None; p3_synthesized_goal := None |};
    resume_required := None; data_loaded := None |} in
  let hydrated := hydrateWorkflowState "t1" "t2" sessionData initialState in
  research_phase hydrated = "0.5"
  ∧ ras_plan (researchAgentStatus hydrated) = Some [sample_plan_step 1].
Proof. vm_compute. split; reflexivity. Qed.

(** ** The projector as a fold over events *)

(** C1, as stated, fails: a stream token applied twice is appended twice.
    So is a step with a new id on a collection that already holds a
    repeated step id (the first application appends, the second one goes
    through the [Map] and drops the older duplicate), and a progress event
    that renames its key (it adds an item at each application). *)
Lemma C1_token_twice_differs_from_once :
  let once := apply "t" (EvAppendStreamToken "s1" "ab") initialState in
  let twice := apply "t" (EvAppendStreamToken "s1" "ab") once in
  let repeated :=
    setPhase3Steps [sample_step 1 "a"; sample_step 1 "b"] None initialState in
  let added := apply "t" (EvAddPhase3Step (sample_step 2 "c")) repeated in
  let added_twice := apply "t" (EvAddPhase3Step (sample_step 2 "c")) added in
  let renaming := {|
    sp_link_id := Some "L2"; sp_url := None; sp_status := None;
    sp_error := None; sp_current_stage := None; sp_stage_progress := None;
    sp_overall_progress := None; sp_status_message := None;
    sp_started_at := None; sp_completed_at := None; sp_source := None;
    sp_word_count := None; sp_bytes_downloaded := None;
    sp_total_bytes := None |} in
  let renamed :=
    apply "t" (EvUpdateScrapingItemProgress (Some "L1") "https://a" renaming)
      initialState in
  let renamed_twice :=
    apply "t" (EvUpdateScrapingItemProgress (Some "L1") "https://a" renaming)
      renamed in
  (stream_raw once "s1" = "ab"
   ∧ stream_raw twice "s1" = "abab"
   ∧ twice ≠ once)
  ∧ (phase3Steps added
     = [sample_step 1 "a"; sample_step 1 "b"; sample_step 2 "c"]
     ∧ phase3Steps added_twice = [sample_step 1 "b"; sample_step 2 "c"])
  ∧ (length (ss_items (scrapingStatus renamed)) = 1
     ∧ length (ss_items (scrapingStatus renamed_twice)) = 2).
Proof.
  cbv zeta. split_and!; try reflexivity.
  intros Heq. apply (f_equal (λ st, stream_raw st "s1")) in Heq.
  vm_compute in Heq. discriminate.
Qed.

(** *** Applying an event twice *)

Lemma option_union_absorb {A} (a b : option A) : a ∪ (a ∪ b) = a ∪ b.
Proof. by destruct a, b. Qed.

Lemma option_union_same {A} (a : option A) : a ∪ a = a.
Proof. by destruct a. Qed.

Lemma default_absorb {A} (d : A) (a : option A) :
  default (default d a) a = default d a.
Proof. by destruct a. Qed.

Lemma goal_entry_merge_twice g goal :
  goal_entry_merge (goal_entry_merge g goal) goal = goal_entry_merge g goal.
Proof.
  unfold goal_entry_merge. simpl.
  f_equal; first [apply option_union_absorb | apply default_absorb].
Qed.

Lemma goals_update_twice goal (goals : option (list GoalEntry)) :
  let update (goals : option (list GoalEntry)) :=
    let existingGoals := default [] goals in
    if bool_decide (existingGoals ≠ [])
    then Some ((λ g, if decide (ge_id g = gu_id goal)
                     then goal_entry_merge g goal else g) <$> existingGoals)
    else None in
  update (update goals) = update goals.
Proof.
  simpl. destruct goals as [gs|]; simpl; [|done].
  destruct (decide (gs = [])) as [->|Hne]; [done|].
  rewrite (bool_decide_eq_true_2 _ Hne). simpl.
  rewrite bool_decide_eq_true_2 by (by intros ?%fmap_nil_inv).
  f_equal. rewrite <- list_fmap_compose. apply list_fmap_ext.
  intros _ x _. simpl.
  destruct (decide (ge_id x = gu_id goal)); simpl.
  - rewrite decide_True by done. apply goal_entry_merge_twice.
  - by rewrite decide_False.
Qed.

Lemma updateLiveGoal_twice now now' goal state :
  updateLiveGoal now' goal (updateLiveGoal now goal state)
  = updateLiveGoal now' goal state.
Proof.
  unfold updateLiveGoal, set_researchAgentStatus, ras_with_goals. simpl.
  rewrite lookup_insert_eq. simpl.
  set (cur := researchAgentStatus state).
  f_equal. f_equal.
  - rewrite insert_insert_eq. f_equal.
    destruct (ras_liveGoals cur !! gu_id goal) as [previous|]; simpl;
      f_equal; first [apply option_union_absorb | by destruct (gu_status goal)].
  - destruct (decide (gu_id goal ∈ ras_goalOrder cur)) as [Hin|Hin].
    + by rewrite !(bool_decide_eq_true_2 _ Hin).
    + rewrite !(bool_decide_eq_false_2 _ Hin).
      rewrite bool_decide_eq_true_2; [done|].
      apply elem_of_app. right. by left.
  - apply (goals_update_twice goal (ras_goals cur)).
Qed.

Lemma updateScrapingStatus_twice status state :
  updateScrapingStatus status (updateScrapingStatus status state)
  = updateScrapingStatus status state.
Proof.
  unfold updateScrapingStatus, set_scrapingStatus. simpl.
  f_equal. f_equal; try apply default_absorb.
  destruct (up_expectedTotal status) as [| |n]; simpl; [done | |].
  - by repeat case_match.
  - destruct (n =? 0)%Z; simpl; [|done]. by repeat case_match.
Qed.

Lemma fmap_twice {A} (f : A → A) (l : list A) :
  (∀ x, f (f x) = f x) → f <$> (f <$> l) = f <$> l.
Proof.
  intros Hf. rewrite <- list_fmap_compose. apply list_fmap_ext.
  intros _ x _. apply Hf.
Qed.

Lemma updateScrapingItem_twice url status error state :
  updateScrapingItem url status error
    (updateScrapingItem url status error state)
  = updateScrapingItem url status error state.
Proof.
  unfold updateScrapingItem, set_scrapingStatus, with_items. simpl.
  rewrite fmap_twice; [done|].
  intros item. destruct (decide (si_url item = url)) as [Hurl|Hurl].
  - simpl. by rewrite decide_True.
  - by rewrite decide_False.
Qed.

Lemma item_merge_twice item progress :
  item_merge (item_merge item progress) progress = item_merge item progress.
Proof.
  unfold item_merge. simpl.
  f_equal; first [apply option_union_absorb | apply default_absorb].
Qed.

Lemma item_merge_new link_id url progress :
  item_merge (item_new link_id url progress) progress
  = item_new link_id url progress.
Proof.
  unfold item_merge, item_new. simpl.
  f_equal; first [apply option_union_absorb | apply default_absorb
                 | apply option_union_same].
Qed.

Lemma item_matches_merge link_id url progress item :
  keeps_key link_id url progress →
  item_matches link_id url item = true →
  item_matches link_id url (item_merge item progress) = true.
Proof.
  unfold keeps_key, item_matches.
  destruct (truthy link_id) eqn:Hl; intros [Hp|Hp] Hm;
    apply bool_decide_eq_true in Hm; apply bool_decide_eq_true; simpl;
    rewrite Hp, ?Hm.
  - apply (left_id_L None _).
  - apply option_union_same.
  - done.
  - done.
Qed.

Lemma item_matches_new link_id url progress :
  keeps_key link_id url progress →
  item_matches link_id url (item_new link_id url progress) = true.
Proof.
  unfold keeps_key, item_matches.
  destruct (truthy link_id) eqn:Hl; intros [Hp|Hp];
    apply bool_decide_eq_true; simpl; rewrite Hp.
  - apply (left_id_L None _).
  - apply option_union_same.
  - done.
  - done.
Qed.

Lemma updateScrapingItemProgress_twice link_id url progress state :
  keeps_key link_id url progress →
  updateScrapingItemProgress link_id url progress
    (updateScrapingItemProgress link_id url progress state)
  = updateScrapingItemProgress link_id url progress state.
Proof.
  intros Hkey.
  set (update := λ item, if item_matches link_id url item
                         then item_merge item progress else item).
  assert (∀ item, update (update item) = update item) as Htwice.
  { intros item. unfold update.
    destruct (item_matches link_id url item) eqn:Hm.
    - rewrite item_matches_merge by done. apply item_merge_twice.
    - by rewrite Hm. }
  assert (update (item_new link_id url progress)
          = item_new link_id url progress) as Hnew.
  { unfold update. rewrite item_matches_new by done. apply item_merge_new. }
  unfold updateScrapingItemProgress, set_scrapingStatus, with_items. simpl.
  fold update. set (items := ss_items (scrapingStatus state)).
  destruct (existsb (item_matches link_id url) (update <$> items)) eqn:Hex.
  - rewrite (fmap_twice update) by done. by rewrite Hex.
  - rewrite fmap_app, (fmap_twice update) by done. simpl. rewrite Hnew.
    rewrite existsb_app. simpl.
    rewrite item_matches_new by done. by rewrite orb_true_r.
Qed.

Lemma addPhase3Step_twice step state :
  distinct_ids (phase3Steps state) →
  addPhase3Step step (addPhase3Step step state) = addPhase3Step step state.
Proof.
  intros Hnd.
  assert (phase3Steps (addPhase3Step step (addPhase3Step step state))
          = phase3Steps (addPhase3Step step state)) as Hsteps.
  { rewrite (addPhase3Step_steps step (addPhase3Step step state))
      by by apply addPhase3Step_distinct.
    rewrite (addPhase3Step_steps step state) by done.
    apply sort_by_Permutation_eq.
    - rewrite fmap_app. simpl. apply NoDup_app. split_and!.
      + apply distinct_ids_filter, sort_by_NoDup.
        rewrite fmap_app. simpl. apply NoDup_app. split_and!.
        * by apply distinct_ids_filter.
        * intros k Hk ->%list_elem_of_singleton.
          by apply filter_ne_ids in Hk.
        * apply NoDup_singleton.
      + intros k Hk ->%list_elem_of_singleton. by apply filter_ne_ids in Hk.
      + apply NoDup_singleton.
    - rewrite sort_by_Permutation, filter_app, list_filter_filter.
      rewrite filter_cons, decide_False by (by intros ?).
      rewrite filter_nil, app_nil_r.
      f_equiv. apply Permutation_refl'.
      apply list_filter_iff. intros x. tauto. }
  unfold addPhase3Step in *. simpl in *. by rewrite Hsteps.
Qed.

Lemma string_append_assoc (s t u : string) :
  (s +:+ t) +:+ u = s +:+ t +:+ u.
Proof.
  induction s as [|c s IH]; [done|].
  change (String c ((s +:+ t) +:+ u) = String c (s +:+ t +:+ u)).
  by rewrite IH.
Qed.

Lemma appendStreamToken_appends now streamId token state :
  stream_raw (appendStreamToken now streamId token state) streamId
  = stream_raw state streamId +:+ token
  ∧ stream_tokenCount (appendStreamToken now streamId token state) streamId
    = (stream_tokenCount state streamId + 1)%Z.
Proof.
  unfold stream_raw, stream_tokenCount, appendStreamToken. simpl.
  rewrite lookup_insert_eq. simpl.
  by destruct (buffers (ras_streams (researchAgentStatus state)) !! streamId).
Qed.

Lemma map_set_keys_elem {V} k (v : V) m x :
  x ∈ (map_set k v m).*1 ↔ x = k ∨ x ∈ m.*1.
Proof.
  induction m as [|[k' v'] m IH]; simpl.
  { rewrite list_elem_of_singleton, elem_of_nil. tauto. }
  destruct (decide (k = k')) as [->|Hne]; simpl.
  - rewrite !elem_of_cons. tauto.
  - rewrite !elem_of_cons, IH. tauto.
Qed.

Lemma map_set_keys_NoDup {V} k (v : V) m :
  NoDup m.*1 → NoDup (map_set k v m).*1.
Proof.
  induction m as [|[k' v'] m IH]; simpl; intros Hnd.
  { apply NoDup_singleton. }
  apply NoDup_cons in Hnd as [Hk' Hnd].
  destruct (decide (k = k')) as [->|Hne]; simpl.
  - by apply NoDup_cons.
  - apply NoDup_cons. split; [|by apply IH].
    rewrite map_set_keys_elem. intros [?|?]; done.
Qed.

Lemma map_set_elem {V} k (v : V) m : (k, v) ∈ map_set k v m.
Proof.
  induction m as [|[k' v'] m IH]; simpl; [left|].
  destruct (decide (k = k')); [left|by right].
Qed.

Lemma map_set_keyed k (s : SessionStep) m :
  k = step_id s →
  Forall (λ kv, kv.1 = step_id kv.2) m →
  Forall (λ kv, kv.1 = step_id kv.2) (map_set k s m).
Proof.
  intros Hk. induction 1 as [|[k' v'] m Hkv Hm IH]; simpl.
  { by apply Forall_singleton. }
  destruct (decide (k = k')); apply Forall_cons; auto.
Qed.

(** The [Map] that [addPhase3Step] fills holds each step id once, whatever
    the list it is filled from. *)
Lemma steps_map_keyed k steps m0 :
  NoDup m0.*1 → Forall (λ kv, kv.1 = step_id kv.2) m0 →
  NoDup (foldl (λ m s, if bool_decide (step_id s ≠ k)
                       then map_set (step_id s) s m else m) m0 steps).*1
  ∧ Forall (λ kv, kv.1 = step_id kv.2)
      (foldl (λ m s, if bool_decide (step_id s ≠ k)
                     then map_set (step_id s) s m else m) m0 steps).
Proof.
  revert m0. induction steps as [|s steps IH]; intros m0 Hnd Hkeyed; simpl.
  { done. }
  case_bool_decide; [|by apply IH].
  apply IH; [by apply map_set_keys_NoDup|by apply map_set_keyed].
Qed.

Lemma keyed_values (m : list (Z * SessionStep)) :
  Forall (λ kv, kv.1 = step_id kv.2) m → step_id <$> map_values m = m.*1.
Proof.
  unfold map_values. induction 1 as [|[k v] m Hkv Hm IH]; simpl; [done|].
  simpl in Hkv. f_equal; [by symmetry|exact IH].
Qed.

(** A step that replaces a stored one leaves a collection without
    repeated ids that holds it, repeated ids before or not. *)
Lemma addPhase3Step_present step state :
  step_id step ∈ step_id <$> phase3Steps state →
  distinct_ids (phase3Steps (addPhase3Step step state))
  ∧ step ∈ phase3Steps (addPhase3Step step state).
Proof.
  intros Hin. unfold addPhase3Step. simpl.
  rewrite bool_decide_eq_true_2 by done.
  destruct (steps_map_keyed (step_id step) (phase3Steps state) [])
    as [Hnd Hkeyed]; [apply NoDup_nil_2|apply Forall_nil_2|].
  set (m := foldl _ [] (phase3Steps state)) in *.
  split.
  - unfold distinct_ids. apply sort_by_NoDup.
    rewrite keyed_values by (by apply map_set_keyed).
    by apply map_set_keys_NoDup.
  - apply sort_by_elem_of. unfold map_values.
    apply (list_elem_of_fmap_2 snd _ (step_id step, step)).
    apply map_set_elem.
Qed.

Lemma addPhase3Step_sorted step state :
  StronglySorted (key_le step_id) (phase3Steps (addPhase3Step step state)).
Proof. unfold addPhase3Step. simpl. apply sort_by_sorted. Qed.

Lemma filter_ne_Permutation (x : SessionStep) (l : list SessionStep) :
  distinct_ids l → x ∈ l →
  filter (λ s, step_id s ≠ step_id x) l ++ [x] ≡ₚ l.
Proof.
  unfold distinct_ids. induction l as [|y l IH]; simpl; intros Hnd Hx.
  { by apply elem_of_nil in Hx. }
  apply NoDup_cons in Hnd as [Hy Hnd]. rewrite filter_cons.
  apply elem_of_cons in Hx as [->|Hx].
  - rewrite decide_False by (by intros ?).
    rewrite filter_ne_absent by done.
    by rewrite Permutation_app_comm.
  - rewrite decide_True.
    + simpl. by rewrite IH.
    + intros Heq. apply Hy. rewrite Heq. by apply list_elem_of_fmap_2.
Qed.

(** A step added a second time changes nothing, unless the first addition
    was appended to a collection with repeated step ids. *)
Lemma addPhase3Step_twice_or_present step state :
  distinct_ids (phase3Steps state)
  ∨ step_id step ∈ step_id <$> phase3Steps state →
  addPhase3Step step (addPhase3Step step state) = addPhase3Step step state.
Proof.
  intros [Hnd|Hin]; [by apply addPhase3Step_twice|].
  destruct (addPhase3Step_present step state Hin) as [Hnd Hstep].
  assert (phase3Steps (addPhase3Step step (addPhase3Step step state))
          = phase3Steps (addPhase3Step step state)) as Hsteps.
  { rewrite (addPhase3Step_steps step (addPhase3Step step state)) by done.
    apply (sorted_by_unique step_id).
    - apply sort_by_NoDup. rewrite fmap_app. simpl.
      apply NoDup_app. split_and!.
      + by apply distinct_ids_filter.
      + intros k Hk ->%list_elem_of_singleton. by apply filter_ne_ids in Hk.
      + apply NoDup_singleton.
    - rewrite sort_by_Permutation. by apply filter_ne_Permutation.
    - apply sort_by_sorted.
    - apply addPhase3Step_sorted. }
  unfold addPhase3Step in *. simpl in *. by rewrite Hsteps.
Qed.

Lemma filter_twice {A : Type} (P : A → Prop) `{∀ x, Decision (P x)}
    (l : list A) :
  filter P (filter P l) = filter P l.
Proof.
  induction l as [|x l IH]; [done|].
  rewrite filter_cons. destruct (decide (P x)) as [Hx|Hx]; [|done].
  by rewrite filter_cons, decide_True, IH.
Qed.

Lemma startStream_twice now now' streamId phase metadata startedAt state :
  startStream now' streamId phase metadata startedAt
    (startStream now streamId phase metadata startedAt state)
  = startStream now' streamId phase metadata startedAt state.
Proof.
  unfold startStream, set_researchAgentStatus, ras_with_streams. simpl.
  rewrite insert_insert_eq.
  rewrite filter_cons, decide_False by (intros Hne; by apply Hne).
  by rewrite filter_twice.
Qed.

Lemma completeStream_twice now now' streamId metadata state :
  completeStream now' streamId metadata
    (completeStream now streamId metadata state)
  = completeStream now' streamId metadata state.
Proof.
  unfold completeStream at 2 3.
  destruct (buffers (ras_streams (researchAgentStatus state)) !! streamId)
    as [buffer|] eqn:Hbuffer.
  - unfold completeStream, set_researchAgentStatus, ras_with_streams. simpl.
    rewrite lookup_insert_eq, insert_insert_eq. simpl.
    destruct (bool_decide
                (activeStreamId (ras_streams (researchAgentStatus state))
                 = Some streamId)); simpl;
      by rewrite !option_union_absorb.
  - unfold completeStream. by rewrite Hbuffer.
Qed.

Lemma setStreamError_twice now now' streamId error state :
  setStreamError now' streamId error
    (setStreamError now streamId error state)
  = setStreamError now' streamId error state.
Proof.
  unfold setStreamError at 2 3.
  destruct (buffers (ras_streams (researchAgentStatus state)) !! streamId)
    as [buffer|] eqn:Hbuffer.
  - unfold setStreamError, set_researchAgentStatus, ras_with_streams. simpl.
    rewrite lookup_insert_eq, insert_insert_eq. simpl.
    by destruct (bool_decide
                   (activeStreamId (ras_streams (researchAgentStatus state))
                    = Some streamId)).
  - unfold setStreamError. by rewrite Hbuffer.
Qed.

Lemma plan_entry_merge_twice p step :
  plan_entry_merge (plan_entry_merge p step) step = plan_entry_merge p step.
Proof.
  unfold plan_entry_merge. simpl.
  f_equal; first [apply option_union_absorb | apply default_absorb].
Qed.

Lemma plan_update_twice step (plan : option (list PlanStep)) :
  let update (plan : option (list PlanStep)) :=
    let existingPlan := default [] plan in
    if bool_decide (existingPlan ≠ [])
    then Some ((λ p, if decide (ps_step_id p = pu_step_id step)
                     then plan_entry_merge p step else p) <$> existingPlan)
    else None in
  update (update plan) = update plan.
Proof.
  simpl. destruct plan as [ps|]; simpl; [|done].
  destruct (decide (ps = [])) as [->|Hne]; [done|].
  rewrite (bool_decide_eq_true_2 _ Hne). simpl.
  rewrite bool_decide_eq_true_2 by (by intros ?%fmap_nil_inv).
  f_equal. rewrite <- list_fmap_compose. apply list_fmap_ext.
  intros _ x _. simpl.
  destruct (decide (ps_step_id x = pu_step_id step)); simpl.
  - rewrite decide_True by done. apply plan_entry_merge_twice.
  - by rewrite decide_False.
Qed.

Lemma updateLivePlanStep_twice now now' step state :
  updateLivePlanStep now' step (updateLivePlanStep now step state)
  = updateLivePlanStep now' step state.
Proof.
  unfold updateLivePlanStep, set_researchAgentStatus, ras_with_plan. simpl.
  rewrite lookup_insert_eq. simpl.
  set (cur := researchAgentStatus state).
  f_equal. f_equal.
  - rewrite insert_insert_eq. f_equal.
    destruct (ras_livePlanSteps cur !! pu_step_id step) as [previous|]; simpl;
      f_equal; first [apply option_union_absorb | by destruct (pu_status step)].
  - destruct (decide (pu_step_id step ∈ ras_planOrder cur)) as [Hin|Hin].
    + by rewrite !(bool_decide_eq_true_2 _ Hin).
    + rewrite !(bool_decide_eq_false_2 _ Hin).
      rewrite bool_decide_eq_true_2; [done|].
      apply elem_of_app. right. by left.
  - apply (plan_update_twice step (ras_plan cur)).
Qed.

Lemma updateLiveInsight_twice now now' insight state :
  updateLiveInsight now' insight (updateLiveInsight now insight state)
  = updateLiveInsight now' insight state.
Proof.
  unfold updateLiveInsight, set_researchAgentStatus, ras_with_liveInsights.
  simpl. rewrite lookup_insert_eq, insert_insert_eq. simpl.
  rewrite !option_union_absorb.
  by destruct (iu_status insight).
Qed.

Lemma updateLiveAction_twice now now' action state :
  updateLiveAction now' action (updateLiveAction now action state)
  = updateLiveAction now' action state.
Proof.
  unfold updateLiveAction, set_researchAgentStatus, ras_with_liveActions.
  simpl. rewrite lookup_insert_eq, insert_insert_eq. simpl.
  rewrite !option_union_absorb.
  by destruct (au_status action).
Qed.

Lemma updateLiveReportSection_twice now now' section state :
  updateLiveReportSection now' section
    (updateLiveReportSection now section state)
  = updateLiveReportSection now' section state.
Proof.
  unfold updateLiveReportSection, set_researchAgentStatus,
    ras_with_liveReportSections.
  simpl. rewrite lookup_insert_eq, insert_insert_eq. simpl.
  rewrite !option_union_absorb.
  by destruct (ru_status section).
Qed.

(** C1 (amended): for every event other than a stream token - the start,
    the completion and the failure of a stream, a goal update, a plan-step
    update, a phase-3 step added to a collection without repeated step
    ids, a phase-3 step list, a scraping-item progress event that does not
    rename its own key, a scraping-status update, a scraping-item update,
    a cancellation record, an update of an insight, an action or a report
    section - and every starting snapshot, applying the event a second
    time (whatever the clock reads then) yields the snapshot that applying
    it once at that time yields; a stream token is appended at each
    application.  Stream ids are plain keys. *)
Theorem C1_second_application_changes_nothing (now now' : string)
    (e : Event) (state : WorkflowState) :
  (repeatable e state → apply now' e (apply now e state) = apply now' e state)
  ∧ (∀ streamId token, e = EvAppendStreamToken streamId token →
       plain_key streamId →
       stream_raw (apply now' e (apply now e state)) streamId
       = stream_raw state streamId +:+ token +:+ token
       ∧ stream_tokenCount (apply now' e (apply now e state)) streamId
         = (stream_tokenCount state streamId + 2)%Z).
Proof.
  split.
  - destruct e; simpl; intros Hrep.
    + apply startStream_twice.
    + done.
    + apply completeStream_twice.
    + apply setStreamError_twice.
    + apply updateLiveGoal_twice.
    + apply updateLivePlanStep_twice.
    + by apply addPhase3Step_twice_or_present.
    + done.
    + by apply updateScrapingItemProgress_twice.
    + apply updateScrapingStatus_twice.
    + apply updateScrapingItem_twice.
    + done.
    + apply updateLiveInsight_twice.
    + apply updateLiveAction_twice.
    + apply updateLiveReportSection_twice.
  - intros streamId token -> _. simpl.
    destruct (appendStreamToken_appends now' streamId token
                (appendStreamToken now streamId token state)) as [-> ->].
    destruct (appendStreamToken_appends now streamId token state) as [-> ->].
    split; [|lia].
    apply string_append_assoc.
Qed.

Lemma C1_second_application_witness :
  apply "t2" (EvCompleteStream "s1" None)
    (apply "t1" (EvCompleteStream "s1" None)
       (apply "t0" (EvAppendStreamToken "s1" "ab") initialState))
  = apply "t2" (EvCompleteStream "s1" None)
      (apply "t0" (EvAppendStreamToken "s1" "ab") initialState).
Proof.
  apply (proj1 (C1_second_application_changes_nothing "t1" "t2"
                  (EvCompleteStream "s1" None)
                  (apply "t0" (EvAppendStreamToken "s1" "ab")
                     initialState))).
  apply (bool_decide_unpack _). by vm_compute.
Defined.

(** A goal update that arrives twice, at different instants; a step that
    arrives twice. *)
Example goal_update_twice :
  apply "t2" (EvUpdateLiveGoal (goal_text_only 1 "X"))
    (apply "t1" (EvUpdateLiveGoal (goal_text_only 1 "X")) state_goal_1_ready)
  = apply "t2" (EvUpdateLiveGoal (goal_text_only 1 "X")) state_goal_1_ready
  ∧ apply "t2" (EvAddPhase3Step (sample_step 2 "b"))
      (apply "t1" (EvAddPhase3Step (sample_step 2 "b"))
         (apply "t0" (EvAddPhase3Step (sample_step 3 "c")) initialState))
    = apply "t2" (EvAddPhase3Step (sample_step 2 "b"))
        (apply "t0" (EvAddPhase3Step (sample_step 3 "c")) initialState).
Proof.
  split; [apply updateLiveGoal_twice|].
  apply addPhase3Step_twice. simpl. unfold distinct_ids. simpl.
  apply NoDup_singleton.
Qed.

(** *** Applying events in another order *)
























(** * Further properties of the store and of the pages *)

(** ** The stream collection *)

Lemma set_add_elem_of x y s : y ∈ set_add x s ↔ y = x ∨ y ∈ s.
Proof.
  unfold set_add. case_bool_decide as Hx.
  - split; [by right|]. intros [->|?]; done.
  - rewrite elem_of_app, list_elem_of_singleton. tauto.
Qed.

Lemma set_add_NoDup x s : NoDup s → NoDup (set_add x s).
Proof.
  intros Hs. unfold set_add. case_bool_decide as Hx; [done|].
  apply NoDup_app. split_and!; [done| |apply NoDup_singleton].
  intros y Hy ->%list_elem_of_singleton. done.
Qed.

Lemma set_add_twice x s : set_add x (set_add x s) = set_add x s.
Proof.
  generalize (set_add x s) (proj2 (set_add_elem_of x x s) (or_introl eq_refl)).
  intros s' Hin. unfold set_add. by rewrite bool_decide_eq_true_2.
Qed.

Lemma set_of_array_spec l :
  NoDup (set_of_array l) ∧ ∀ y, y ∈ set_of_array l ↔ y ∈ l.
Proof.
  unfold set_of_array.
  induction l as [|x l [IHnd IHin]] using rev_ind.
  - split; [apply NoDup_nil_2|done].
  - rewrite foldl_app. simpl. split.
    + by apply set_add_NoDup.
    + intros y. rewrite set_add_elem_of, IHin, elem_of_app,
        list_elem_of_singleton. tauto.
Qed.

Lemma set_of_array_fixed l : NoDup l → set_of_array l = l.
Proof.
  unfold set_of_array.
  induction l as [|x l IH] using rev_ind; intros Hnd; [done|].
  apply NoDup_app in Hnd as (Hl & Hx & _).
  rewrite foldl_app. simpl. rewrite IH by done.
  unfold set_add. rewrite bool_decide_eq_false_2; [done|].
  intros Hin. apply (Hx x Hin). left.
Qed.







(** With the empty string as a stream id the mirror breaks: selecting it
    looks up no buffer. *)
Example empty_stream_id_breaks_mirror :
  let state := runStreamEvents
    [("t1", StartStream "" None None None);
     ("t2", AppendStreamToken "" "ab");
     ("t3", SetActiveStream None);
     ("t4", SetActiveStream (Some ""))] initialState in
  ras_streamBuffer (researchAgentStatus state) = ""
  ∧ foreground_raw state = "ab".
Proof. vm_compute. split; reflexivity. Qed.

Lemma string_append_nil_r (s : string) : s +:+ "" = s.
Proof.
  induction s as [|c s IH]; [done|].
  change (String c (s +:+ "") = String c s). by rewrite IH.
Qed.

(** What one text-keeping event does to the text and token count of a
    stream: a token for that stream is appended and counted, anything else
    leaves them. *)
Lemma applyStreamEvent_text now e state streamId :
  keeps_text e →
  stream_raw (applyStreamEvent now e state) streamId
  = stream_raw state streamId
      +:+ concat_tokens (tokens_for streamId [(now, e)])
  ∧ stream_tokenCount (applyStreamEvent now e state) streamId
    = (stream_tokenCount state streamId
       + Z.of_nat (length (tokens_for streamId [(now, e)])))%Z.
Proof.
  intros He. unfold tokens_for, concat_tokens.
  destruct e as [id ph md sa|id tok|id md|id err|sid|id|id|sid];
    try done; simpl.
  - destruct (decide (id = streamId)) as [->|Hne]; simpl.
    + rewrite string_append_nil_r. apply appendStreamToken_appends.
    + unfold stream_raw, stream_tokenCount, appendStreamToken. simpl.
      rewrite lookup_insert_ne by done.
      by rewrite string_append_nil_r, Z.add_0_r.
  - rewrite string_append_nil_r, Z.add_0_r.
    unfold stream_raw, stream_tokenCount, completeStream.
    destruct (buffers (ras_streams (researchAgentStatus state)) !! id)
      as [buffer|] eqn:Hlook; simpl; [|done].
    destruct (decide (id = streamId)) as [->|Hne].
    + by rewrite lookup_insert_eq, Hlook.
    + by rewrite lookup_insert_ne.
  - rewrite string_append_nil_r, Z.add_0_r.
    unfold stream_raw, stream_tokenCount, setStreamError.
    destruct (buffers (ras_streams (researchAgentStatus state)) !! id)
      as [buffer|] eqn:Hlook; simpl; [|done].
    destruct (decide (id = streamId)) as [->|Hne].
    + by rewrite lookup_insert_eq, Hlook.
    + by rewrite lookup_insert_ne.
  - rewrite string_append_nil_r, Z.add_0_r.
    unfold stream_raw, stream_tokenCount, setActiveStream.
    by case_decide.
  - by rewrite string_append_nil_r, Z.add_0_r.
  - by rewrite string_append_nil_r, Z.add_0_r.
Qed.

Lemma tokens_for_cons streamId te events :
  tokens_for streamId (te :: events)
  = tokens_for streamId [te] ++ tokens_for streamId events.
Proof. unfold tokens_for. simpl. by repeat case_match. Qed.

Lemma tokens_for_single streamId te :
  tokens_for streamId [te] = [] ∨ ∃ tok, tokens_for streamId [te] = [tok].
Proof. unfold tokens_for. simpl. repeat case_match; eauto. Qed.

(** X3: over any run of events that neither restart a stream nor clear
    text - tokens of any streams interleaved with completions, errors,
    foreground switches and pins - the text of each stream grows by exactly
    the tokens addressed to it, in their order of arrival, and its token
    count by their number.  The stream ids are plain keys: none is a
    member name of [Object.prototype]. *)
Theorem X3_stream_text_is_its_tokens (events : list (string * StreamEvent))
    (streamId : string) (state : WorkflowState) :
  plain_key streamId →
  Forall (λ te, plain_stream_event te.2) events →
  Forall (λ te, keeps_text te.2) events →
  stream_raw (runStreamEvents events state) streamId
  = stream_raw state streamId +:+ concat_tokens (tokens_for streamId events)
  ∧ stream_tokenCount (runStreamEvents events state) streamId
    = (stream_tokenCount state streamId
       + Z.of_nat (length (tokens_for streamId events)))%Z.
Proof.
  intros _ Hplain. revert state.
  induction events as [|[now e] events IH]; intros state Hev.
  - simpl. rewrite string_append_nil_r. split; [done|lia].
  - apply Forall_cons in Hev as [He Hev]. simpl in He.
    apply Forall_cons in Hplain as [_ Hplain].
    change (runStreamEvents ((now, e) :: events) state)
      with (runStreamEvents events (applyStreamEvent now e state)).
    destruct (IH Hplain (applyStreamEvent now e state) Hev) as [-> ->].
    destruct (applyStreamEvent_text now e state streamId He) as [-> ->].
    rewrite (tokens_for_cons streamId (now, e) events).
    split.
    + rewrite string_append_assoc. f_equal.
      unfold concat_tokens. rewrite foldr_app.
      generalize (foldr String.append "" (tokens_for streamId events)).
      intros rest.
      destruct (tokens_for_single streamId (now, e)) as [->|[tok ->]];
        simpl; [done|].
      by rewrite string_append_nil_r.
    + rewrite length_app. lia.
Qed.

Lemma X3_stream_text_witness :
  stream_raw (runStreamEvents
    [("t1", AppendStreamToken "s1" "ab");
     ("t2", AppendStreamToken "s2" "xy");
     ("t3", CompleteStream "s2" None);
     ("t4", AppendStreamToken "s1" "cd")] initialState) "s1" = "abcd".
Proof.
  refine (eq_trans (proj1 (X3_stream_text_is_its_tokens
    [("t1", AppendStreamToken "s1" "ab");
     ("t2", AppendStreamToken "s2" "xy");
     ("t3", CompleteStream "s2" None);
     ("t4", AppendStreamToken "s1" "cd")] "s1" initialState _ _ _)) _).
  - apply (bool_decide_unpack _). by vm_compute.
  - repeat (apply Forall_cons_2;
            [apply (bool_decide_unpack _); by vm_compute|]).
    apply Forall_nil_2.
  - repeat (apply Forall_cons_2; [exact I|]). apply Forall_nil_2.
  - reflexivity.
Defined.

(** X4: for stream ids that are plain keys (no member name of
    [Object.prototype]), a buffer comes into being only through
    [startStream] and [appendStreamToken] (for the id they name) and
    buffers go away only through [clearStreamBuffer] without an id;
    [completeStream] and [setStreamError] for a stream that has no buffer
    change nothing at all. *)
Theorem X4_buffers_created_and_dropped (now : string) (e : StreamEvent)
    (state : WorkflowState) :
  (plain_stream_event e →
   dom (buffers (streams_of (applyStreamEvent now e state)))
   = match e with
     | StartStream id _ _ _ | AppendStreamToken id _ =>
         {[id]} ∪ dom (buffers (streams_of state))
     | ClearStreamBuffer streamId =>
         if truthy streamId then dom (buffers (streams_of state)) else ∅
     | _ => dom (buffers (streams_of state))
     end)
  ∧ (∀ id, plain_key id → stream_buffer state id = None →
       (∀ metadata, completeStream now id metadata state = state)
       ∧ (∀ error, setStreamError now id error state = state)).
Proof.
  unfold streams_of, stream_buffer. split.
  - intros _. destruct e as [id ph md sa|id tok|id md|id err|sid|id|id|sid]; simpl.
    + apply dom_insert_L.
    + apply dom_insert_L.
    + unfold completeStream.
      destruct (buffers (ras_streams (researchAgentStatus state)) !! id)
        as [buffer|] eqn:Hlook; simpl; [|done].
      apply dom_insert_lookup_L. by eexists.
    + unfold setStreamError.
      destruct (buffers (ras_streams (researchAgentStatus state)) !! id)
        as [buffer|] eqn:Hlook; simpl; [|done].
      apply dom_insert_lookup_L. by eexists.
    + unfold setActiveStream. by case_decide.
    + done.
    + done.
    + unfold clearStreamBuffer. destruct (truthy sid); simpl; [|apply dom_empty_L].
      destruct (buffers (ras_streams (researchAgentStatus state))
                  !! default "" sid) as [buffer|] eqn:Hlook; [|done].
      apply dom_insert_lookup_L. by eexists.
  - intros id _ Hnone.
    unfold completeStream, setStreamError, streams_of in *.
    by rewrite Hnone.
Qed.

Lemma X4_buffers_witness :
  completeStream "t" "unknown" None initialState = initialState.
Proof.
  apply (proj2 (X4_buffers_created_and_dropped "t" (PinStream "x")
                  initialState) "unknown").
  - apply (bool_decide_unpack _). by vm_compute.
  - reflexivity.
Defined.

(** X5: a token that arrives after its stream was completed or failed puts
    the buffer back to active and streaming and is appended to the text,
    while the end time of the stream, and the error text of a failed one,
    stay in the buffer. *)
Theorem X5_late_token_reopens_stream (now now' streamId token : string)
    (buffer : StreamBufferState) (state : WorkflowState) :
  stream_buffer state streamId = Some buffer →
  (∀ metadata,
     ∃ reopened,
       stream_buffer
         (appendStreamToken now' streamId token
            (completeStream now streamId metadata state)) streamId
       = Some reopened
       ∧ sb_status reopened = Active
       ∧ sb_isStreaming reopened = true
       ∧ sb_raw reopened = sb_raw buffer +:+ token
       ∧ sb_endedAt reopened = Some (default now (metadata ≫= sc_endedAt)))
  ∧ (∀ error,
       ∃ reopened,
         stream_buffer
           (appendStreamToken now' streamId token
              (setStreamError now streamId error state)) streamId
         = Some reopened
         ∧ sb_status reopened = Active
         ∧ sb_isStreaming reopened = true
         ∧ sb_raw reopened = sb_raw buffer +:+ token
         ∧ sb_endedAt reopened = Some now
         ∧ sb_error reopened = Some error).
Proof.
  unfold stream_buffer, streams_of. intros Hlook. split.
  - intros metadata. eexists. split.
    + unfold appendStreamToken. simpl. apply lookup_insert_eq.
    + unfold completeStream. rewrite Hlook. simpl.
      rewrite lookup_insert_eq. simpl. done.
  - intros error. eexists. split.
    + unfold appendStreamToken. simpl. apply lookup_insert_eq.
    + unfold setStreamError. rewrite Hlook. simpl.
      rewrite lookup_insert_eq. simpl. done.
Qed.

Lemma X5_late_token_witness :
  sb_status <$>
    stream_buffer
      (appendStreamToken "t3" "s1" "late"
         (completeStream "t2" "s1" None
            (startStream "t1" "s1" None None None initialState))) "s1"
  = Some Active.
Proof.
  destruct (X5_late_token_reopens_stream "t2" "t3" "s1" "late"
              {| sb_isStreaming := true; sb_phase := None;
                 sb_metadata := None; sb_startedAt := Some "t1";
                 sb_lastTokenAt := None; sb_endedAt := None; sb_id := "s1";
                 sb_raw := ""; sb_status := Active; sb_tokenCount := 0;
                 sb_error := None; sb_pinned := None |}
              (startStream "t1" "s1" None None None initialState))
    as [Hcomplete _].
  - reflexivity.
  - destruct (Hcomplete None) as (reopened & Hb & Hs & _).
    rewrite Hb. simpl. by rewrite Hs.
Defined.

(** X6: [pinStream] leaves the id pinned exactly once and keeps every other
    pinned id; [unpinStream] removes the id and nothing else; pinning an id
    that was not pinned and unpinning it again restores the pinned list;
    neither looks at or writes the buffers, so an id without a buffer can
    be pinned and the [pinned] flag of a buffer is not set. *)
Theorem X6_pin_and_unpin (streamId : string) (state : WorkflowState) :
  let before := pinned (streams_of state) in
  let after_pin := pinned (streams_of (pinStream streamId state)) in
  let after_unpin := pinned (streams_of (unpinStream streamId state)) in
  NoDup after_pin
  ∧ (∀ id, id ∈ after_pin ↔ id = streamId ∨ id ∈ before)
  ∧ after_unpin = filter (λ id, id ≠ streamId) before
  ∧ (NoDup before → streamId ∉ before →
     pinned (streams_of (unpinStream streamId (pinStream streamId state)))
     = before)
  ∧ pinStream streamId (pinStream streamId state) = pinStream streamId state
  ∧ buffers (streams_of (pinStream streamId state))
    = buffers (streams_of state)
  ∧ buffers (streams_of (unpinStream streamId state))
    = buffers (streams_of state).
Proof.
  unfold streams_of. simpl.
  destruct (set_of_array_spec (pinned (ras_streams (researchAgentStatus state))))
    as [Hnd Hin].
  split_and!; try done.
  - by apply set_add_NoDup.
  - intros id. by rewrite set_add_elem_of, Hin.
  - intros Hbefore Hfresh. rewrite set_of_array_fixed by done.
    unfold set_add. rewrite bool_decide_eq_false_2 by done.
    rewrite filter_app, filter_cons, decide_False by (by intros ?).
    rewrite filter_nil, app_nil_r.
    clear Hnd Hin Hbefore.
    induction (pinned (ras_streams (researchAgentStatus state)))
      as [|x l IH]; [done|].
    apply not_elem_of_cons in Hfresh as [Hne Hfresh].
    rewrite filter_cons, decide_True by done. by rewrite IH.
  - unfold pinStream, set_researchAgentStatus, ras_with_streams. simpl.
    rewrite (set_of_array_fixed (set_add _ _)) by (by apply set_add_NoDup).
    by rewrite set_add_twice.
Qed.

Lemma X6_pin_witness :
  pinned (streams_of (unpinStream "s2"
    (pinStream "s2" (pinStream "s1" initialState))))
  = pinned (streams_of (pinStream "s1" initialState)).
Proof.
  apply (X6_pin_and_unpin "s2" (pinStream "s1" initialState)).
  - apply NoDup_singleton.
  - change ("s2" ∉ ["s1"]). rewrite list_elem_of_singleton. discriminate.
Defined.

(** ** Live goals: the order of display *)

Lemma first_seen_snoc ids i :
  first_seen (ids ++ [i])
  = if bool_decide (i ∈ first_seen ids) then first_seen ids
    else first_seen ids ++ [i].
Proof.
  unfold first_seen. rewrite reverse_app. simpl.
  destruct (decide_rel elem_of i (reverse ids)) as [Hin|Hin].
  - rewrite bool_decide_eq_true_2; [done|].
    by apply elem_of_reverse, elem_of_remove_dups.
  - rewrite bool_decide_eq_false_2.
    + by rewrite reverse_cons.
    + by rewrite elem_of_reverse, elem_of_remove_dups.
Qed.

Lemma first_seen_elem_of ids i : i ∈ first_seen ids ↔ i ∈ ids.
Proof.
  unfold first_seen.
  by rewrite elem_of_reverse, elem_of_remove_dups, elem_of_reverse.
Qed.

Lemma goal_order_updateLiveGoal now goal state :
  goal_order (updateLiveGoal now goal state)
  = if bool_decide (gu_id goal ∈ goal_order state) then goal_order state
    else goal_order state ++ [gu_id goal].
Proof. done. Qed.

Lemma run_goal_updates_snoc updates tu state :
  run_goal_updates (updates ++ [tu]) state
  = updateLiveGoal tu.1 tu.2 (run_goal_updates updates state).
Proof. unfold run_goal_updates. by rewrite foldl_app. Qed.

Lemma run_goal_updates_order_initial updates :
  goal_order (run_goal_updates updates initialState)
  = first_seen (updated_ids updates).
Proof.
  induction updates as [|tu updates IH] using rev_ind; [done|].
  rewrite run_goal_updates_snoc, goal_order_updateLiveGoal, IH.
  unfold updated_ids. rewrite fmap_app. simpl.
  by rewrite first_seen_snoc.
Qed.

Lemma run_goal_updates_stored updates state id :
  id ∈ updated_ids updates →
  is_Some (stored_goal (run_goal_updates updates state) id).
Proof.
  induction updates as [|tu updates IH] using rev_ind.
  - unfold updated_ids. simpl. by intros ?%elem_of_nil.
  - unfold updated_ids in *. rewrite fmap_app, elem_of_app. simpl.
    rewrite list_elem_of_singleton, run_goal_updates_snoc.
    destruct (decide (id = gu_id tu.2)) as [->|Hne].
    + intros _. rewrite stored_goal_updateLiveGoal. by eexists.
    + intros [Hin|?]; [|done].
      rewrite stored_goal_updateLiveGoal_ne by done. by apply IH.
Qed.

Lemma run_goal_updates_stored_id updates id goal :
  stored_goal (run_goal_updates updates initialState) id = Some goal →
  lg_id goal = id.
Proof.
  revert goal. induction updates as [|tu updates IH] using rev_ind;
    intros goal.
  - done.
  - rewrite run_goal_updates_snoc.
    destruct (decide (id = gu_id tu.2)) as [->|Hne].
    + rewrite stored_goal_updateLiveGoal. by intros [= <-].
    + rewrite stored_goal_updateLiveGoal_ne by done. apply IH.
Qed.

(** X7: the goal order is append-only under goal updates: the order held
    before stays as a prefix, an id is added at the end the first time it is
    seen and never again, so no id is listed twice; folded from the initial
    state the order lists the distinct ids by first arrival, and every id
    seen has a live goal. *)
Theorem X7_goal_order_first_seen (updates : list (string * LiveGoalUpdate))
    (state : WorkflowState) :
  let after := run_goal_updates updates state in
  (∃ added, goal_order after = goal_order state ++ added)
  ∧ (NoDup (goal_order state) → NoDup (goal_order after))
  ∧ (∀ id, id ∈ goal_order after ↔
           id ∈ goal_order state ∨ id ∈ updated_ids updates)
  ∧ goal_order (run_goal_updates updates initialState)
    = first_seen (updated_ids updates)
  ∧ (∀ id, id ∈ updated_ids updates → is_Some (stored_goal after id)).
Proof.
  simpl. split_and!.
  - induction updates as [|tu updates [added IH]] using rev_ind.
    + exists []. by rewrite app_nil_r.
    + rewrite run_goal_updates_snoc, goal_order_updateLiveGoal, IH.
      case_bool_decide.
      * by exists added.
      * exists (added ++ [gu_id tu.2]). by rewrite app_assoc.
  - intros Hnd. induction updates as [|tu updates IH] using rev_ind; [done|].
    rewrite run_goal_updates_snoc, goal_order_updateLiveGoal.
    case_bool_decide as Hin; [done|].
    apply NoDup_app. split_and!; [done| |apply NoDup_singleton].
    intros id Hid ->%list_elem_of_singleton. done.
  - intros id. induction updates as [|tu updates IH] using rev_ind.
    + unfold updated_ids. simpl. rewrite elem_of_nil. tauto.
    + rewrite run_goal_updates_snoc, goal_order_updateLiveGoal.
      unfold updated_ids in *. rewrite fmap_app, elem_of_app. simpl.
      rewrite list_elem_of_singleton.
      case_bool_decide as Hin.
      * rewrite IH. split; [tauto|]. intros [?|[?| ->]]; [tauto..|].
        by apply IH.
      * rewrite elem_of_app, list_elem_of_singleton, IH. tauto.
  - apply run_goal_updates_order_initial.
  - intros id. apply run_goal_updates_stored.
Qed.

Lemma X7_goal_order_witness :
  NoDup (goal_order (run_goal_updates
    [("t1", goal_text_only 2 "b"); ("t2", goal_text_only 1 "a");
     ("t3", goal_status_streaming 2)] initialState)).
Proof.
  apply (X7_goal_order_first_seen
    [("t1", goal_text_only 2 "b"); ("t2", goal_text_only 1 "a");
     ("t3", goal_status_streaming 2)] initialState).
  apply NoDup_nil_2.
Defined.

Lemma omap_lookup_all {V} (m : gmap Z V) (ids : list Z) :
  (∀ id, id ∈ ids → is_Some (m !! id)) →
  Some <$> omap (λ id, m !! id) ids = (λ id, m !! id) <$> ids.
Proof.
  induction ids as [|i ids IH]; intros Hall; [done|]. simpl.
  destruct (Hall i) as [v Hv]; [left|]. rewrite Hv. simpl. f_equal.
  apply IH. intros id Hid. apply Hall. by right.
Qed.

Lemma fmap_keys_of_lookups {A} (key : A → Z) (f : Z → option A)
    (items : list A) (ids : list Z) :
  Some <$> items = f <$> ids →
  (∀ id a, f id = Some a → key a = id) →
  key <$> items = ids.
Proof.
  revert items. induction ids as [|i ids IH]; intros [|a items] Heq Hkey;
    try done.
  simpl in Heq. injection Heq as Ha Heq. simpl. f_equal.
  - by apply Hkey.
  - by apply IH.
Qed.

(** X8: after goal updates folded from the initial state, the research page
    lists exactly the stored live goals, one per distinct goal id, in the
    order in which the ids were first seen. *)
Theorem X8_goalItems_after_updates
    (updates : list (string * LiveGoalUpdate)) :
  let after := run_goal_updates updates initialState in
  let items := goalItems (researchAgentStatus after) in
  Some <$> items = stored_goal after <$> first_seen (updated_ids updates)
  ∧ lg_id <$> items = first_seen (updated_ids updates).
Proof.
  simpl.
  assert (Some <$> omap (λ id, ras_liveGoals (researchAgentStatus
                  (run_goal_updates updates initialState)) !! id)
            (first_seen (updated_ids updates))
          = stored_goal (run_goal_updates updates initialState)
              <$> first_seen (updated_ids updates)) as Hall.
  { apply omap_lookup_all. intros id Hid.
    apply (run_goal_updates_stored updates initialState).
    by apply first_seen_elem_of. }
  assert (goalItems (researchAgentStatus
            (run_goal_updates updates initialState))
          = omap (λ id, ras_liveGoals (researchAgentStatus
                  (run_goal_updates updates initialState)) !! id)
              (first_seen (updated_ids updates))) as ->.
  { unfold goalItems.
    fold (goal_order (run_goal_updates updates initialState)).
    rewrite run_goal_updates_order_initial.
    destruct (first_seen (updated_ids updates)) as [|i ids] eqn:Hfs.
    - simpl. destruct updates as [|tu updates]; [done|].
      assert (gu_id tu.2 ∈ first_seen (updated_ids (tu :: updates))) as Hin.
      { apply first_seen_elem_of. left. }
      rewrite Hfs in Hin. by apply elem_of_nil in Hin.
    - apply (f_equal length) in Hall. rewrite !length_fmap in Hall.
      by destruct (omap _ (i :: ids)) as [|g gs] eqn:Homap. }
  split; [done|].
  eapply fmap_keys_of_lookups; [exact Hall|].
  intros id goal. apply run_goal_updates_stored_id.
Qed.

(** ** Confirmed goals *)

Lemma setGoals_unfold t gs state :
  setGoals t (Some gs) state
  = let cur := researchAgentStatus state in
    let r := foldl (setGoals_each t) (ras_liveGoals cur, []) gs in
    set_researchAgentStatus
      (ras_with_goals cur (Some gs) r.1
         (if bool_decide (r.2 ≠ []) then r.2 else ras_goalOrder cur))
      state.
Proof.
  unfold setGoals. simpl.
  change (λ (acc : gmap Z LiveGoal * list Z) (goal : GoalEntry), _)
    with (setGoals_each t).
  by destruct (foldl (setGoals_each t) _ gs).
Qed.

Lemma setGoals_fold_spec t gs (m : gmap Z LiveGoal) (o : list Z) :
  let r := foldl (setGoals_each t) (m, o) gs in
  r.2 = o ++ (ge_id <$> gs)
  ∧ (∀ id, id ∉ ge_id <$> gs → r.1 !! id = m !! id)
  ∧ (∀ g, g ∈ gs →
       ∃ live, r.1 !! ge_id g = Some live
               ∧ lg_id live = ge_id g
               ∧ lg_status live = Ready
               ∧ lg_updatedAt live = Some t)
  ∧ (NoDup (ge_id <$> gs) → ∀ g, g ∈ gs →
       r.1 !! ge_id g ≫= lg_goal_text = Some (ge_goal_text g)).
Proof.
  induction gs as [|g gs IH] using rev_ind; simpl.
  { split_and!.
    - by rewrite app_nil_r.
    - done.
    - by intros g ?%elem_of_nil.
    - by intros _ g ?%elem_of_nil. }
  rewrite foldl_app. simpl in *.
  destruct (foldl (setGoals_each t) (m, o) gs) as [m' o'].
  destruct IH as (Ho & Hother & Heach & Htext). simpl in *.
  rewrite fmap_app. simpl. split_and!.
  - by rewrite Ho, app_assoc.
  - intros id [Hid Hne%not_elem_of_cons]%not_elem_of_app.
    destruct Hne as [Hne _]. rewrite lookup_insert_ne by done. by apply Hother.
  - intros g0 Hg0.
    destruct (decide (ge_id g0 = ge_id g)) as [->|Hne].
    + rewrite lookup_insert_eq. by eexists.
    + rewrite lookup_insert_ne by done. apply Heach.
      apply elem_of_app in Hg0 as [?| ->%list_elem_of_singleton]; done.
  - intros [Hnd [Hfresh _]]%NoDup_app g0 Hg0.
    apply elem_of_app in Hg0 as [Hg0| ->%list_elem_of_singleton].
    + rewrite lookup_insert_ne; [by apply Htext|].
      intros Heq. apply (Hfresh (ge_id g0)).
      * by apply list_elem_of_fmap_2.
      * rewrite Heq. left.
    + by rewrite lookup_insert_eq.
Qed.

(** X9: [setGoals] with a non-empty list replaces the goal order by the ids
    of the list as given, stores every listed goal as ready with the time of
    the call, and keeps the live goals of all other ids as they were (it
    never removes one); when the ids of the list are distinct each stored
    text is the one listed.  With no list or an empty one the live goals and
    the goal order stay untouched. *)
Theorem X9_setGoals (timestamp : string) (gs : list GoalEntry)
    (state : WorkflowState) :
  let after := setGoals timestamp (Some gs) state in
  (gs ≠ [] → goal_order after = ge_id <$> gs)
  ∧ (gs = [] → goal_order after = goal_order state)
  ∧ goal_order (setGoals timestamp None state) = goal_order state
  ∧ ras_liveGoals (researchAgentStatus (setGoals timestamp None state))
    = ras_liveGoals (researchAgentStatus state)
  ∧ ras_goals (researchAgentStatus after) = Some gs
  ∧ (∀ id, id ∉ ge_id <$> gs → stored_goal after id = stored_goal state id)
  ∧ (∀ g, g ∈ gs →
       ∃ live, stored_goal after (ge_id g) = Some live
               ∧ lg_id live = ge_id g
               ∧ lg_status live = Ready
               ∧ lg_updatedAt live = Some timestamp)
  ∧ (NoDup (ge_id <$> gs) → ∀ g, g ∈ gs →
       stored_goal after (ge_id g) ≫= lg_goal_text = Some (ge_goal_text g)).
Proof.
  simpl. unfold goal_order, stored_goal. rewrite setGoals_unfold. simpl.
  destruct (setGoals_fold_spec timestamp gs
              (ras_liveGoals (researchAgentStatus state)) [])
    as (Ho & Hother & Heach & Htext).
  split_and!; try done.
  - intros Hne. rewrite Ho. simpl.
    rewrite bool_decide_eq_true_2; [done|]. by intros ?%fmap_nil_inv.
  - intros ->. done.
Qed.

Lemma X9_setGoals_witness :
  goal_order (setGoals "t" (Some [
    {| ge_id := 2; ge_goal_text := "b"; ge_uses := None; ge_sources := None;
       ge_rationale := None; ge_status := None; ge_updatedAt := None |};
    {| ge_id := 1; ge_goal_text := "a"; ge_uses := None; ge_sources := None;
       ge_rationale := None; ge_status := None; ge_updatedAt := None |}])
    state_goal_1_ready) = [2; 1]%Z.
Proof.
  apply (X9_setGoals "t" [
    {| ge_id := 2; ge_goal_text := "b"; ge_uses := None; ge_sources := None;
       ge_rationale := None; ge_status := None; ge_updatedAt := None |};
    {| ge_id := 1; ge_goal_text := "a"; ge_uses := None; ge_sources := None;
       ge_rationale := None; ge_status := None; ge_updatedAt := None |}]
    state_goal_1_ready).
  discriminate.
Defined.

(** ** Scraping items *)

Lemma status_partition (items : list ScrapingItem) :
  length (filter (λ i, si_status i = Completed) items)
  + length (filter (λ i, si_status i = Failed) items)
  + length (filter (λ i, si_status i = InProgress ∨ si_status i = Pending)
              items)
  = length items.
Proof.
  induction items as [|i items IH]; [done|].
  rewrite !filter_cons. destruct (si_status i) eqn:Hs; simpl; lia.
Qed.

(** X10: after [updateScrapingItemProgress] the three counters add up to the
    number of items: every item is counted once, as completed, as failed or
    (pending included) as in progress.  After [updateScrapingItem] the
    pending items are in none of the counters. *)
Theorem X10_counters_cover_items (state : WorkflowState) :
  (∀ link_id url progress,
     let new :=
       scrapingStatus (updateScrapingItemProgress link_id url progress state)
     in (ss_completed new + ss_failed new + ss_inProgress new)%Z
        = Z.of_nat (length (ss_items new)))
  ∧ (∀ url status error,
       let new := scrapingStatus (updateScrapingItem url status error state)
       in (ss_completed new + ss_failed new + ss_inProgress new
           + count_status Pending (ss_items new))%Z
          = Z.of_nat (length (ss_items new))).
Proof.
  split.
  - intros link_id url progress. simpl.
    rewrite <- !Nat2Z.inj_add. f_equal. apply status_partition.
  - intros url status error. simpl. unfold count_status.
    set (items := _ <$> ss_items (scrapingStatus state)).
    pose proof (status_partition items) as Hp.
    rewrite (filter_or_length InProgress Pending) in Hp by done. lia.
Qed.

(** X11: [updateScrapingItem] never adds or removes an item and never
    changes an item's url or link id; for a url that no item carries the
    item list stays exactly as it was. *)
Theorem X11_updateScrapingItem_keeps_items (url : string)
    (status : ItemStatus) (error : option string) (state : WorkflowState) :
  let after := scraping_items (updateScrapingItem url status error state) in
  length after = length (scraping_items state)
  ∧ si_url <$> after = si_url <$> scraping_items state
  ∧ si_link_id <$> after = si_link_id <$> scraping_items state
  ∧ (url ∉ si_url <$> scraping_items state → after = scraping_items state).
Proof.
  unfold scraping_items. simpl. split_and!.
  - by rewrite length_fmap.
  - rewrite <- list_fmap_compose. apply list_fmap_ext. intros _ item _. simpl.
    by case_decide.
  - rewrite <- list_fmap_compose. apply list_fmap_ext. intros _ item _. simpl.
    by case_decide.
  - intros Hurl. rewrite <- (list_fmap_id (ss_items (scrapingStatus state))) at 2.
    apply list_fmap_ext. intros k item Hk. simpl.
    rewrite decide_False; [done|]. intros <-. apply Hurl.
    apply list_elem_of_fmap_2. by eapply list_elem_of_lookup_2.
Qed.

Lemma X11_updateScrapingItem_witness :
  scraping_items (updateScrapingItem "https://other" Completed None
                    state_one_pending)
  = scraping_items state_one_pending.
Proof.
  apply (X11_updateScrapingItem_keeps_items "https://other" Completed None
           state_one_pending).
  change ("https://other" ∉ ["https://a"]).
  rewrite list_elem_of_singleton. discriminate.
Defined.

Lemma existsb_none {A} (f : A → bool) (l : list A) :
  (∀ x, x ∈ l → f x = false) → existsb f l = false.
Proof.
  induction l as [|x l IH]; intros Hall; [done|]. simpl.
  rewrite Hall by left. simpl. apply IH. intros y Hy. apply Hall. by right.
Qed.

(** X12: a progress event with a non-empty link id matches by link id
    alone: an item with another link id, or with none, is left as it is
    whatever its url, and when no item carries the link id a new item is
    appended - also when an item for the same url is already listed. *)
Theorem X12_progress_matches_by_link_id (link : string) (url : string)
    (progress : ScrapingItemPartial) (state : WorkflowState) :
  link ≠ "" →
  let after :=
    scraping_items (updateScrapingItemProgress (Some link) url progress state)
  in
  (∀ k item, scraping_items state !! k = Some item →
     si_link_id item ≠ Some link → after !! k = Some item)
  ∧ ((∀ item, item ∈ scraping_items state → si_link_id item ≠ Some link) →
     after = scraping_items state ++ [item_new (Some link) url progress]).
Proof.
  intros Hlink. unfold scraping_items. simpl.
  assert (∀ item, item_matches (Some link) url item
                  = bool_decide (si_link_id item = Some link)) as Hmatch.
  { intros item. unfold item_matches. simpl.
    by rewrite (proj2 (String.eqb_neq link "") Hlink). }
  split.
  - intros k item Hk Hne.
    assert (((λ item, if item_matches (Some link) url item
                      then item_merge item progress else item)
             <$> ss_items (scrapingStatus state)) !! k = Some item) as Hk'.
    { rewrite list_lookup_fmap, Hk. simpl.
      by rewrite Hmatch, bool_decide_eq_false_2. }
    destruct (existsb _ _); [done|]. by apply lookup_app_l_Some.
  - intros Hnone.
    assert ((λ item, if item_matches (Some link) url item
                     then item_merge item progress else item)
            <$> ss_items (scrapingStatus state)
            = ss_items (scrapingStatus state)) as ->.
    { rewrite <- (list_fmap_id (ss_items (scrapingStatus state))) at 2.
      apply list_fmap_ext. intros k item Hk. simpl.
      rewrite Hmatch, bool_decide_eq_false_2; [done|].
      apply Hnone. by eapply list_elem_of_lookup_2. }
    rewrite existsb_none; [done|].
    intros item Hitem. rewrite Hmatch. apply bool_decide_eq_false_2.
    by apply Hnone.
Qed.

Lemma X12_progress_witness :
  scraping_items (updateScrapingItemProgress (Some "L1") "https://a"
                    no_progress state_one_pending)
  = scraping_items state_one_pending
      ++ [item_new (Some "L1") "https://a" no_progress].
Proof.
  apply (X12_progress_matches_by_link_id "L1" "https://a" no_progress
           state_one_pending).
  - discriminate.
  - change (∀ item, item ∈ [item_new None "https://a" pending_progress] →
              si_link_id item ≠ Some "L1").
    intros item ->%list_elem_of_singleton. discriminate.
Defined.

(** ** The validator, once more *)

(** The messages the validator can report, by branch. *)
Lemma validateState_messages state msg :
  msg ∈ val_errors (validateState state) →
  if truthy (batchId state)
  then msg = "Research goals exist but scraping not completed"
       ∨ msg = "Phase3 steps exist but no research plan found"
       ∨ (∃ have expected, msg = incomplete_message have expected)
       ∨ msg = "Workflow has progress but workflowStarted is false"
  else msg = "No batchId but workflow state exists (state should be reset)".
Proof.
  unfold validateState. simpl.
  destruct (truthy (batchId state)); simpl.
  - rewrite andb_false_r. intros Hin.
    apply elem_of_push_if in Hin as [Hin|[_ ->]]; [|tauto].
    assert (msg ∈ push_if
              (bool_decide (0 < length (phase3Steps state))
               && bool_decide (ras_plan (researchAgentStatus state) = None))
              "Phase3 steps exist but no research plan found"
              (push_if
                 (bool_decide (ras_goals (researchAgentStatus state) ≠ None)
                  && bool_decide (ss_completed (scrapingStatus state) = 0%Z))
                 "Research goals exist but scraping not completed"
                 (push_if false "Scraping items exist but no batchId set" []))
            ∨ ∃ have expected, msg = incomplete_message have expected)
      as [Hin'|Hinc].
    { destruct (finalReport state), (ras_plan (researchAgentStatus state));
        try by left.
      apply elem_of_push_if in Hin as [Hin|[_ ->]]; [by left|].
      right. by eexists _, _. }
    + apply elem_of_push_if in Hin' as [Hin'|[_ ->]]; [|tauto].
      apply elem_of_push_if in Hin' as [Hin'|[_ ->]]; [|tauto].
      apply elem_of_push_if in Hin' as [Hin'|[? _]]; [|done].
      by apply elem_of_nil in Hin'.
    + tauto.
  - intros [Hin|[_ ->]]%elem_of_push_if; [|done].
    by apply elem_of_nil in Hin.
Qed.

(** X13: the first check of the validator can never fire: it asks for a
    missing batch id inside the branch taken when a batch id is there, so
    'Scraping items exist but no batchId set' is reported for no state.
    The message about a missing batch id is reported only without a batch
    id, and is then the only possible one. *)
Theorem X13_dead_scraping_check (state : WorkflowState) :
  ("Scraping items exist but no batchId set"
     ∉ val_errors (validateState state))
  ∧ (truthy (batchId state) = true →
     "No batchId but workflow state exists (state should be reset)"
       ∉ val_errors (validateState state))
  ∧ (truthy (batchId state) = false →
     ∀ msg, msg ∈ val_errors (validateState state) →
       msg = "No batchId but workflow state exists (state should be reset)").
Proof.
  split_and!.
  - intros Hin%validateState_messages.
    destruct (truthy (batchId state)); [|discriminate].
    destruct Hin as [?|[?|[(have & expected & Hinc)|?]]]; discriminate.
  - intros Hb Hin%validateState_messages. rewrite Hb in Hin.
    destruct Hin as [?|[?|[(have & expected & Hinc)|?]]]; discriminate.
  - intros Hb msg Hin%validateState_messages. by rewrite Hb in Hin.
Qed.

Lemma X13_dead_check_witness :
  "No batchId but workflow state exists (state should be reset)"
    ∉ val_errors (validateState
        (reported_state [sample_plan_step 1] [sample_step 1 "a"])).
Proof.
  apply (X13_dead_scraping_check
           (reported_state [sample_plan_step 1] [sample_step 1 "a"])).
  reflexivity.
Defined.

(** X14: a state just switched to another batch, and a state just reset,
    pass the validator without a violation. *)
Theorem X14_fresh_states_are_valid (b : string) (state : WorkflowState) :
  (batchId state ≠ Some b →
   validateState (setBatchId b state)
   = {| isValid := true; val_errors := [] |})
  ∧ validateState (reset state) = {| isValid := true; val_errors := [] |}.
Proof.
  split; [|reflexivity].
  intros Hb. unfold setBatchId. rewrite decide_False by done.
  unfold validateState. simpl.
  by destruct (negb (String.eqb b "")).
Qed.

Lemma X14_fresh_states_witness :
  validateState (setBatchId "batch-2" (reported_state [] []))
  = {| isValid := true; val_errors := [] |}.
Proof.
  apply (proj1 (X14_fresh_states_are_valid "batch-2" (reported_state [] []))).
  vm_compute. discriminate.
Defined.

(** ** Loading a session from the history *)

Lemma with_hydrated_fields_frame hydrated state :
  with_hydrated_fields hydrated state
  = with_hydrated_fields hydrated (hydration_frame state).
Proof. done. Qed.

Lemma keeps_hydration_frame_spec f state :
  keeps_hydration_frame f →
  f state = with_hydrated_fields (f state) state.
Proof.
  intros Hf. rewrite (with_hydrated_fields_frame _ state), <- Hf.
  by destruct (f state).
Qed.

Lemma updateScrapingStatus_keeps_frame status :
  keeps_hydration_frame (updateScrapingStatus status).
Proof. done. Qed.

Lemma updateResearchAgentStatus_keeps_frame status :
  keeps_hydration_frame (updateResearchAgentStatus status).
Proof. done. Qed.

Lemma setGoals_keeps_frame t goals : keeps_hydration_frame (setGoals t goals).
Proof.
  intros state. unfold setGoals.
  destruct goals as [gs|]; [|done].
  by destruct (foldl _ _ gs).
Qed.

Lemma setPlan_keeps_frame t plan : keeps_hydration_frame (setPlan t plan).
Proof.
  intros state. unfold setPlan.
  destruct plan as [ps|]; [|done].
  by destruct (foldl _ _ ps).
Qed.

Lemma setSynthesizedGoal_keeps_frame g :
  keeps_hydration_frame (setSynthesizedGoal g).
Proof. done. Qed.

Lemma setPhase3Steps_keeps_frame steps next :
  keeps_hydration_frame (setPhase3Steps steps next).
Proof. done. Qed.

Lemma when_keeps_frame c f :
  keeps_hydration_frame f → keeps_hydration_frame (when c f).
Proof. intros Hf state. unfold when. destruct c; [apply Hf|done]. Qed.

Lemma hydrate_keeps_frame tGoals tPlan sessionData :
  keeps_hydration_frame (hydrateWorkflowState tGoals tPlan sessionData).
Proof.
  intros state. unfold hydrateWorkflowState. cbv zeta.
  destruct (persisted_synthesized_goal sessionData) as [sg|];
    destruct (phase3 sessionData) as [p3|];
    try destruct (p3_synthesized_goal p3) as [sg3|];
    destruct (scraping_status sessionData) as [snapshot|];
    repeat first
      [ rewrite when_keeps_frame
          by first [ apply setPhase3Steps_keeps_frame
                   | apply setPlan_keeps_frame
                   | apply setGoals_keeps_frame ]
      | rewrite setSynthesizedGoal_keeps_frame
      | rewrite updateResearchAgentStatus_keeps_frame
      | rewrite updateScrapingStatus_keeps_frame ];
    done.
Qed.

Lemma setPlan_keeps_goals t plan : keeps_goals (setPlan t plan).
Proof.
  intros state. unfold setPlan.
  destruct plan as [ps|]; [|done].
  by destruct (foldl _ _ ps).
Qed.

Lemma setSynthesizedGoal_keeps_goals g : keeps_goals (setSynthesizedGoal g).
Proof. done. Qed.

Lemma setPhase3Steps_keeps_goals steps next :
  keeps_goals (setPhase3Steps steps next).
Proof. done. Qed.

Lemma when_keeps_goals c f : keeps_goals f → keeps_goals (when c f).
Proof. intros Hf state. unfold when. destruct c; [apply Hf|done]. Qed.

Lemma setGoals_goals t goals state :
  ras_goals (researchAgentStatus (setGoals t goals state)) = goals.
Proof.
  unfold setGoals.
  destruct goals as [gs|]; [|done].
  by destruct (foldl _ _ gs).
Qed.

Lemma setGoals_goal_fields t gs state1 state2 :
  goal_fields state1 = goal_fields state2 →
  goal_fields (setGoals t (Some gs) state1)
  = goal_fields (setGoals t (Some gs) state2).
Proof.
  unfold goal_fields. intros [= Hg Hl Ho].
  rewrite !setGoals_unfold. simpl. by rewrite Hl, Ho.
Qed.

(** The goals after hydration: what [setGoals] makes of the goals of the
    session when it has any, else the ones the store had. *)
Lemma hydrate_goal_fields tGoals tPlan sessionData state :
  goal_fields (hydrateWorkflowState tGoals tPlan sessionData state)
  = if bool_decide (persisted_goals sessionData ≠ [])
    then goal_fields (setGoals tGoals (Some (hydrated_goals sessionData))
                        state)
    else goal_fields state.
Proof.
  unfold hydrateWorkflowState. cbv zeta.
  fold (hydrated_goals sessionData).
  assert (length (hydrated_goals sessionData)
          = length (persisted_goals sessionData)) as Hlen.
  { unfold hydrated_goals. by rewrite length_fmap. }
  destruct (persisted_synthesized_goal sessionData) as [sg|];
    destruct (phase3 sessionData) as [p3|];
    try destruct (p3_synthesized_goal p3) as [sg3|];
    repeat first
      [ rewrite when_keeps_goals
          by first [ apply setPhase3Steps_keeps_goals
                   | apply setPlan_keeps_goals ]
      | rewrite setSynthesizedGoal_keeps_goals ];
    rewrite Hlen;
    (destruct (persisted_goals sessionData) as [|g gs]; simpl;
     [by destruct (scraping_status sessionData)
     |unfold when; simpl; apply setGoals_goal_fields;
      by destruct (scraping_status sessionData)]).
Qed.

Lemma hydrate_goals tGoals tPlan sessionData state :
  ras_goals (researchAgentStatus
               (hydrateWorkflowState tGoals tPlan sessionData state))
  = if bool_decide (persisted_goals sessionData ≠ [])
    then Some (hydrated_goals sessionData)
    else ras_goals (researchAgentStatus state).
Proof.
  change (ras_goals (researchAgentStatus
            (hydrateWorkflowState tGoals tPlan sessionData state)))
    with (goal_fields
            (hydrateWorkflowState tGoals tPlan sessionData state)).1.1.
  rewrite hydrate_goal_fields. case_bool_decide; [|done].
  simpl. apply setGoals_goals.
Qed.

(** X15: loading a session writes the scraping status, the research agent
    status, the phase 3 steps and the current step id, and nothing else:
    every other field is as the setters before and after hydration left
    it.  In particular no final report is loaded: after viewing another
    batch the store holds none, while the page moves on to the report. *)
Theorem X15_view_writes_hydrated_fields_only (tGoals tPlan b : string)
    (sessionData : HistorySessionDetail) (state : WorkflowState) :
  let r := handleView tGoals tPlan b (Some sessionData) state in
  r.1 = with_hydrated_fields r.1
          (setCurrentPhase (view_resolvedPhase sessionData)
             (setWorkflowStarted false
                (setSessionId (or_else (session_id sessionData) None)
                   (setBatchId b state))))
  ∧ r.2 = [Navigate "/report"]
  ∧ (batchId state ≠ Some b → finalReport r.1 = None).
Proof.
  simpl. split_and!; [|done|].
  - rewrite (keeps_hydration_frame_spec
               (hydrateWorkflowState tGoals tPlan sessionData))
      by apply hydrate_keeps_frame.
    done.
  - intros Hb.
    rewrite (keeps_hydration_frame_spec
               (hydrateWorkflowState tGoals tPlan sessionData))
      by apply hydrate_keeps_frame.
    unfold setBatchId. by rewrite decide_False.
Qed.

Lemma X15_view_witness :
  finalReport
    (handleView "t1" "t2" "batch-2" (Some (completed_session))
       (reported_state [] [])).1 = None.
Proof.
  apply (X15_view_writes_hydrated_fields_only "t1" "t2" "batch-2"
           completed_session (reported_state [] [])).
  vm_compute. discriminate.
Defined.

Lemma hydrate_batchId tGoals tPlan sessionData state :
  batchId (hydrateWorkflowState tGoals tPlan sessionData state)
  = batchId state.
Proof.
  rewrite (keeps_hydration_frame_spec
             (hydrateWorkflowState tGoals tPlan sessionData))
    by apply hydrate_keeps_frame.
  done.
Qed.

Lemma hydrate_workflowStarted tGoals tPlan sessionData state :
  workflowStarted (hydrateWorkflowState tGoals tPlan sessionData state)
  = workflowStarted state.
Proof.
  rewrite (keeps_hydration_frame_spec
             (hydrateWorkflowState tGoals tPlan sessionData))
    by apply hydrate_keeps_frame.
  done.
Qed.

Lemma setBatchId_batchId b state : batchId (setBatchId b state) = Some b.
Proof. unfold setBatchId. by destruct (decide _). Qed.

(** A state with a batch id and confirmed goals that is not marked as
    started is reported. *)
Lemma unstarted_progress_reported state :
  truthy (batchId state) = true →
  workflowStarted state = false →
  ras_goals (researchAgentStatus state) ≠ None →
  "Workflow has progress but workflowStarted is false"
    ∈ val_errors (validateState state)
  ∧ isValid (validateState state) = false.
Proof.
  intros Hb Hw Hg. unfold validateState. cbv zeta. rewrite Hb, Hw.
  rewrite (bool_decide_eq_true_2 _ Hg), orb_true_r. simpl.
  unfold push_if at 1 2. simpl. split.
  - apply elem_of_app. right. by apply list_elem_of_singleton.
  - apply bool_decide_eq_false_2. rewrite length_app. simpl. lia.
Qed.

(** X16: a session loaded from the history is marked as not started, so
    whenever it carries confirmed goals the validator reports the store
    right after the handler: both 'view' and 'resume' (whether or not the
    resume call succeeds) leave a state that is not valid. *)
Theorem X16_loaded_session_is_reported (tGoals tPlan b : string)
    (sessionData : HistorySessionDetail) (resumeOk : bool)
    (state : WorkflowState) :
  b ≠ "" →
  persisted_goals sessionData ≠ [] →
  let viewed := (handleView tGoals tPlan b (Some sessionData) state).1 in
  let resumed :=
    (handleResume tGoals tPlan b (Some sessionData) resumeOk state).1 in
  ("Workflow has progress but workflowStarted is false"
     ∈ val_errors (validateState viewed))
  ∧ isValid (validateState viewed) = false
  ∧ ("Workflow has progress but workflowStarted is false"
       ∈ val_errors (validateState resumed))
  ∧ isValid (validateState resumed) = false.
Proof.
  intros Hb Hgoals.
  assert (∀ st,
    truthy (batchId
      (hydrateWorkflowState tGoals tPlan sessionData
         (setWorkflowStarted false
            (setSessionId (or_else (session_id sessionData) None)
               (setBatchId b st))))) = true) as Hbatch.
  { intros st. rewrite hydrate_batchId. simpl. rewrite setBatchId_batchId.
    simpl. apply negb_true_iff, String.eqb_neq. done. }
  assert (∀ st,
    ras_goals (researchAgentStatus
      (hydrateWorkflowState tGoals tPlan sessionData st)) ≠ None) as Hg.
  { intros st. rewrite hydrate_goals. by rewrite bool_decide_eq_true_2. }
  assert (∀ p st,
    "Workflow has progress but workflowStarted is false"
      ∈ val_errors (validateState
          (setCurrentPhase p
             (hydrateWorkflowState tGoals tPlan sessionData
                (setWorkflowStarted false
                   (setSessionId (or_else (session_id sessionData) None)
                      (setBatchId b st))))))
    ∧ isValid (validateState
          (setCurrentPhase p
             (hydrateWorkflowState tGoals tPlan sessionData
                (setWorkflowStarted false
                   (setSessionId (or_else (session_id sessionData) None)
                      (setBatchId b st)))))) = false) as Hphase.
  { intros p st. apply unstarted_progress_reported.
    - apply Hbatch.
    - simpl. by rewrite hydrate_workflowStarted.
    - apply Hg. }
  assert (∀ st,
    "Workflow has progress but workflowStarted is false"
      ∈ val_errors (validateState
          (hydrateWorkflowState tGoals tPlan sessionData
             (setWorkflowStarted false
                (setSessionId (or_else (session_id sessionData) None)
                   (setBatchId b st)))))
    ∧ isValid (validateState
          (hydrateWorkflowState tGoals tPlan sessionData
             (setWorkflowStarted false
                (setSessionId (or_else (session_id sessionData) None)
                   (setBatchId b st))))) = false) as Hhydrated.
  { intros st. apply unstarted_progress_reported.
    - apply Hbatch.
    - by rewrite hydrate_workflowStarted.
    - apply Hg. }
  assert (∀ ok,
    "Workflow has progress but workflowStarted is false"
      ∈ val_errors (validateState
          (handleResume tGoals tPlan b (Some sessionData) ok state).1)
    ∧ isValid (validateState
          (handleResume tGoals tPlan b (Some sessionData) ok state).1)
      = false) as Hresume.
  { intros ok. unfold handleResume.
    destruct (shouldResume sessionData && negb ok).
    - exact (Hhydrated state).
    - exact (Hphase (resume_resolvedPhase sessionData) state). }
  cbv zeta. split_and!.
  - exact (proj1 (Hphase (view_resolvedPhase sessionData) state)).
  - exact (proj2 (Hphase (view_resolvedPhase sessionData) state)).
  - exact (proj1 (Hresume resumeOk)).
  - exact (proj2 (Hresume resumeOk)).
Qed.

Lemma X16_loaded_session_witness :
  isValid (validateState
    (handleView "t1" "t2" "batch-2" (Some completed_session)
       initialState).1) = false.
Proof.
  apply (X16_loaded_session_is_reported "t1" "t2" "batch-2"
           completed_session true initialState).
  - discriminate.
  - vm_compute. discriminate.
Defined.

Lemma setCurrentPhase_twice p state :
  setCurrentPhase p (setCurrentPhase p state) = setCurrentPhase p state.
Proof. done. Qed.

(** X17: when the resume call fails, the store has already been switched
    to the session and hydrated: it differs from the store after a
    successful resume in [currentPhase] only, which keeps the value
    [setBatchId] left.  The handler then asks for no navigation.  When the
    session cannot be fetched in the first place the store is untouched. *)
Theorem X17_failed_resume (tGoals tPlan b : string)
    (sessionData : HistorySessionDetail) (state : WorkflowState) :
  let failed := handleResume tGoals tPlan b (Some sessionData) false state in
  let resumed := handleResume tGoals tPlan b (Some sessionData) true state in
  setCurrentPhase (resume_resolvedPhase sessionData) failed.1 = resumed.1
  ∧ (shouldResume sessionData = true →
     currentPhase failed.1 = currentPhase (setBatchId b state)
     ∧ failed.2 = [ResumeSession b; Notify "无法恢复会话，请重试" "error"])
  ∧ (handleResume tGoals tPlan b None false state).1 = state.
Proof.
  cbv zeta. unfold handleResume. split_and!; [| |done].
  - rewrite andb_false_r.
    destruct (shouldResume sessionData); simpl; done.
  - intros ->. simpl. split; [|done].
    rewrite (keeps_hydration_frame_spec
               (hydrateWorkflowState tGoals tPlan sessionData))
      by apply hydrate_keeps_frame.
    done.
Qed.

Lemma X17_failed_resume_witness :
  currentPhase
    (handleResume "t1" "t2" "batch-2"
       (Some (no_session_data SessInProgress)) false initialState).1
  = "input".
Proof.
  apply (X17_failed_resume "t1" "t2" "batch-2"
           (no_session_data SessInProgress) initialState).
  reflexivity.
Defined.

(** ** The plan carousel of the research page *)

Lemma applyPlanNav_in_range e s :
  plan_index_in_range s → plan_index_in_range (applyPlanNav e s).
Proof.
  destruct s as [n idx]. unfold plan_index_in_range. simpl. intros [H0 Hn].
  destruct e as [| |index|m]; simpl.
  - unfold goToNextPlan. case_bool_decide; [|done].
    destruct (Z.ltb_spec idx (Z.of_nat n - 1)); lia.
  - unfold goToPreviousPlan. destruct (Z.ltb_spec 0 idx); lia.
  - unfold goToPlan.
    destruct (Z.leb_spec 0 index), (Z.ltb_spec index (Z.of_nat n));
      simpl; lia.
  - unfold planLengthChanged. case_bool_decide; [|lia].
    destruct (Z.leb_spec (Z.of_nat m) idx); lia.
Qed.

(** X18: whatever the user clicks and however the plan grows or shrinks,
    the index on display stays a position of the plan: never negative,
    below the number of entries when there are any, and 0 when there are
    none. *)
Theorem X18_plan_index_stays_in_range (events : list PlanNav)
    (s : nat * Z) :
  plan_index_in_range s →
  plan_index_in_range (runPlanNav events s).
Proof.
  revert s. induction events as [|e events IH]; intros s Hs; [done|].
  simpl. apply IH. by apply applyPlanNav_in_range.
Qed.

Lemma X18_plan_index_witness :
  plan_index_in_range
    (runPlanNav [NavLength 3; NavNext; NavNext; NavNext; NavLength 2;
                 NavGoTo 5; NavPrevious] (0, 0%Z)).
Proof.
  apply (X18_plan_index_stays_in_range
           [NavLength 3; NavNext; NavNext; NavNext; NavLength 2;
            NavGoTo 5; NavPrevious] (0, 0%Z)).
  unfold plan_index_in_range. simpl. lia.
Defined.

(** ** The steps of phase 3 *)

Lemma sorted_last_is_largest {A : Type} (key : A → Z) (l : list A) (x : A) :
  StronglySorted (key_le key) l →
  last l = Some x →
  ∀ y, y ∈ l → (key y ≤ key x)%Z.
Proof.
  induction 1 as [|a l Hl IH Ha]; [done|].
  intros Hlast y Hy. destruct l as [|b l].
  - simpl in Hlast. injection Hlast as <-.
    apply list_elem_of_singleton in Hy as ->. lia.
  - change (last (b :: l) = Some x) in Hlast.
    apply elem_of_cons in Hy as [->|Hy].
    + rewrite Forall_forall in Ha.
      apply (Ha x). by apply last_Some_elem_of.
    + by apply IH.
Qed.

(** X19: [setPhase3Steps] points [currentStepId] at the step the caller
    names as next, whether or not such a step is stored; without one it
    points at the stored step of the largest id, and at nothing when there
    are no steps.  [addPhase3Step] points it at the step just added, which
    need not be the last one. *)
Theorem X19_currentStepId (steps : list SessionStep) (state : WorkflowState) :
  (∀ n, currentStepId (setPhase3Steps steps (Some n) state) = Some n)
  ∧ (steps = [] → currentStepId (setPhase3Steps steps None state) = None)
  ∧ (steps ≠ [] →
     ∃ m, currentStepId (setPhase3Steps steps None state) = Some m
          ∧ m ∈ step_id <$> steps
          ∧ ∀ s, s ∈ steps → (step_id s ≤ m)%Z)
  ∧ (∀ step, currentStepId (addPhase3Step step state) = Some (step_id step)).
Proof.
  split_and!; [done|by intros ->| |done].
  intros Hne. unfold setPhase3Steps. simpl.
  destruct (last (sort_by step_id steps)) as [x|] eqn:Hlast.
  - exists (step_id x). split_and!; [done| |].
    + apply list_elem_of_fmap. exists x. split; [done|].
      apply (sort_by_elem_of step_id). by apply last_Some_elem_of.
    + intros s Hs.
      apply (sorted_last_is_largest step_id (sort_by step_id steps));
        [apply sort_by_sorted|done|by apply sort_by_elem_of].
  - apply last_None in Hlast.
    apply (f_equal length) in Hlast. rewrite sort_by_length in Hlast.
    by destruct steps.
Qed.

Lemma X19_currentStepId_witness :
  ∃ m, currentStepId
         (setPhase3Steps [sample_step 3 "c"; sample_step 1 "a"] None
            initialState) = Some m
       ∧ m ∈ step_id <$> [sample_step 3 "c"; sample_step 1 "a"]
       ∧ ∀ s, s ∈ [sample_step 3 "c"; sample_step 1 "a"] →
              (step_id s ≤ m)%Z.
Proof.
  apply (X19_currentStepId [sample_step 3 "c"; sample_step 1 "a"]
           initialState).
  discriminate.
Defined.

(** ** Insights, actions and report sections *)

Lemma option_union_assoc {A : Type} (a b c : option A) :
  a ∪ (b ∪ c) = (a ∪ b) ∪ c.
Proof. by destruct a, b, c. Qed.

Lemma option_union_None_l {A : Type} (a : option A) : None ∪ a = a.
Proof. by destruct a. Qed.

(** X20: an update of an insight, an action or a report section that is
    already stored keeps every field the update omits, the status
    included, and stamps the entity with the update's time or else with
    the clock; the entities of other ids stay as they are.  An entity not
    stored before starts as 'streaming' unless the update says otherwise. *)
Theorem X20_live_entities_keep_omitted_fields (now : string)
    (state : WorkflowState) :
  (∀ u,
     let after := updateLiveInsight now u state in
     (∀ id, id ≠ iu_id u → stored_insight after id = stored_insight state id)
     ∧ (stored_insight state (iu_id u) = None →
        li_status <$> stored_insight after (iu_id u)
        = Some (default Streaming (iu_status u)))
     ∧ ∀ prev, stored_insight state (iu_id u) = Some prev →
         ∃ m, stored_insight after (iu_id u) = Some m
              ∧ (iu_title u = None → li_title m = li_title prev)
              ∧ (iu_summary u = None → li_summary m = li_summary prev)
              ∧ (iu_sources u = None → li_sources m = li_sources prev)
              ∧ (iu_status u = None → li_status m = li_status prev)
              ∧ li_updatedAt m = Some (default now (iu_updatedAt u)))
  ∧ (∀ u,
     let after := updateLiveAction now u state in
     (∀ id, id ≠ au_id u → stored_action after id = stored_action state id)
     ∧ (stored_action state (au_id u) = None →
        la_status <$> stored_action after (au_id u)
        = Some (default Streaming (au_status u)))
     ∧ ∀ prev, stored_action state (au_id u) = Some prev →
         ∃ m, stored_action after (au_id u) = Some m
              ∧ (au_description u = None →
                 la_description m = la_description prev)
              ∧ (au_result u = None → la_result m = la_result prev)
              ∧ (au_status u = None → la_status m = la_status prev)
              ∧ la_updatedAt m = Some (default now (au_updatedAt u)))
  ∧ (∀ u,
     let after := updateLiveReportSection now u state in
     (∀ id, id ≠ ru_id u → stored_section after id = stored_section state id)
     ∧ (stored_section state (ru_id u) = None →
        lr_status <$> stored_section after (ru_id u)
        = Some (default Streaming (ru_status u)))
     ∧ ∀ prev, stored_section state (ru_id u) = Some prev →
         ∃ m, stored_section after (ru_id u) = Some m
              ∧ (ru_heading u = None → lr_heading m = lr_heading prev)
              ∧ (ru_content u = None → lr_content m = lr_content prev)
              ∧ (ru_status u = None → lr_status m = lr_status prev)
              ∧ lr_updatedAt m = Some (default now (ru_updatedAt u))).
Proof.
  split_and!; intros u; cbv zeta.
  - unfold stored_insight, updateLiveInsight. simpl. split_and!.
    + intros id Hid. by rewrite lookup_insert_ne.
    + intros Hnone. rewrite lookup_insert_eq, Hnone. done.
    + intros prev Hprev. rewrite lookup_insert_eq, Hprev.
      eexists. split; [done|]. simpl.
      split_and!;
        try (intros ->; first [done|apply option_union_None_l]).
      by destruct (iu_updatedAt u).
  - unfold stored_action, updateLiveAction. simpl. split_and!.
    + intros id Hid. by rewrite lookup_insert_ne.
    + intros Hnone. rewrite lookup_insert_eq, Hnone. done.
    + intros prev Hprev. rewrite lookup_insert_eq, Hprev.
      eexists. split; [done|]. simpl.
      split_and!;
        try (intros ->; first [done|apply option_union_None_l]).
      by destruct (au_updatedAt u).
  - unfold stored_section, updateLiveReportSection. simpl. split_and!.
    + intros id Hid. by rewrite lookup_insert_ne.
    + intros Hnone. rewrite lookup_insert_eq, Hnone. done.
    + intros prev Hprev. rewrite lookup_insert_eq, Hprev.
      eexists. split; [done|]. simpl.
      split_and!;
        try (intros ->; first [done|apply option_union_None_l]).
      by destruct (ru_updatedAt u).
Qed.

Lemma X20_live_entities_witness :
  li_status
    <$> stored_insight
          (updateLiveInsight "t" {|
             iu_id := "i1"; iu_title := Some "title"; iu_summary := None;
             iu_sources := None; iu_status := None; iu_updatedAt := None |}
             initialState) "i1"
  = Some Streaming.
Proof.
  apply (X20_live_entities_keep_omitted_fields "t" initialState).
  reflexivity.
Defined.

(** X21: two updates of one insight, action or report section amount to
    the single update that merges them (a key of the later one wins), and
    updates of different ids can be swapped. *)
Theorem X21_live_updates_compose (t1 t2 : string) (state : WorkflowState) :
  (∀ u1 u2,
     (iu_id u1 = iu_id u2 →
      updateLiveInsight t2 u2 (updateLiveInsight t1 u1 state)
      = updateLiveInsight t2 (insight_update_merge u2 u1) state)
     ∧ (iu_id u1 ≠ iu_id u2 →
        updateLiveInsight t2 u2 (updateLiveInsight t1 u1 state)
        = updateLiveInsight t1 u1 (updateLiveInsight t2 u2 state)))
  ∧ (∀ u1 u2,
     (au_id u1 = au_id u2 →
      updateLiveAction t2 u2 (updateLiveAction t1 u1 state)
      = updateLiveAction t2 (action_update_merge u2 u1) state)
     ∧ (au_id u1 ≠ au_id u2 →
        updateLiveAction t2 u2 (updateLiveAction t1 u1 state)
        = updateLiveAction t1 u1 (updateLiveAction t2 u2 state)))
  ∧ (∀ u1 u2,
     (ru_id u1 = ru_id u2 →
      updateLiveReportSection t2 u2 (updateLiveReportSection t1 u1 state)
      = updateLiveReportSection t2 (section_update_merge u2 u1) state)
     ∧ (ru_id u1 ≠ ru_id u2 →
        updateLiveReportSection t2 u2 (updateLiveReportSection t1 u1 state)
        = updateLiveReportSection t1 u1
            (updateLiveReportSection t2 u2 state))).
Proof.
  split_and!; intros u1 u2; split.
  - intros Hid.
    unfold updateLiveInsight, set_researchAgentStatus, ras_with_liveInsights. simpl.
    rewrite Hid, lookup_insert_eq, insert_insert_eq. simpl.
    rewrite !option_union_assoc.
    by destruct (iu_status u2), (iu_status u1).
  - intros Hid.
    unfold updateLiveInsight, set_researchAgentStatus, ras_with_liveInsights. simpl.
    rewrite !lookup_insert_ne by done.
    by rewrite insert_insert_ne.
  - intros Hid.
    unfold updateLiveAction, set_researchAgentStatus, ras_with_liveActions. simpl.
    rewrite Hid, lookup_insert_eq, insert_insert_eq. simpl.
    rewrite !option_union_assoc.
    by destruct (au_status u2), (au_status u1).
  - intros Hid.
    unfold updateLiveAction, set_researchAgentStatus, ras_with_liveActions. simpl.
    rewrite !lookup_insert_ne by done.
    by rewrite insert_insert_ne.
  - intros Hid.
    unfold updateLiveReportSection, set_researchAgentStatus, ras_with_liveReportSections. simpl.
    rewrite Hid, lookup_insert_eq, insert_insert_eq. simpl.
    rewrite !option_union_assoc.
    by destruct (ru_status u2), (ru_status u1).
  - intros Hid.
    unfold updateLiveReportSection, set_researchAgentStatus, ras_with_liveReportSections. simpl.
    rewrite !lookup_insert_ne by done.
    by rewrite insert_insert_ne.
Qed.

Lemma X21_live_updates_witness :
  let u1 := {| au_id := "a1"; au_description := Some "search";
               au_result := None; au_status := None;
               au_updatedAt := None |} in
  let u2 := {| au_id := "a2"; au_description := None;
               au_result := Some "done"; au_status := Some Ready;
               au_updatedAt := None |} in
  updateLiveAction "t2" u2 (updateLiveAction "t1" u1 initialState)
  = updateLiveAction "t1" u1 (updateLiveAction "t2" u2 initialState).
Proof.
  intros u1 u2.
  destruct (X21_live_updates_compose "t1" "t2" initialState)
    as (_ & Hactions & _).
  apply (Hactions u1 u2). discriminate.
Defined.

(** ** Persisted goals without an id *)

Lemma omap_replicate {A B : Type} (f : A → option B) n x y :
  f x = Some y → omap f (replicate n x) = replicate n y.
Proof.
  intros Hf. induction n as [|n IH]; simpl; [done|].
  rewrite Hf. f_equal. exact IH.
Qed.

Lemma fmap_all_same {A B : Type} (f : A → B) (l : list A) (y : B) :
  (∀ x, x ∈ l → f x = y) → f <$> l = replicate (length l) y.
Proof.
  induction l as [|x l IH]; intros Hall; simpl; [done|].
  rewrite (Hall x) by left. f_equal. apply IH. intros z Hz. apply Hall.
  by right.
Qed.

Lemma setGoals_fold_last t gs g (m : gmap Z LiveGoal) (o : list Z) :
  last gs = Some g →
  ∃ live, (foldl (setGoals_each t) (m, o) gs).1 !! ge_id g = Some live
          ∧ lg_id live = ge_id g
          ∧ lg_goal_text live = Some (ge_goal_text g).
Proof.
  destruct gs as [|g0 gs] using rev_ind; [done|].
  rewrite last_snoc. intros [= ->]. rewrite foldl_app. simpl.
  destruct (foldl (setGoals_each t) (m, o) gs) as [m' o']. simpl.
  rewrite lookup_insert_eq. by eexists.
Qed.

(** X22: hydration gives the id 0 to every persisted goal that has no id
    (or the id 0).  When all goals of the session are such, they end up in
    one live goal: the goal order lists 0 once per goal, and the research
    page shows as many entries as there are goals, each of them the same
    one, with the text of the last goal. *)
Theorem X22_goals_without_ids_collapse (tGoals tPlan : string)
    (sessionData : HistorySessionDetail) (state : WorkflowState) :
  persisted_goals sessionData ≠ [] →
  (∀ g, g ∈ persisted_goals sessionData →
        first_nonzero (pg_id g) (pg_goal_id g) = 0%Z) →
  let after := hydrateWorkflowState tGoals tPlan sessionData state in
  let n := length (persisted_goals sessionData) in
  goal_order after = replicate n 0%Z
  ∧ ∃ live, goalItems (researchAgentStatus after) = replicate n live
            ∧ lg_id live = 0%Z
            ∧ lg_goal_text live
              = ge_goal_text <$> last (hydrated_goals sessionData).
Proof.
  intros Hne Hzero. cbv zeta.
  pose proof (hydrate_goal_fields tGoals tPlan sessionData state) as Hf.
  rewrite bool_decide_eq_true_2 in Hf by done.
  rewrite setGoals_unfold in Hf. unfold goal_fields in Hf. simpl in Hf.
  injection Hf as Hgoals Hlive Horder.
  assert (ge_id <$> hydrated_goals sessionData
          = replicate (length (persisted_goals sessionData)) 0%Z) as Hids.
  { unfold hydrated_goals. rewrite <- list_fmap_compose.
    by apply fmap_all_same. }
  assert (0 < length (persisted_goals sessionData)) as Hlen.
  { destruct (persisted_goals sessionData); [done|simpl; lia]. }
  destruct (setGoals_fold_spec tGoals (hydrated_goals sessionData)
              (ras_liveGoals (researchAgentStatus state)) [])
    as (Ho & _). simpl in Ho. rewrite Hids in Ho.
  rewrite Ho in Horder.
  rewrite bool_decide_eq_true_2 in Horder.
  2:{ intros Hnil. apply (f_equal length) in Hnil.
      rewrite length_replicate in Hnil. simpl in Hnil. lia. }
  destruct (last (hydrated_goals sessionData)) as [g|] eqn:Hlast.
  2:{ apply last_None in Hlast. apply (f_equal length) in Hlast.
      unfold hydrated_goals in Hlast. rewrite length_fmap in Hlast.
      simpl in Hlast. lia. }
  destruct (setGoals_fold_last tGoals (hydrated_goals sessionData) g
              (ras_liveGoals (researchAgentStatus state)) [] Hlast)
    as (live & Hlookup & Hid & Htext).
  assert (ge_id g = 0%Z) as Hg0.
  { apply last_Some_elem_of, (list_elem_of_fmap_2 ge_id) in Hlast.
    rewrite Hids in Hlast. by apply elem_of_replicate_inv in Hlast. }
  rewrite Hg0 in Hlookup, Hid.
  split; [done|].
  exists live. split_and!; [|done|done].
  unfold goalItems. cbv zeta. rewrite Horder, Hlive.
  rewrite (omap_replicate _ _ _ live) by done.
  rewrite !length_replicate.
  by rewrite bool_decide_eq_true_2.
Qed.

Lemma X22_goals_without_ids_witness :
  goal_order
    (hydrateWorkflowState "t1" "t2" session_without_goal_ids initialState)
  = [0; 0]%Z.
Proof.
  apply (X22_goals_without_ids_collapse "t1" "t2" session_without_goal_ids
           initialState).
  - discriminate.
  - intros g Hg. unfold persisted_goals in Hg. simpl in Hg.
    apply elem_of_cons in Hg as [->|Hg]; [reflexivity|].
    apply list_elem_of_singleton in Hg as ->. reflexivity.
Defined.

(** ** The research plan *)

Lemma setPlan_unfold t ps state :
  setPlan t (Some ps) state
  = let cur := researchAgentStatus state in
    let r := foldl (setPlan_each t) (ras_livePlanSteps cur, []) ps in
    set_researchAgentStatus
      (ras_with_plan cur (Some ps) r.1
         (if bool_decide (r.2 ≠ []) then r.2 else ras_planOrder cur))
      state.
Proof.
  unfold setPlan. simpl.
  change (λ (acc : gmap Z LivePlanStep * list Z) (step : PlanStep), _)
    with (setPlan_each t).
  by destruct (foldl (setPlan_each t) _ ps).
Qed.

Lemma setPlan_fold_spec t ps (m : gmap Z LivePlanStep) (o : list Z) :
  let r := foldl (setPlan_each t) (m, o) ps in
  r.2 = o ++ (ps_step_id <$> ps)
  ∧ (∀ id, id ∉ ps_step_id <$> ps → r.1 !! id = m !! id)
  ∧ (∀ p, p ∈ ps →
       ∃ live, r.1 !! ps_step_id p = Some live
               ∧ lp_step_id live = ps_step_id p
               ∧ lp_status live = Ready
               ∧ lp_updatedAt live = Some t)
  ∧ (NoDup (ps_step_id <$> ps) → ∀ p, p ∈ ps →
       r.1 !! ps_step_id p ≫= lp_goal = Some (ps_goal p)).
Proof.
  induction ps as [|p ps IH] using rev_ind; simpl.
  { split_and!.
    - by rewrite app_nil_r.
    - done.
    - by intros p ?%elem_of_nil.
    - by intros _ p ?%elem_of_nil. }
  rewrite foldl_app. simpl in *.
  destruct (foldl (setPlan_each t) (m, o) ps) as [m' o'].
  destruct IH as (Ho & Hother & Heach & Htext). simpl in *.
  rewrite fmap_app. simpl. split_and!.
  - by rewrite Ho, app_assoc.
  - intros id [Hid Hne%not_elem_of_cons]%not_elem_of_app.
    destruct Hne as [Hne _]. rewrite lookup_insert_ne by done. by apply Hother.
  - intros p0 Hp0.
    destruct (decide (ps_step_id p0 = ps_step_id p)) as [->|Hne].
    + rewrite lookup_insert_eq. by eexists.
    + rewrite lookup_insert_ne by done. apply Heach.
      apply elem_of_app in Hp0 as [?| ->%list_elem_of_singleton]; done.
  - intros [Hnd [Hfresh _]]%NoDup_app p0 Hp0.
    apply elem_of_app in Hp0 as [Hp0| ->%list_elem_of_singleton].
    + rewrite lookup_insert_ne; [by apply Htext|].
      intros Heq. apply (Hfresh (ps_step_id p0)).
      * by apply list_elem_of_fmap_2.
      * rewrite Heq. left.
    + by rewrite lookup_insert_eq.
Qed.

(** X23: [setPlan] with a non-empty plan replaces the plan order by the step
    ids of the plan as given, stores every step as ready with the time of
    the call, and keeps the live steps of all other ids (it never removes
    one); when the step ids are distinct each stored goal is the one of the
    plan.  The goals of the store are not touched.  With an empty plan the
    live steps and the order stay untouched. *)
Theorem X23_setPlan (timestamp : string) (ps : list PlanStep)
    (state : WorkflowState) :
  let after := setPlan timestamp (Some ps) state in
  (ps ≠ [] → plan_order after = ps_step_id <$> ps)
  ∧ (ps = [] → plan_order after = plan_order state)
  ∧ ras_plan (researchAgentStatus after) = Some ps
  ∧ goal_fields after = goal_fields state
  ∧ (∀ id, id ∉ ps_step_id <$> ps →
       stored_plan_step after id = stored_plan_step state id)
  ∧ (∀ p, p ∈ ps →
       ∃ live, stored_plan_step after (ps_step_id p) = Some live
               ∧ lp_step_id live = ps_step_id p
               ∧ lp_status live = Ready
               ∧ lp_updatedAt live = Some timestamp)
  ∧ (NoDup (ps_step_id <$> ps) → ∀ p, p ∈ ps →
       stored_plan_step after (ps_step_id p) ≫= lp_goal = Some (ps_goal p)).
Proof.
  simpl. unfold plan_order, stored_plan_step, goal_fields.
  rewrite setPlan_unfold. simpl.
  destruct (setPlan_fold_spec timestamp ps
              (ras_livePlanSteps (researchAgentStatus state)) [])
    as (Ho & Hother & Heach & Htext).
  split_and!; try done.
  - intros Hne. rewrite Ho. simpl.
    rewrite bool_decide_eq_true_2; [done|]. by intros ?%fmap_nil_inv.
  - intros ->. done.
Qed.

Lemma X23_setPlan_witness :
  plan_order
    (setPlan "t" (Some [sample_plan_step 2; sample_plan_step 1])
       (reported_state [sample_plan_step 1] []))
  = ps_step_id <$> [sample_plan_step 2; sample_plan_step 1].
Proof.
  apply (X23_setPlan "t" [sample_plan_step 2; sample_plan_step 1]
           (reported_state [sample_plan_step 1] [])).
  discriminate.
Defined.
